(** * Homer-Conferencing: the media source muxer

    A shallow embedding of [MediaSourceMuxer] (the transcode-and-relay
    pipeline of Homer-Conferencing) and the properties of its preference
    manager, resolution validator, frame-rate gate, transcode loop and
    device selector.

    Conventions.
    - A C++ [int] is a [Z] reduced to 32 bits after every arithmetic step
      ([int]); an [int64_t] likewise to 64 bits ([int64_t]).  Integer
      division truncates towards zero ([Z.quot]).
    - A C++ [float] or [double] is an IEEE value of [spec_float]; the
      binary32 operations are those of [SpecFloat] at precision 24.
    - The class is a record with the member variables the modelled member
      functions read or write; a member function is a function from the
      record (and the values it reads from its collaborators) to its
      result and the new record.
    - The collaborators the sources do not contain (the codec engine, the
      registered media sources, the wire constants) are records of the
      answers they give. *)

From Stdlib Require Import ZArith List String Bool Lia.
From Stdlib Require Import SpecFloat.
Import ListNotations.
Local Open Scope Z_scope.

(* ===================================================================== *)
(** * Part I: the program *)
(* ===================================================================== *)

(** ** Machine integers *)

Definition wrap (w z : Z) : Z := (z + 2 ^ (w - 1)) mod 2 ^ w - 2 ^ (w - 1).

Definition int (z : Z) : Z := wrap 32 z.
Definition int64_t (z : Z) : Z := wrap 64 z.

Definition INT_MIN : Z := - 2 ^ 31.
Definition INT_MAX : Z := 2 ^ 31 - 1.
Definition INT64_MIN : Z := - 2 ^ 63.
Definition INT64_MAX : Z := 2 ^ 63 - 1.

Definition in_int (z : Z) : Prop := INT_MIN <= z <= INT_MAX.
Definition in_int64 (z : Z) : Prop := INT64_MIN <= z <= INT64_MAX.

(** ** Floating point

    [float] values are binary32, [double] values binary64.  A comparison
    between a [float] and a [double] literal converts the [float] to
    [double] first, which keeps its value: [Fcompare] compares the values
    exactly, whatever the two formats are. *)

Definition float := spec_float.

Definition Fscaled (s : bool) (m : positive) (e e0 : Z) : Z :=
  let v := Z.pos m * 2 ^ (e - e0) in if s then - v else v.

Definition Fcompare (x y : float) : option comparison :=
  match x, y with
  | S754_nan, _ | _, S754_nan => None
  | S754_infinity s1, S754_infinity s2 =>
      Some (match s1, s2 with
            | true, true | false, false => Eq
            | true, false => Lt
            | false, true => Gt
            end)
  | S754_infinity s, _ => Some (if s then Lt else Gt)
  | _, S754_infinity s => Some (if s then Gt else Lt)
  | S754_zero _, S754_zero _ => Some Eq
  | S754_zero _, S754_finite s _ _ => Some (if s then Gt else Lt)
  | S754_finite s _ _, S754_zero _ => Some (if s then Lt else Gt)
  | S754_finite s1 m1 e1, S754_finite s2 m2 e2 =>
      let e0 := Z.min e1 e2 in
      Some (Z.compare (Fscaled s1 m1 e1 e0) (Fscaled s2 m2 e2 e0))
  end.

(** [x > y], [x < y], [x == y] and [x != y] of C++. *)
Definition Fgt (x y : float) : bool :=
  match Fcompare x y with Some Gt => true | _ => false end.
Definition Flt (x y : float) : bool :=
  match Fcompare x y with Some Lt => true | _ => false end.
Definition Feq (x y : float) : bool :=
  match Fcompare x y with Some Eq => true | _ => false end.
Definition Fne (x y : float) : bool := negb (Feq x y).
Definition Fle (x y : float) : bool :=
  match Fcompare x y with Some Lt | Some Eq => true | _ => false end.

Definition is_nan (x : float) : bool :=
  match x with S754_nan => true | _ => false end.

(** Conversion of an integer to [float] (round to nearest even). *)
Definition float_of_int (z : Z) : float := binary_normalize 24 128 z 0 false.

(** Division of two [float]s. *)
Definition Fdiv (x y : float) : float := SFdiv 24 128 x y.

(** The [double] literal [29.97] and its conversion to [float]. *)
Definition double_29_97 : float := S754_finite false 8435805052018360 (-48).
Definition float_29_97 : float :=
  binary_normalize 24 128 8435805052018360 (-48) false.
Definition float_5 : float := float_of_int 5.

(** Conversion of a [float] to [int64_t]: the fraction is discarded; the
    conversion is undefined ([None]) for a NaN, an infinity or a value
    outside the range of [int64_t]. *)
Definition int64_of_float (x : float) : option Z :=
  match x with
  | S754_nan | S754_infinity _ => None
  | S754_zero _ => Some 0
  | S754_finite s m e =>
      let a := if 0 <=? e then Z.pos m * 2 ^ e else Z.pos m / 2 ^ (- e) in
      let v := if s then - a else a in
      if (INT64_MIN <=? v) && (v <=? INT64_MAX) then Some v else None
  end.

(** ** Codecs and media types *)

Inductive AVCodecID : Type :=
| AV_CODEC_ID_NONE
| AV_CODEC_ID_H261
| AV_CODEC_ID_H263
| AV_CODEC_ID_H263P
| AV_CODEC_ID_H264
| AV_CODEC_ID_HEVC
| AV_CODEC_ID_THEORA
| AV_CODEC_ID_MPEG1VIDEO
| AV_CODEC_ID_MPEG2VIDEO
| AV_CODEC_ID_MPEG4
| AV_CODEC_ID_MJPEG
| AV_CODEC_ID_VP8
| AV_CODEC_ID_ADPCM_G722
| AV_CODEC_ID_AMR_NB
| AV_CODEC_ID_GSM
| AV_CODEC_ID_PCM_ALAW
| AV_CODEC_ID_PCM_MULAW
| AV_CODEC_ID_PCM_S16BE
| AV_CODEC_ID_MP3
| AV_CODEC_ID_AAC.

Definition AVCodecID_eq_dec (a b : AVCodecID) : {a = b} + {a <> b}.
Proof. decide equality. Defined.

Definition codec_eqb (a b : AVCodecID) : bool :=
  if AVCodecID_eq_dec a b then true else false.

Inductive MediaType : Type := MEDIA_UNKNOWN | MEDIA_VIDEO | MEDIA_AUDIO.

Inductive AVSampleFormat : Type := AV_SAMPLE_FMT_S16 | AV_SAMPLE_FMT_S16P.

Definition av_sample_fmt_is_planar (f : AVSampleFormat) : bool :=
  match f with AV_SAMPLE_FMT_S16P => true | AV_SAMPLE_FMT_S16 => false end.

Definition av_get_bytes_per_sample (f : AVSampleFormat) : Z := 2.

(** ** The resolution validator *)

(** [MediaSourceMuxer::ValidateVideoResolutionForEncoderCodec]; the two
    reference parameters are returned as a pair. *)
Definition ValidateVideoResolutionForEncoderCodec
    (pResX pResY : Z) (pCodec : AVCodecID) : Z * Z :=
  match pCodec with
  | AV_CODEC_ID_H261 =>
      if 176 <? pResX then (352, 288) else (176, 144)
  | AV_CODEC_ID_H263 =>
      if 704 <? pResX then (1408, 1152)
      else if 352 <? pResX then (704, 576)
      else if 176 <? pResX then (352, 288)
      else if 128 <? pResX then (176, 144)
      else (128, 96)
  | AV_CODEC_ID_H263P =>
      let '(x, y) :=
        if (2048 <? pResX) || (1152 <? pResY) then (2048, 1152)
        else (pResX, pResY) in
      (int (Z.quot (int (x + 3)) 4 * 4), int (Z.quot (int (y + 3)) 4 * 4))
  | AV_CODEC_ID_H264 | AV_CODEC_ID_HEVC =>
      (int (Z.quot (int (pResX + 1)) 2 * 2),
       int (Z.quot (int (pResY + 1)) 2 * 2))
  | AV_CODEC_ID_THEORA => (352, 288)
  | _ => (pResX, pResY)
  end.

(** ** Collaborators *)

(** The constants of the headers the muxer includes ([HBSocket.h],
    [MediaSinkNet.h], [RTP.h], [MediaSourceMem.h], [MediaSourceMuxer.h]);
    the headers are not among the sources, so the values are parameters. *)
Record WireConstants : Type := {
  IP6_HEADER_SIZE : Z;
  IP_OPTIONS_SIZE : Z;
  TCP_HEADER_SIZE : Z;
  TCP_FRAGMENT_HEADER_SIZE : Z;
  GetHeaderSizeMax : AVCodecID -> Z;
  MEDIA_SOURCE_MEM_FRAGMENT_BUFFER_SIZE : Z;
  MEDIA_SOURCE_MUX_INPUT_QUEUE_SIZE_LIMIT : Z;
  MEDIA_SOURCE_SAMPLES_PER_BUFFER : Z
}.

(** The codec engine (ffmpeg) and the codec name table of [MediaSource]:
    what each call answers. *)
Record CodecEngine : Type := {
  GetCodecIDFromGuiName : string -> AVCodecID;
  GetGuiNameFromCodecID : AVCodecID -> string;
  avcodec_find_encoder : AVCodecID -> bool;
  avcodec_get_context_defaults3 : AVCodecID -> bool;
  (** [HM_avcodec_open codec withOptions]: did the codec open? *)
  HM_avcodec_open : AVCodecID -> bool -> bool;
  (** the [frame_size] the opened audio encoder reports *)
  codec_frame_size : AVCodecID -> Z;
  (** [ContainsOnlySilence] of [MediaSource], at a silence threshold *)
  ContainsOnlySilence : Z -> list Z -> bool;
  (** [HM_swr_convert] on a payload of so many samples per channel: the
      number of samples per channel it produces and the planes it fills *)
  HM_swr_convert : list Z -> Z -> Z * list (list Z);
  (** [av_rescale_q] from samples to the time base of the codec context *)
  av_rescale_q : Z -> Z
}.

(** A registered media source (a [MediaSource*] of [mMediaSources]): what
    its virtual member functions answer.  [src_SelectDevice] receives the
    value of the reference parameter [pIsNewDevice] and returns the result
    together with the value it leaves there. *)
Record MediaSource : Type := {
  src_SelectDevice : string -> MediaType -> bool -> bool * bool;
  src_OpenVideoGrabDevice : bool;
  src_OpenAudioGrabDevice : bool;
  src_GetInputFrameRate : float;
  src_GetOutputFrameRate : float;
  src_GetVideoSourceResolution : Z * Z;
  src_HasVariableOutputFrameRate : bool
}.

(** The world of one muxer: the constants, the codec engine and the
    objects behind the [MediaSource*] pointers (a pointer is a [nat]). *)
Record Env : Type := {
  wire : WireConstants;
  engine : CodecEngine;
  source_at : nat -> MediaSource;
  (** the pointer [new MediaSourceFile(name)] returns *)
  new_MediaSourceFile : string -> nat
}.

(** ** The frame queue *)

Record FifoEntry : Type := {
  fe_buffer : list Z;
  fe_size : Z;
  fe_timestamp : Z
}.

(** Modelled from the spec: [MediaFifo] ([MediaFifo.h] is included, the
    class itself is not among the sources).  A bounded queue of entries;
    [fifo_reading] holds the entry of the one outstanding read ticket. *)
Record MediaFifo : Type := {
  fifo_capacity : Z;
  fifo_entries : list FifoEntry;
  fifo_reading : option FifoEntry
}.

(** Modelled from the spec: [usage()], the number of buffered entries. *)
Definition GetUsage (q : MediaFifo) : Z :=
  Z.of_nat (List.length (fifo_entries q)).

(** Modelled from the spec: [write(payload, length, timestamp)] of the
    capacity-bounded queue; a write into a full queue stores nothing. *)
Definition WriteFifo (q : MediaFifo) (pBuffer : list Z) (pSize pTimestamp : Z)
  : MediaFifo :=
  if GetUsage q <? fifo_capacity q
  then {| fifo_capacity := fifo_capacity q;
          fifo_entries := fifo_entries q ++
                          [{| fe_buffer := pBuffer; fe_size := pSize;
                              fe_timestamp := pTimestamp |}];
          fifo_reading := fifo_reading q |}
  else q.

(** Modelled from the spec: [readExclusive()].  The call blocks ([None])
    while the queue is empty or a ticket is outstanding; otherwise it
    hands out the oldest entry under ticket [0]. *)
Definition ReadFifoExclusive (q : MediaFifo)
  : option (Z * FifoEntry * MediaFifo) :=
  match fifo_reading q, fifo_entries q with
  | None, e :: rest =>
      Some (0, e, {| fifo_capacity := fifo_capacity q;
                     fifo_entries := rest;
                     fifo_reading := Some e |})
  | _, _ => None
  end.

(** Modelled from the spec: [readExclusiveFinished(ticket)]. *)
Definition ReadFifoExclusiveFinished (q : MediaFifo) (ticket : Z) : MediaFifo :=
  {| fifo_capacity := fifo_capacity q;
     fifo_entries := fifo_entries q;
     fifo_reading := None |}.

(** Modelled from the spec: [clear()]. *)
Definition ClearFifo (q : MediaFifo) : MediaFifo :=
  {| fifo_capacity := fifo_capacity q;
     fifo_entries := [];
     fifo_reading := fifo_reading q |}.

(** ** The muxer object *)

(** The member variables of [MediaSourceMuxer] (and of its base class
    [MediaSource]) that the member functions below read or write;
    [frame_size] is [mCodecContext->frame_size], [mAudioResampleContext]
    tells whether the pointer of that name is non-null, a resample FIFO
    is the list of the bytes it holds. *)
Record MediaSourceMuxer : Type := Build_MediaSourceMuxer {
  mStreamCodecId : AVCodecID;
  mStreamMaxPacketSize : Z;
  mStreamQuality : Z;
  mStreamBitRate : Z;
  mStreamMaxFps : Z;
  mStreamMaxFps_LastFrame_Timestamp : Z;
  mCurrentStreamingResX : Z;
  mCurrentStreamingResY : Z;
  mRequestedStreamingResX : Z;
  mRequestedStreamingResY : Z;
  mSourceResX : Z;
  mSourceResY : Z;
  mInputFrameRate : float;
  mOutputFrameRate : float;
  mInputAudioChannels : Z;
  mInputAudioSampleRate : Z;
  mOutputAudioChannels : Z;
  mOutputAudioSampleRate : Z;
  mOutputAudioFormat : AVSampleFormat;
  frame_size : Z;
  mAudioResampleContext : bool;
  mMediaType : MediaType;
  mMediaSourceOpened : bool;
  mGrabbingStopped : bool;
  mMediaSource : option nat;
  mMediaSources : list nat;
  mMediaSinks : list nat;
  mCurrentDevice : string;
  mDesiredDevice : string;
  mStreamActivated : bool;
  mRelayingSkipAudioSilence : bool;
  mRelayingSkipAudioSilenceSkippedChunks : Z;
  mAudioSilenceThreshold : Z;
  mEncoderThreadNeeded : bool;
  mFrameNumber : Z;
  mEncoderStartTime : Z;
  mResampleFifo : list (list Z);
  mEncoderFifo : option MediaFifo
}.

Definition set_mStreamCodecId (v : AVCodecID) (m : MediaSourceMuxer) :=
  Build_MediaSourceMuxer v (mStreamMaxPacketSize m) (mStreamQuality m)
    (mStreamBitRate m) (mStreamMaxFps m) (mStreamMaxFps_LastFrame_Timestamp m)
    (mCurrentStreamingResX m) (mCurrentStreamingResY m)
    (mRequestedStreamingResX m) (mRequestedStreamingResY m) (mSourceResX m)
    (mSourceResY m) (mInputFrameRate m) (mOutputFrameRate m)
    (mInputAudioChannels m) (mInputAudioSampleRate m) (mOutputAudioChannels m)
    (mOutputAudioSampleRate m) (mOutputAudioFormat m) (frame_size m)
    (mAudioResampleContext m) (mMediaType m) (mMediaSourceOpened m)
    (mGrabbingStopped m) (mMediaSource m) (mMediaSources m) (mMediaSinks m)
    (mCurrentDevice m) (mDesiredDevice m) (mStreamActivated m)
    (mRelayingSkipAudioSilence m) (mRelayingSkipAudioSilenceSkippedChunks m)
    (mAudioSilenceThreshold m) (mEncoderThreadNeeded m) (mFrameNumber m)
    (mEncoderStartTime m) (mResampleFifo m) (mEncoderFifo m).

Definition set_mStreamMaxPacketSize (v : Z) (m : MediaSourceMuxer) :=
  Build_MediaSourceMuxer (mStreamCodecId m) v (mStreamQuality m)
    (mStreamBitRate m) (mStreamMaxFps m) (mStreamMaxFps_LastFrame_Timestamp m)
    (mCurrentStreamingResX m) (mCurrentStreamingResY m)
    (mRequestedStreamingResX m) (mRequestedStreamingResY m) (mSourceResX m)
    (mSourceResY m) (mInputFrameRate m) (mOutputFrameRate m)
    (mInputAudioChannels m) (mInputAudioSampleRate m) (mOutputAudioChannels m)
    (mOutputAudioSampleRate m) (mOutputAudioFormat m) (frame_size m)
    (mAudioResampleContext m) (mMediaType m) (mMediaSourceOpened m)
    (mGrabbingStopped m) (mMediaSource m) (mMediaSources m) (mMediaSinks m)
    (mCurrentDevice m) (mDesiredDevice m) (mStreamActivated m)
    (mRelayingSkipAudioSilence m) (mRelayingSkipAudioSilenceSkippedChunks m)
    (mAudioSilenceThreshold m) (mEncoderThreadNeeded m) (mFrameNumber m)
    (mEncoderStartTime m) (mResampleFifo m) (mEncoderFifo m).

Definition set_mStreamQuality (v : Z) (m : MediaSourceMuxer) :=
  Build_MediaSourceMuxer (mStreamCodecId m) (mStreamMaxPacketSize m) v
    (mStreamBitRate m) (mStreamMaxFps m) (mStreamMaxFps_LastFrame_Timestamp m)
    (mCurrentStreamingResX m) (mCurrentStreamingResY m)
    (mRequestedStreamingResX m) (mRequestedStreamingResY m) (mSourceResX m)
    (mSourceResY m) (mInputFrameRate m) (mOutputFrameRate m)
    (mInputAudioChannels m) (mInputAudioSampleRate m) (mOutputAudioChannels m)
    (mOutputAudioSampleRate m) (mOutputAudioFormat m) (frame_size m)
    (mAudioResampleContext m) (mMediaType m) (mMediaSourceOpened m)
    (mGrabbingStopped m) (mMediaSource m) (mMediaSources m) (mMediaSinks m)
    (mCurrentDevice m) (mDesiredDevice m) (mStreamActivated m)
    (mRelayingSkipAudioSilence m) (mRelayingSkipAudioSilenceSkippedChunks m)
    (mAudioSilenceThreshold m) (mEncoderThreadNeeded m) (mFrameNumber m)
    (mEncoderStartTime m) (mResampleFifo m) (mEncoderFifo m).

Definition set_mStreamBitRate (v : Z) (m : MediaSourceMuxer) :=
  Build_MediaSourceMuxer (mStreamCodecId m) (mStreamMaxPacketSize m)
    (mStreamQuality m) v (mStreamMaxFps m)
    (mStreamMaxFps_LastFrame_Timestamp m) (mCurrentStreamingResX m)
    (mCurrentStreamingResY m) (mRequestedStreamingResX m)
    (mRequestedStreamingResY m) (mSourceResX m) (mSourceResY m)
    (mInputFrameRate m) (mOutputFrameRate m) (mInputAudioChannels m)
    (mInputAudioSampleRate m) (mOutputAudioChannels m)
    (mOutputAudioSampleRate m) (mOutputAudioFormat m) (frame_size m)
    (mAudioResampleContext m) (mMediaType m) (mMediaSourceOpened m)
    (mGrabbingStopped m) (mMediaSource m) (mMediaSources m) (mMediaSinks m)
    (mCurrentDevice m) (mDesiredDevice m) (mStreamActivated m)
    (mRelayingSkipAudioSilence m) (mRelayingSkipAudioSilenceSkippedChunks m)
    (mAudioSilenceThreshold m) (mEncoderThreadNeeded m) (mFrameNumber m)
    (mEncoderStartTime m) (mResampleFifo m) (mEncoderFifo m).

Definition set_mStreamMaxFps (v : Z) (m : MediaSourceMuxer) :=
  Build_MediaSourceMuxer (mStreamCodecId m) (mStreamMaxPacketSize m)
    (mStreamQuality m) (mStreamBitRate m) v
    (mStreamMaxFps_LastFrame_Timestamp m) (mCurrentStreamingResX m)
    (mCurrentStreamingResY m) (mRequestedStreamingResX m)
    (mRequestedStreamingResY m) (mSourceResX m) (mSourceResY m)
    (mInputFrameRate m) (mOutputFrameRate m) (mInputAudioChannels m)
    (mInputAudioSampleRate m) (mOutputAudioChannels m)
    (mOutputAudioSampleRate m) (mOutputAudioFormat m) (frame_size m)
    (mAudioResampleContext m) (mMediaType m) (mMediaSourceOpened m)
    (mGrabbingStopped m) (mMediaSource m) (mMediaSources m) (mMediaSinks m)
    (mCurrentDevice m) (mDesiredDevice m) (mStreamActivated m)
    (mRelayingSkipAudioSilence m) (mRelayingSkipAudioSilenceSkippedChunks m)
    (mAudioSilenceThreshold m) (mEncoderThreadNeeded m) (mFrameNumber m)
    (mEncoderStartTime m) (mResampleFifo m) (mEncoderFifo m).

Definition set_mStreamMaxFps_LastFrame_Timestamp (v : Z) (m : MediaSourceMuxer) :=
  Build_MediaSourceMuxer (mStreamCodecId m) (mStreamMaxPacketSize m)
    (mStreamQuality m) (mStreamBitRate m) (mStreamMaxFps m) v
    (mCurrentStreamingResX m) (mCurrentStreamingResY m)
    (mRequestedStreamingResX m) (mRequestedStreamingResY m) (mSourceResX m)
    (mSourceResY m) (mInputFrameRate m) (mOutputFrameRate m)
    (mInputAudioChannels m) (mInputAudioSampleRate m) (mOutputAudioChannels m)
    (mOutputAudioSampleRate m) (mOutputAudioFormat m) (frame_size m)
    (mAudioResampleContext m) (mMediaType m) (mMediaSourceOpened m)
    (mGrabbingStopped m) (mMediaSource m) (mMediaSources m) (mMediaSinks m)
    (mCurrentDevice m) (mDesiredDevice m) (mStreamActivated m)
    (mRelayingSkipAudioSilence m) (mRelayingSkipAudioSilenceSkippedChunks m)
    (mAudioSilenceThreshold m) (mEncoderThreadNeeded m) (mFrameNumber m)
    (mEncoderStartTime m) (mResampleFifo m) (mEncoderFifo m).

Definition set_mCurrentStreamingResX (v : Z) (m : MediaSourceMuxer) :=
  Build_MediaSourceMuxer (mStreamCodecId m) (mStreamMaxPacketSize m)
    (mStreamQuality m) (mStreamBitRate m) (mStreamMaxFps m)
    (mStreamMaxFps_LastFrame_Timestamp m) v (mCurrentStreamingResY m)
    (mRequestedStreamingResX m) (mRequestedStreamingResY m) (mSourceResX m)
    (mSourceResY m) (mInputFrameRate m) (mOutputFrameRate m)
    (mInputAudioChannels m) (mInputAudioSampleRate m) (mOutputAudioChannels m)
    (mOutputAudioSampleRate m) (mOutputAudioFormat m) (frame_size m)
    (mAudioResampleContext m) (mMediaType m) (mMediaSourceOpened m)
    (mGrabbingStopped m) (mMediaSource m) (mMediaSources m) (mMediaSinks m)
    (mCurrentDevice m) (mDesiredDevice m) (mStreamActivated m)
    (mRelayingSkipAudioSilence m) (mRelayingSkipAudioSilenceSkippedChunks m)
    (mAudioSilenceThreshold m) (mEncoderThreadNeeded m) (mFrameNumber m)
    (mEncoderStartTime m) (mResampleFifo m) (mEncoderFifo m).

Definition set_mCurrentStreamingResY (v : Z) (m : MediaSourceMuxer) :=
  Build_MediaSourceMuxer (mStreamCodecId m) (mStreamMaxPacketSize m)
    (mStreamQuality m) (mStreamBitRate m) (mStreamMaxFps m)
    (mStreamMaxFps_LastFrame_Timestamp m) (mCurrentStreamingResX m) v
    (mRequestedStreamingResX m) (mRequestedStreamingResY m) (mSourceResX m)
    (mSourceResY m) (mInputFrameRate m) (mOutputFrameRate m)
    (mInputAudioChannels m) (mInputAudioSampleRate m) (mOutputAudioChannels m)
    (mOutputAudioSampleRate m) (mOutputAudioFormat m) (frame_size m)
    (mAudioResampleContext m) (mMediaType m) (mMediaSourceOpened m)
    (mGrabbingStopped m) (mMediaSource m) (mMediaSources m) (mMediaSinks m)
    (mCurrentDevice m) (mDesiredDevice m) (mStreamActivated m)
    (mRelayingSkipAudioSilence m) (mRelayingSkipAudioSilenceSkippedChunks m)
    (mAudioSilenceThreshold m) (mEncoderThreadNeeded m) (mFrameNumber m)
    (mEncoderStartTime m) (mResampleFifo m) (mEncoderFifo m).

Definition set_mRequestedStreamingResX (v : Z) (m : MediaSourceMuxer) :=
  Build_MediaSourceMuxer (mStreamCodecId m) (mStreamMaxPacketSize m)
    (mStreamQuality m) (mStreamBitRate m) (mStreamMaxFps m)
    (mStreamMaxFps_LastFrame_Timestamp m) (mCurrentStreamingResX m)
    (mCurrentStreamingResY m) v (mRequestedStreamingResY m) (mSourceResX m)
    (mSourceResY m) (mInputFrameRate m) (mOutputFrameRate m)
    (mInputAudioChannels m) (mInputAudioSampleRate m) (mOutputAudioChannels m)
    (mOutputAudioSampleRate m) (mOutputAudioFormat m) (frame_size m)
    (mAudioResampleContext m) (mMediaType m) (mMediaSourceOpened m)
    (mGrabbingStopped m) (mMediaSource m) (mMediaSources m) (mMediaSinks m)
    (mCurrentDevice m) (mDesiredDevice m) (mStreamActivated m)
    (mRelayingSkipAudioSilence m) (mRelayingSkipAudioSilenceSkippedChunks m)
    (mAudioSilenceThreshold m) (mEncoderThreadNeeded m) (mFrameNumber m)
    (mEncoderStartTime m) (mResampleFifo m) (mEncoderFifo m).

Definition set_mRequestedStreamingResY (v : Z) (m : MediaSourceMuxer) :=
  Build_MediaSourceMuxer (mStreamCodecId m) (mStreamMaxPacketSize m)
    (mStreamQuality m) (mStreamBitRate m) (mStreamMaxFps m)
    (mStreamMaxFps_LastFrame_Timestamp m) (mCurrentStreamingResX m)
    (mCurrentStreamingResY m) (mRequestedStreamingResX m) v (mSourceResX m)
    (mSourceResY m) (mInputFrameRate m) (mOutputFrameRate m)
    (mInputAudioChannels m) (mInputAudioSampleRate m) (mOutputAudioChannels m)
    (mOutputAudioSampleRate m) (mOutputAudioFormat m) (frame_size m)
    (mAudioResampleContext m) (mMediaType m) (mMediaSourceOpened m)
    (mGrabbingStopped m) (mMediaSource m) (mMediaSources m) (mMediaSinks m)
    (mCurrentDevice m) (mDesiredDevice m) (mStreamActivated m)
    (mRelayingSkipAudioSilence m) (mRelayingSkipAudioSilenceSkippedChunks m)
    (mAudioSilenceThreshold m) (mEncoderThreadNeeded m) (mFrameNumber m)
    (mEncoderStartTime m) (mResampleFifo m) (mEncoderFifo m).

Definition set_mSourceResX (v : Z) (m : MediaSourceMuxer) :=
  Build_MediaSourceMuxer (mStreamCodecId m) (mStreamMaxPacketSize m)
    (mStreamQuality m) (mStreamBitRate m) (mStreamMaxFps m)
    (mStreamMaxFps_LastFrame_Timestamp m) (mCurrentStreamingResX m)
    (mCurrentStreamingResY m) (mRequestedStreamingResX m)
    (mRequestedStreamingResY m) v (mSourceResY m) (mInputFrameRate m)
    (mOutputFrameRate m) (mInputAudioChannels m) (mInputAudioSampleRate m)
    (mOutputAudioChannels m) (mOutputAudioSampleRate m) (mOutputAudioFormat m)
    (frame_size m) (mAudioResampleContext m) (mMediaType m)
    (mMediaSourceOpened m) (mGrabbingStopped m) (mMediaSource m)
    (mMediaSources m) (mMediaSinks m) (mCurrentDevice m) (mDesiredDevice m)
    (mStreamActivated m) (mRelayingSkipAudioSilence m)
    (mRelayingSkipAudioSilenceSkippedChunks m) (mAudioSilenceThreshold m)
    (mEncoderThreadNeeded m) (mFrameNumber m) (mEncoderStartTime m)
    (mResampleFifo m) (mEncoderFifo m).

Definition set_mSourceResY (v : Z) (m : MediaSourceMuxer) :=
  Build_MediaSourceMuxer (mStreamCodecId m) (mStreamMaxPacketSize m)
    (mStreamQuality m) (mStreamBitRate m) (mStreamMaxFps m)
    (mStreamMaxFps_LastFrame_Timestamp m) (mCurrentStreamingResX m)
    (mCurrentStreamingResY m) (mRequestedStreamingResX m)
    (mRequestedStreamingResY m) (mSourceResX m) v (mInputFrameRate m)
    (mOutputFrameRate m) (mInputAudioChannels m) (mInputAudioSampleRate m)
    (mOutputAudioChannels m) (mOutputAudioSampleRate m) (mOutputAudioFormat m)
    (frame_size m) (mAudioResampleContext m) (mMediaType m)
    (mMediaSourceOpened m) (mGrabbingStopped m) (mMediaSource m)
    (mMediaSources m) (mMediaSinks m) (mCurrentDevice m) (mDesiredDevice m)
    (mStreamActivated m) (mRelayingSkipAudioSilence m)
    (mRelayingSkipAudioSilenceSkippedChunks m) (mAudioSilenceThreshold m)
    (mEncoderThreadNeeded m) (mFrameNumber m) (mEncoderStartTime m)
    (mResampleFifo m) (mEncoderFifo m).

Definition set_mInputFrameRate (v : float) (m : MediaSourceMuxer) :=
  Build_MediaSourceMuxer (mStreamCodecId m) (mStreamMaxPacketSize m)
    (mStreamQuality m) (mStreamBitRate m) (mStreamMaxFps m)
    (mStreamMaxFps_LastFrame_Timestamp m) (mCurrentStreamingResX m)
    (mCurrentStreamingResY m) (mRequestedStreamingResX m)
    (mRequestedStreamingResY m) (mSourceResX m) (mSourceResY m) v
    (mOutputFrameRate m) (mInputAudioChannels m) (mInputAudioSampleRate m)
    (mOutputAudioChannels m) (mOutputAudioSampleRate m) (mOutputAudioFormat m)
    (frame_size m) (mAudioResampleContext m) (mMediaType m)
    (mMediaSourceOpened m) (mGrabbingStopped m) (mMediaSource m)
    (mMediaSources m) (mMediaSinks m) (mCurrentDevice m) (mDesiredDevice m)
    (mStreamActivated m) (mRelayingSkipAudioSilence m)
    (mRelayingSkipAudioSilenceSkippedChunks m) (mAudioSilenceThreshold m)
    (mEncoderThreadNeeded m) (mFrameNumber m) (mEncoderStartTime m)
    (mResampleFifo m) (mEncoderFifo m).

Definition set_mOutputFrameRate (v : float) (m : MediaSourceMuxer) :=
  Build_MediaSourceMuxer (mStreamCodecId m) (mStreamMaxPacketSize m)
    (mStreamQuality m) (mStreamBitRate m) (mStreamMaxFps m)
    (mStreamMaxFps_LastFrame_Timestamp m) (mCurrentStreamingResX m)
    (mCurrentStreamingResY m) (mRequestedStreamingResX m)
    (mRequestedStreamingResY m) (mSourceResX m) (mSourceResY m)
    (mInputFrameRate m) v (mInputAudioChannels m) (mInputAudioSampleRate m)
    (mOutputAudioChannels m) (mOutputAudioSampleRate m) (mOutputAudioFormat m)
    (frame_size m) (mAudioResampleContext m) (mMediaType m)
    (mMediaSourceOpened m) (mGrabbingStopped m) (mMediaSource m)
    (mMediaSources m) (mMediaSinks m) (mCurrentDevice m) (mDesiredDevice m)
    (mStreamActivated m) (mRelayingSkipAudioSilence m)
    (mRelayingSkipAudioSilenceSkippedChunks m) (mAudioSilenceThreshold m)
    (mEncoderThreadNeeded m) (mFrameNumber m) (mEncoderStartTime m)
    (mResampleFifo m) (mEncoderFifo m).

Definition set_mInputAudioChannels (v : Z) (m : MediaSourceMuxer) :=
  Build_MediaSourceMuxer (mStreamCodecId m) (mStreamMaxPacketSize m)
    (mStreamQuality m) (mStreamBitRate m) (mStreamMaxFps m)
    (mStreamMaxFps_LastFrame_Timestamp m) (mCurrentStreamingResX m)
    (mCurrentStreamingResY m) (mRequestedStreamingResX m)
    (mRequestedStreamingResY m) (mSourceResX m) (mSourceResY m)
    (mInputFrameRate m) (mOutputFrameRate m) v (mInputAudioSampleRate m)
    (mOutputAudioChannels m) (mOutputAudioSampleRate m) (mOutputAudioFormat m)
    (frame_size m) (mAudioResampleContext m) (mMediaType m)
    (mMediaSourceOpened m) (mGrabbingStopped m) (mMediaSource m)
    (mMediaSources m) (mMediaSinks m) (mCurrentDevice m) (mDesiredDevice m)
    (mStreamActivated m) (mRelayingSkipAudioSilence m)
    (mRelayingSkipAudioSilenceSkippedChunks m) (mAudioSilenceThreshold m)
    (mEncoderThreadNeeded m) (mFrameNumber m) (mEncoderStartTime m)
    (mResampleFifo m) (mEncoderFifo m).

Definition set_mInputAudioSampleRate (v : Z) (m : MediaSourceMuxer) :=
  Build_MediaSourceMuxer (mStreamCodecId m) (mStreamMaxPacketSize m)
    (mStreamQuality m) (mStreamBitRate m) (mStreamMaxFps m)
    (mStreamMaxFps_LastFrame_Timestamp m) (mCurrentStreamingResX m)
    (mCurrentStreamingResY m) (mRequestedStreamingResX m)
    (mRequestedStreamingResY m) (mSourceResX m) (mSourceResY m)
    (mInputFrameRate m) (mOutputFrameRate m) (mInputAudioChannels m) v
    (mOutputAudioChannels m) (mOutputAudioSampleRate m) (mOutputAudioFormat m)
    (frame_size m) (mAudioResampleContext m) (mMediaType m)
    (mMediaSourceOpened m) (mGrabbingStopped m) (mMediaSource m)
    (mMediaSources m) (mMediaSinks m) (mCurrentDevice m) (mDesiredDevice m)
    (mStreamActivated m) (mRelayingSkipAudioSilence m)
    (mRelayingSkipAudioSilenceSkippedChunks m) (mAudioSilenceThreshold m)
    (mEncoderThreadNeeded m) (mFrameNumber m) (mEncoderStartTime m)
    (mResampleFifo m) (mEncoderFifo m).

Definition set_mOutputAudioChannels (v : Z) (m : MediaSourceMuxer) :=
  Build_MediaSourceMuxer (mStreamCodecId m) (mStreamMaxPacketSize m)
    (mStreamQuality m) (mStreamBitRate m) (mStreamMaxFps m)
    (mStreamMaxFps_LastFrame_Timestamp m) (mCurrentStreamingResX m)
    (mCurrentStreamingResY m) (mRequestedStreamingResX m)
    (mRequestedStreamingResY m) (mSourceResX m) (mSourceResY m)
    (mInputFrameRate m) (mOutputFrameRate m) (mInputAudioChannels m)
    (mInputAudioSampleRate m) v (mOutputAudioSampleRate m)
    (mOutputAudioFormat m) (frame_size m) (mAudioResampleContext m)
    (mMediaType m) (mMediaSourceOpened m) (mGrabbingStopped m)
    (mMediaSource m) (mMediaSources m) (mMediaSinks m) (mCurrentDevice m)
    (mDesiredDevice m) (mStreamActivated m) (mRelayingSkipAudioSilence m)
    (mRelayingSkipAudioSilenceSkippedChunks m) (mAudioSilenceThreshold m)
    (mEncoderThreadNeeded m) (mFrameNumber m) (mEncoderStartTime m)
    (mResampleFifo m) (mEncoderFifo m).

Definition set_mOutputAudioSampleRate (v : Z) (m : MediaSourceMuxer) :=
  Build_MediaSourceMuxer (mStreamCodecId m) (mStreamMaxPacketSize m)
    (mStreamQuality m) (mStreamBitRate m) (mStreamMaxFps m)
    (mStreamMaxFps_LastFrame_Timestamp m) (mCurrentStreamingResX m)
    (mCurrentStreamingResY m) (mRequestedStreamingResX m)
    (mRequestedStreamingResY m) (mSourceResX m) (mSourceResY m)
    (mInputFrameRate m) (mOutputFrameRate m) (mInputAudioChannels m)
    (mInputAudioSampleRate m) (mOutputAudioChannels m) v
    (mOutputAudioFormat m) (frame_size m) (mAudioResampleContext m)
    (mMediaType m) (mMediaSourceOpened m) (mGrabbingStopped m)
    (mMediaSource m) (mMediaSources m) (mMediaSinks m) (mCurrentDevice m)
    (mDesiredDevice m) (mStreamActivated m) (mRelayingSkipAudioSilence m)
    (mRelayingSkipAudioSilenceSkippedChunks m) (mAudioSilenceThreshold m)
    (mEncoderThreadNeeded m) (mFrameNumber m) (mEncoderStartTime m)
    (mResampleFifo m) (mEncoderFifo m).

Definition set_mOutputAudioFormat (v : AVSampleFormat) (m : MediaSourceMuxer) :=
  Build_MediaSourceMuxer (mStreamCodecId m) (mStreamMaxPacketSize m)
    (mStreamQuality m) (mStreamBitRate m) (mStreamMaxFps m)
    (mStreamMaxFps_LastFrame_Timestamp m) (mCurrentStreamingResX m)
    (mCurrentStreamingResY m) (mRequestedStreamingResX m)
    (mRequestedStreamingResY m) (mSourceResX m) (mSourceResY m)
    (mInputFrameRate m) (mOutputFrameRate m) (mInputAudioChannels m)
    (mInputAudioSampleRate m) (mOutputAudioChannels m)
    (mOutputAudioSampleRate m) v (frame_size m) (mAudioResampleContext m)
    (mMediaType m) (mMediaSourceOpened m) (mGrabbingStopped m)
    (mMediaSource m) (mMediaSources m) (mMediaSinks m) (mCurrentDevice m)
    (mDesiredDevice m) (mStreamActivated m) (mRelayingSkipAudioSilence m)
    (mRelayingSkipAudioSilenceSkippedChunks m) (mAudioSilenceThreshold m)
    (mEncoderThreadNeeded m) (mFrameNumber m) (mEncoderStartTime m)
    (mResampleFifo m) (mEncoderFifo m).

Definition set_frame_size (v : Z) (m : MediaSourceMuxer) :=
  Build_MediaSourceMuxer (mStreamCodecId m) (mStreamMaxPacketSize m)
    (mStreamQuality m) (mStreamBitRate m) (mStreamMaxFps m)
    (mStreamMaxFps_LastFrame_Timestamp m) (mCurrentStreamingResX m)
    (mCurrentStreamingResY m) (mRequestedStreamingResX m)
    (mRequestedStreamingResY m) (mSourceResX m) (mSourceResY m)
    (mInputFrameRate m) (mOutputFrameRate m) (mInputAudioChannels m)
    (mInputAudioSampleRate m) (mOutputAudioChannels m)
    (mOutputAudioSampleRate m) (mOutputAudioFormat m) v
    (mAudioResampleContext m) (mMediaType m) (mMediaSourceOpened m)
    (mGrabbingStopped m) (mMediaSource m) (mMediaSources m) (mMediaSinks m)
    (mCurrentDevice m) (mDesiredDevice m) (mStreamActivated m)
    (mRelayingSkipAudioSilence m) (mRelayingSkipAudioSilenceSkippedChunks m)
    (mAudioSilenceThreshold m) (mEncoderThreadNeeded m) (mFrameNumber m)
    (mEncoderStartTime m) (mResampleFifo m) (mEncoderFifo m).

Definition set_mAudioResampleContext (v : bool) (m : MediaSourceMuxer) :=
  Build_MediaSourceMuxer (mStreamCodecId m) (mStreamMaxPacketSize m)
    (mStreamQuality m) (mStreamBitRate m) (mStreamMaxFps m)
    (mStreamMaxFps_LastFrame_Timestamp m) (mCurrentStreamingResX m)
    (mCurrentStreamingResY m) (mRequestedStreamingResX m)
    (mRequestedStreamingResY m) (mSourceResX m) (mSourceResY m)
    (mInputFrameRate m) (mOutputFrameRate m) (mInputAudioChannels m)
    (mInputAudioSampleRate m) (mOutputAudioChannels m)
    (mOutputAudioSampleRate m) (mOutputAudioFormat m) (frame_size m) v
    (mMediaType m) (mMediaSourceOpened m) (mGrabbingStopped m)
    (mMediaSource m) (mMediaSources m) (mMediaSinks m) (mCurrentDevice m)
    (mDesiredDevice m) (mStreamActivated m) (mRelayingSkipAudioSilence m)
    (mRelayingSkipAudioSilenceSkippedChunks m) (mAudioSilenceThreshold m)
    (mEncoderThreadNeeded m) (mFrameNumber m) (mEncoderStartTime m)
    (mResampleFifo m) (mEncoderFifo m).

Definition set_mMediaType (v : MediaType) (m : MediaSourceMuxer) :=
  Build_MediaSourceMuxer (mStreamCodecId m) (mStreamMaxPacketSize m)
    (mStreamQuality m) (mStreamBitRate m) (mStreamMaxFps m)
    (mStreamMaxFps_LastFrame_Timestamp m) (mCurrentStreamingResX m)
    (mCurrentStreamingResY m) (mRequestedStreamingResX m)
    (mRequestedStreamingResY m) (mSourceResX m) (mSourceResY m)
    (mInputFrameRate m) (mOutputFrameRate m) (mInputAudioChannels m)
    (mInputAudioSampleRate m) (mOutputAudioChannels m)
    (mOutputAudioSampleRate m) (mOutputAudioFormat m) (frame_size m)
    (mAudioResampleContext m) v (mMediaSourceOpened m) (mGrabbingStopped m)
    (mMediaSource m) (mMediaSources m) (mMediaSinks m) (mCurrentDevice m)
    (mDesiredDevice m) (mStreamActivated m) (mRelayingSkipAudioSilence m)
    (mRelayingSkipAudioSilenceSkippedChunks m) (mAudioSilenceThreshold m)
    (mEncoderThreadNeeded m) (mFrameNumber m) (mEncoderStartTime m)
    (mResampleFifo m) (mEncoderFifo m).

Definition set_mMediaSourceOpened (v : bool) (m : MediaSourceMuxer) :=
  Build_MediaSourceMuxer (mStreamCodecId m) (mStreamMaxPacketSize m)
    (mStreamQuality m) (mStreamBitRate m) (mStreamMaxFps m)
    (mStreamMaxFps_LastFrame_Timestamp m) (mCurrentStreamingResX m)
    (mCurrentStreamingResY m) (mRequestedStreamingResX m)
    (mRequestedStreamingResY m) (mSourceResX m) (mSourceResY m)
    (mInputFrameRate m) (mOutputFrameRate m) (mInputAudioChannels m)
    (mInputAudioSampleRate m) (mOutputAudioChannels m)
    (mOutputAudioSampleRate m) (mOutputAudioFormat m) (frame_size m)
    (mAudioResampleContext m) (mMediaType m) v (mGrabbingStopped m)
    (mMediaSource m) (mMediaSources m) (mMediaSinks m) (mCurrentDevice m)
    (mDesiredDevice m) (mStreamActivated m) (mRelayingSkipAudioSilence m)
    (mRelayingSkipAudioSilenceSkippedChunks m) (mAudioSilenceThreshold m)
    (mEncoderThreadNeeded m) (mFrameNumber m) (mEncoderStartTime m)
    (mResampleFifo m) (mEncoderFifo m).

Definition set_mGrabbingStopped (v : bool) (m : MediaSourceMuxer) :=
  Build_MediaSourceMuxer (mStreamCodecId m) (mStreamMaxPacketSize m)
    (mStreamQuality m) (mStreamBitRate m) (mStreamMaxFps m)
    (mStreamMaxFps_LastFrame_Timestamp m) (mCurrentStreamingResX m)
    (mCurrentStreamingResY m) (mRequestedStreamingResX m)
    (mRequestedStreamingResY m) (mSourceResX m) (mSourceResY m)
    (mInputFrameRate m) (mOutputFrameRate m) (mInputAudioChannels m)
    (mInputAudioSampleRate m) (mOutputAudioChannels m)
    (mOutputAudioSampleRate m) (mOutputAudioFormat m) (frame_size m)
    (mAudioResampleContext m) (mMediaType m) (mMediaSourceOpened m) v
    (mMediaSource m) (mMediaSources m) (mMediaSinks m) (mCurrentDevice m)
    (mDesiredDevice m) (mStreamActivated m) (mRelayingSkipAudioSilence m)
    (mRelayingSkipAudioSilenceSkippedChunks m) (mAudioSilenceThreshold m)
    (mEncoderThreadNeeded m) (mFrameNumber m) (mEncoderStartTime m)
    (mResampleFifo m) (mEncoderFifo m).

Definition set_mMediaSource (v : option nat) (m : MediaSourceMuxer) :=
  Build_MediaSourceMuxer (mStreamCodecId m) (mStreamMaxPacketSize m)
    (mStreamQuality m) (mStreamBitRate m) (mStreamMaxFps m)
    (mStreamMaxFps_LastFrame_Timestamp m) (mCurrentStreamingResX m)
    (mCurrentStreamingResY m) (mRequestedStreamingResX m)
    (mRequestedStreamingResY m) (mSourceResX m) (mSourceResY m)
    (mInputFrameRate m) (mOutputFrameRate m) (mInputAudioChannels m)
    (mInputAudioSampleRate m) (mOutputAudioChannels m)
    (mOutputAudioSampleRate m) (mOutputAudioFormat m) (frame_size m)
    (mAudioResampleContext m) (mMediaType m) (mMediaSourceOpened m)
    (mGrabbingStopped m) v (mMediaSources m) (mMediaSinks m)
    (mCurrentDevice m) (mDesiredDevice m) (mStreamActivated m)
    (mRelayingSkipAudioSilence m) (mRelayingSkipAudioSilenceSkippedChunks m)
    (mAudioSilenceThreshold m) (mEncoderThreadNeeded m) (mFrameNumber m)
    (mEncoderStartTime m) (mResampleFifo m) (mEncoderFifo m).

Definition set_mMediaSources (v : list nat) (m : MediaSourceMuxer) :=
  Build_MediaSourceMuxer (mStreamCodecId m) (mStreamMaxPacketSize m)
    (mStreamQuality m) (mStreamBitRate m) (mStreamMaxFps m)
    (mStreamMaxFps_LastFrame_Timestamp m) (mCurrentStreamingResX m)
    (mCurrentStreamingResY m) (mRequestedStreamingResX m)
    (mRequestedStreamingResY m) (mSourceResX m) (mSourceResY m)
    (mInputFrameRate m) (mOutputFrameRate m) (mInputAudioChannels m)
    (mInputAudioSampleRate m) (mOutputAudioChannels m)
    (mOutputAudioSampleRate m) (mOutputAudioFormat m) (frame_size m)
    (mAudioResampleContext m) (mMediaType m) (mMediaSourceOpened m)
    (mGrabbingStopped m) (mMediaSource m) v (mMediaSinks m) (mCurrentDevice m)
    (mDesiredDevice m) (mStreamActivated m) (mRelayingSkipAudioSilence m)
    (mRelayingSkipAudioSilenceSkippedChunks m) (mAudioSilenceThreshold m)
    (mEncoderThreadNeeded m) (mFrameNumber m) (mEncoderStartTime m)
    (mResampleFifo m) (mEncoderFifo m).

Definition set_mMediaSinks (v : list nat) (m : MediaSourceMuxer) :=
  Build_MediaSourceMuxer (mStreamCodecId m) (mStreamMaxPacketSize m)
    (mStreamQuality m) (mStreamBitRate m) (mStreamMaxFps m)
    (mStreamMaxFps_LastFrame_Timestamp m) (mCurrentStreamingResX m)
    (mCurrentStreamingResY m) (mRequestedStreamingResX m)
    (mRequestedStreamingResY m) (mSourceResX m) (mSourceResY m)
    (mInputFrameRate m) (mOutputFrameRate m) (mInputAudioChannels m)
    (mInputAudioSampleRate m) (mOutputAudioChannels m)
    (mOutputAudioSampleRate m) (mOutputAudioFormat m) (frame_size m)
    (mAudioResampleContext m) (mMediaType m) (mMediaSourceOpened m)
    (mGrabbingStopped m) (mMediaSource m) (mMediaSources m) v
    (mCurrentDevice m) (mDesiredDevice m) (mStreamActivated m)
    (mRelayingSkipAudioSilence m) (mRelayingSkipAudioSilenceSkippedChunks m)
    (mAudioSilenceThreshold m) (mEncoderThreadNeeded m) (mFrameNumber m)
    (mEncoderStartTime m) (mResampleFifo m) (mEncoderFifo m).

Definition set_mCurrentDevice (v : string) (m : MediaSourceMuxer) :=
  Build_MediaSourceMuxer (mStreamCodecId m) (mStreamMaxPacketSize m)
    (mStreamQuality m) (mStreamBitRate m) (mStreamMaxFps m)
    (mStreamMaxFps_LastFrame_Timestamp m) (mCurrentStreamingResX m)
    (mCurrentStreamingResY m) (mRequestedStreamingResX m)
    (mRequestedStreamingResY m) (mSourceResX m) (mSourceResY m)
    (mInputFrameRate m) (mOutputFrameRate m) (mInputAudioChannels m)
    (mInputAudioSampleRate m) (mOutputAudioChannels m)
    (mOutputAudioSampleRate m) (mOutputAudioFormat m) (frame_size m)
    (mAudioResampleContext m) (mMediaType m) (mMediaSourceOpened m)
    (mGrabbingStopped m) (mMediaSource m) (mMediaSources m) (mMediaSinks m) v
    (mDesiredDevice m) (mStreamActivated m) (mRelayingSkipAudioSilence m)
    (mRelayingSkipAudioSilenceSkippedChunks m) (mAudioSilenceThreshold m)
    (mEncoderThreadNeeded m) (mFrameNumber m) (mEncoderStartTime m)
    (mResampleFifo m) (mEncoderFifo m).

Definition set_mDesiredDevice (v : string) (m : MediaSourceMuxer) :=
  Build_MediaSourceMuxer (mStreamCodecId m) (mStreamMaxPacketSize m)
    (mStreamQuality m) (mStreamBitRate m) (mStreamMaxFps m)
    (mStreamMaxFps_LastFrame_Timestamp m) (mCurrentStreamingResX m)
    (mCurrentStreamingResY m) (mRequestedStreamingResX m)
    (mRequestedStreamingResY m) (mSourceResX m) (mSourceResY m)
    (mInputFrameRate m) (mOutputFrameRate m) (mInputAudioChannels m)
    (mInputAudioSampleRate m) (mOutputAudioChannels m)
    (mOutputAudioSampleRate m) (mOutputAudioFormat m) (frame_size m)
    (mAudioResampleContext m) (mMediaType m) (mMediaSourceOpened m)
    (mGrabbingStopped m) (mMediaSource m) (mMediaSources m) (mMediaSinks m)
    (mCurrentDevice m) v (mStreamActivated m) (mRelayingSkipAudioSilence m)
    (mRelayingSkipAudioSilenceSkippedChunks m) (mAudioSilenceThreshold m)
    (mEncoderThreadNeeded m) (mFrameNumber m) (mEncoderStartTime m)
    (mResampleFifo m) (mEncoderFifo m).

Definition set_mStreamActivated (v : bool) (m : MediaSourceMuxer) :=
  Build_MediaSourceMuxer (mStreamCodecId m) (mStreamMaxPacketSize m)
    (mStreamQuality m) (mStreamBitRate m) (mStreamMaxFps m)
    (mStreamMaxFps_LastFrame_Timestamp m) (mCurrentStreamingResX m)
    (mCurrentStreamingResY m) (mRequestedStreamingResX m)
    (mRequestedStreamingResY m) (mSourceResX m) (mSourceResY m)
    (mInputFrameRate m) (mOutputFrameRate m) (mInputAudioChannels m)
    (mInputAudioSampleRate m) (mOutputAudioChannels m)
    (mOutputAudioSampleRate m) (mOutputAudioFormat m) (frame_size m)
    (mAudioResampleContext m) (mMediaType m) (mMediaSourceOpened m)
    (mGrabbingStopped m) (mMediaSource m) (mMediaSources m) (mMediaSinks m)
    (mCurrentDevice m) (mDesiredDevice m) v (mRelayingSkipAudioSilence m)
    (mRelayingSkipAudioSilenceSkippedChunks m) (mAudioSilenceThreshold m)
    (mEncoderThreadNeeded m) (mFrameNumber m) (mEncoderStartTime m)
    (mResampleFifo m) (mEncoderFifo m).

Definition set_mRelayingSkipAudioSilence (v : bool) (m : MediaSourceMuxer) :=
  Build_MediaSourceMuxer (mStreamCodecId m) (mStreamMaxPacketSize m)
    (mStreamQuality m) (mStreamBitRate m) (mStreamMaxFps m)
    (mStreamMaxFps_LastFrame_Timestamp m) (mCurrentStreamingResX m)
    (mCurrentStreamingResY m) (mRequestedStreamingResX m)
    (mRequestedStreamingResY m) (mSourceResX m) (mSourceResY m)
    (mInputFrameRate m) (mOutputFrameRate m) (mInputAudioChannels m)
    (mInputAudioSampleRate m) (mOutputAudioChannels m)
    (mOutputAudioSampleRate m) (mOutputAudioFormat m) (frame_size m)
    (mAudioResampleContext m) (mMediaType m) (mMediaSourceOpened m)
    (mGrabbingStopped m) (mMediaSource m) (mMediaSources m) (mMediaSinks m)
    (mCurrentDevice m) (mDesiredDevice m) (mStreamActivated m) v
    (mRelayingSkipAudioSilenceSkippedChunks m) (mAudioSilenceThreshold m)
    (mEncoderThreadNeeded m) (mFrameNumber m) (mEncoderStartTime m)
    (mResampleFifo m) (mEncoderFifo m).

Definition set_mRelayingSkipAudioSilenceSkippedChunks (v : Z) (m : MediaSourceMuxer) :=
  Build_MediaSourceMuxer (mStreamCodecId m) (mStreamMaxPacketSize m)
    (mStreamQuality m) (mStreamBitRate m) (mStreamMaxFps m)
    (mStreamMaxFps_LastFrame_Timestamp m) (mCurrentStreamingResX m)
    (mCurrentStreamingResY m) (mRequestedStreamingResX m)
    (mRequestedStreamingResY m) (mSourceResX m) (mSourceResY m)
    (mInputFrameRate m) (mOutputFrameRate m) (mInputAudioChannels m)
    (mInputAudioSampleRate m) (mOutputAudioChannels m)
    (mOutputAudioSampleRate m) (mOutputAudioFormat m) (frame_size m)
    (mAudioResampleContext m) (mMediaType m) (mMediaSourceOpened m)
    (mGrabbingStopped m) (mMediaSource m) (mMediaSources m) (mMediaSinks m)
    (mCurrentDevice m) (mDesiredDevice m) (mStreamActivated m)
    (mRelayingSkipAudioSilence m) v (mAudioSilenceThreshold m)
    (mEncoderThreadNeeded m) (mFrameNumber m) (mEncoderStartTime m)
    (mResampleFifo m) (mEncoderFifo m).

Definition set_mAudioSilenceThreshold (v : Z) (m : MediaSourceMuxer) :=
  Build_MediaSourceMuxer (mStreamCodecId m) (mStreamMaxPacketSize m)
    (mStreamQuality m) (mStreamBitRate m) (mStreamMaxFps m)
    (mStreamMaxFps_LastFrame_Timestamp m) (mCurrentStreamingResX m)
    (mCurrentStreamingResY m) (mRequestedStreamingResX m)
    (mRequestedStreamingResY m) (mSourceResX m) (mSourceResY m)
    (mInputFrameRate m) (mOutputFrameRate m) (mInputAudioChannels m)
    (mInputAudioSampleRate m) (mOutputAudioChannels m)
    (mOutputAudioSampleRate m) (mOutputAudioFormat m) (frame_size m)
    (mAudioResampleContext m) (mMediaType m) (mMediaSourceOpened m)
    (mGrabbingStopped m) (mMediaSource m) (mMediaSources m) (mMediaSinks m)
    (mCurrentDevice m) (mDesiredDevice m) (mStreamActivated m)
    (mRelayingSkipAudioSilence m) (mRelayingSkipAudioSilenceSkippedChunks m) v
    (mEncoderThreadNeeded m) (mFrameNumber m) (mEncoderStartTime m)
    (mResampleFifo m) (mEncoderFifo m).

Definition set_mEncoderThreadNeeded (v : bool) (m : MediaSourceMuxer) :=
  Build_MediaSourceMuxer (mStreamCodecId m) (mStreamMaxPacketSize m)
    (mStreamQuality m) (mStreamBitRate m) (mStreamMaxFps m)
    (mStreamMaxFps_LastFrame_Timestamp m) (mCurrentStreamingResX m)
    (mCurrentStreamingResY m) (mRequestedStreamingResX m)
    (mRequestedStreamingResY m) (mSourceResX m) (mSourceResY m)
    (mInputFrameRate m) (mOutputFrameRate m) (mInputAudioChannels m)
    (mInputAudioSampleRate m) (mOutputAudioChannels m)
    (mOutputAudioSampleRate m) (mOutputAudioFormat m) (frame_size m)
    (mAudioResampleContext m) (mMediaType m) (mMediaSourceOpened m)
    (mGrabbingStopped m) (mMediaSource m) (mMediaSources m) (mMediaSinks m)
    (mCurrentDevice m) (mDesiredDevice m) (mStreamActivated m)
    (mRelayingSkipAudioSilence m) (mRelayingSkipAudioSilenceSkippedChunks m)
    (mAudioSilenceThreshold m) v (mFrameNumber m) (mEncoderStartTime m)
    (mResampleFifo m) (mEncoderFifo m).

Definition set_mFrameNumber (v : Z) (m : MediaSourceMuxer) :=
  Build_MediaSourceMuxer (mStreamCodecId m) (mStreamMaxPacketSize m)
    (mStreamQuality m) (mStreamBitRate m) (mStreamMaxFps m)
    (mStreamMaxFps_LastFrame_Timestamp m) (mCurrentStreamingResX m)
    (mCurrentStreamingResY m) (mRequestedStreamingResX m)
    (mRequestedStreamingResY m) (mSourceResX m) (mSourceResY m)
    (mInputFrameRate m) (mOutputFrameRate m) (mInputAudioChannels m)
    (mInputAudioSampleRate m) (mOutputAudioChannels m)
    (mOutputAudioSampleRate m) (mOutputAudioFormat m) (frame_size m)
    (mAudioResampleContext m) (mMediaType m) (mMediaSourceOpened m)
    (mGrabbingStopped m) (mMediaSource m) (mMediaSources m) (mMediaSinks m)
    (mCurrentDevice m) (mDesiredDevice m) (mStreamActivated m)
    (mRelayingSkipAudioSilence m) (mRelayingSkipAudioSilenceSkippedChunks m)
    (mAudioSilenceThreshold m) (mEncoderThreadNeeded m) v
    (mEncoderStartTime m) (mResampleFifo m) (mEncoderFifo m).

Definition set_mEncoderStartTime (v : Z) (m : MediaSourceMuxer) :=
  Build_MediaSourceMuxer (mStreamCodecId m) (mStreamMaxPacketSize m)
    (mStreamQuality m) (mStreamBitRate m) (mStreamMaxFps m)
    (mStreamMaxFps_LastFrame_Timestamp m) (mCurrentStreamingResX m)
    (mCurrentStreamingResY m) (mRequestedStreamingResX m)
    (mRequestedStreamingResY m) (mSourceResX m) (mSourceResY m)
    (mInputFrameRate m) (mOutputFrameRate m) (mInputAudioChannels m)
    (mInputAudioSampleRate m) (mOutputAudioChannels m)
    (mOutputAudioSampleRate m) (mOutputAudioFormat m) (frame_size m)
    (mAudioResampleContext m) (mMediaType m) (mMediaSourceOpened m)
    (mGrabbingStopped m) (mMediaSource m) (mMediaSources m) (mMediaSinks m)
    (mCurrentDevice m) (mDesiredDevice m) (mStreamActivated m)
    (mRelayingSkipAudioSilence m) (mRelayingSkipAudioSilenceSkippedChunks m)
    (mAudioSilenceThreshold m) (mEncoderThreadNeeded m) (mFrameNumber m) v
    (mResampleFifo m) (mEncoderFifo m).

Definition set_mResampleFifo (v : list (list Z)) (m : MediaSourceMuxer) :=
  Build_MediaSourceMuxer (mStreamCodecId m) (mStreamMaxPacketSize m)
    (mStreamQuality m) (mStreamBitRate m) (mStreamMaxFps m)
    (mStreamMaxFps_LastFrame_Timestamp m) (mCurrentStreamingResX m)
    (mCurrentStreamingResY m) (mRequestedStreamingResX m)
    (mRequestedStreamingResY m) (mSourceResX m) (mSourceResY m)
    (mInputFrameRate m) (mOutputFrameRate m) (mInputAudioChannels m)
    (mInputAudioSampleRate m) (mOutputAudioChannels m)
    (mOutputAudioSampleRate m) (mOutputAudioFormat m) (frame_size m)
    (mAudioResampleContext m) (mMediaType m) (mMediaSourceOpened m)
    (mGrabbingStopped m) (mMediaSource m) (mMediaSources m) (mMediaSinks m)
    (mCurrentDevice m) (mDesiredDevice m) (mStreamActivated m)
    (mRelayingSkipAudioSilence m) (mRelayingSkipAudioSilenceSkippedChunks m)
    (mAudioSilenceThreshold m) (mEncoderThreadNeeded m) (mFrameNumber m)
    (mEncoderStartTime m) v (mEncoderFifo m).

Definition set_mEncoderFifo (v : option MediaFifo) (m : MediaSourceMuxer) :=
  Build_MediaSourceMuxer (mStreamCodecId m) (mStreamMaxPacketSize m)
    (mStreamQuality m) (mStreamBitRate m) (mStreamMaxFps m)
    (mStreamMaxFps_LastFrame_Timestamp m) (mCurrentStreamingResX m)
    (mCurrentStreamingResY m) (mRequestedStreamingResX m)
    (mRequestedStreamingResY m) (mSourceResX m) (mSourceResY m)
    (mInputFrameRate m) (mOutputFrameRate m) (mInputAudioChannels m)
    (mInputAudioSampleRate m) (mOutputAudioChannels m)
    (mOutputAudioSampleRate m) (mOutputAudioFormat m) (frame_size m)
    (mAudioResampleContext m) (mMediaType m) (mMediaSourceOpened m)
    (mGrabbingStopped m) (mMediaSource m) (mMediaSources m) (mMediaSinks m)
    (mCurrentDevice m) (mDesiredDevice m) (mStreamActivated m)
    (mRelayingSkipAudioSilence m) (mRelayingSkipAudioSilenceSkippedChunks m)
    (mAudioSilenceThreshold m) (mEncoderThreadNeeded m) (mFrameNumber m)
    (mEncoderStartTime m) (mResampleFifo m) v.
(** The object the constructor [MediaSourceMuxer(pMediaSource)] builds;
    the members the constructor of the base class initialises have their
    idle values. *)
Definition MediaSourceMuxer_new (pMediaSource : option nat) : MediaSourceMuxer :=
  {| mStreamCodecId := AV_CODEC_ID_NONE;
     mStreamMaxPacketSize := 500;
     mStreamQuality := 20;
     mStreamBitRate := -1;
     mStreamMaxFps := 0;
     mStreamMaxFps_LastFrame_Timestamp := 0;
     mCurrentStreamingResX := 0;
     mCurrentStreamingResY := 0;
     mRequestedStreamingResX := 352;
     mRequestedStreamingResY := 288;
     mSourceResX := 352;
     mSourceResY := 288;
     mInputFrameRate := float_29_97;
     mOutputFrameRate := float_29_97;
     mInputAudioChannels := 2;
     mInputAudioSampleRate := 44100;
     mOutputAudioChannels := 2;
     mOutputAudioSampleRate := 44100;
     mOutputAudioFormat := AV_SAMPLE_FMT_S16;
     frame_size := 0;
     mAudioResampleContext := false;
     mMediaType := MEDIA_UNKNOWN;
     mMediaSourceOpened := false;
     mGrabbingStopped := false;
     mMediaSource := pMediaSource;
     mMediaSources := match pMediaSource with Some s => [s] | None => [] end;
     mMediaSinks := [];
     mCurrentDevice := EmptyString;
     mDesiredDevice := EmptyString;
     mStreamActivated := true;
     mRelayingSkipAudioSilence := false;
     mRelayingSkipAudioSilenceSkippedChunks := 0;
     mAudioSilenceThreshold := 128;
     mEncoderThreadNeeded := true;
     mFrameNumber := 0;
     mEncoderStartTime := 0;
     mResampleFifo := [];
     mEncoderFifo := None |}.

(** ** Diagnostics *)

Inductive LogLevel : Type := LOG_ERROR | LOG_WARN | LOG_INFO | LOG_VERBOSE.

Record LogEntry : Type := LOG { log_level : LogLevel; log_text : string }.

(** ** Opening, closing and resetting the muxer *)

(** [MediaSourceMuxer::IsOutputCodecSupported]: the result and the
    warning it logs for a codec whose encoder is not found. *)
Definition IsOutputCodecSupported (e : CodecEngine) (pStreamCodec : string)
  : bool * list LogEntry :=
  let tStreamCodecId := GetCodecIDFromGuiName e pStreamCodec in
  if String.eqb (GetGuiNameFromCodecID e tStreamCodecId) pStreamCodec
  then if avcodec_find_encoder e tStreamCodecId
       then (true, [])
       else (false,
             [LOG LOG_WARN "Encoder for codec not found, skipping support of it"])
  else (false, []).

(** The statements
    [if (pFps > 29.97) pFps = 29.97; if (pFps < 5) pFps = 5;]
    of [OpenVideoMuxer] and of [OpenVideoGrabDevice]. *)
Definition limit_fps (pFps : float) : float :=
  let pFps := if Fgt pFps double_29_97 then float_29_97 else pFps in
  if Flt pFps float_5 then float_5 else pFps.

(** The beginning of [MediaSourceMuxer::Run], which [StartEncoder] waits
    for: the frame queue is created, the counters are reset and
    [TimeShift(0)] drains the resample FIFOs. *)
Definition StartEncoder (env : Env) (m : MediaSourceMuxer) : MediaSourceMuxer :=
  let m := set_mEncoderFifo
             (match mMediaType m with
              | MEDIA_VIDEO | MEDIA_AUDIO =>
                  Some {| fifo_capacity :=
                            MEDIA_SOURCE_MUX_INPUT_QUEUE_SIZE_LIMIT (wire env);
                          fifo_entries := [];
                          fifo_reading := None |}
              | MEDIA_UNKNOWN => mEncoderFifo m
              end) m in
  let m := set_mEncoderThreadNeeded true m in
  let m := set_mFrameNumber 0 m in
  let m := set_mEncoderStartTime 0 m in
  set_mResampleFifo
    (match mMediaSource m, mMediaType m with
     | Some _, MEDIA_AUDIO => map (fun _ => []) (mResampleFifo m)
     | _, _ => mResampleFifo m
     end) m.

(** Modelled from the spec: [MarkOpenGrabDeviceSuccessful] of the base
    class [MediaSource], which is not among the sources: the pipeline is
    open from here on. *)
Definition MarkOpenGrabDeviceSuccessful (m : MediaSourceMuxer) : MediaSourceMuxer :=
  set_mMediaSourceOpened true m.

(** [MediaSourceMuxer::CloseMuxer]; [StopEncoder] ends with the encoder
    thread having deleted the frame queue. *)
Definition CloseMuxer (m : MediaSourceMuxer) : bool * MediaSourceMuxer :=
  let tResult := mMediaSourceOpened m in
  let m := set_mEncoderFifo (if tResult then None else mEncoderFifo m) m in
  let m := set_mEncoderThreadNeeded
             (if tResult then false else mEncoderThreadNeeded m) m in
  let m := set_mMediaSourceOpened false m in
  let m := set_mFrameNumber 0 m in
  (tResult, set_mRelayingSkipAudioSilenceSkippedChunks 0 m).

Definition MEDIA_SOURCE_MUX_DEFAULT_VIDEO_BIT_RATE : Z := 90 * 1024.
Definition MEDIA_SOURCE_MUX_DEFAULT_AUDIO_BIT_RATE : Z := 256 * 1024.

(** [MediaSourceMuxer::OpenVideoMuxer]; [tNow] is what
    [Time::GetTimeStamp()] returns. *)
Definition OpenVideoMuxer (env : Env) (m : MediaSourceMuxer)
    (pResX pResY : Z) (pFps : float) (tNow : Z) : bool * MediaSourceMuxer :=
  let pFps :=
    match mMediaSource m with
    | Some s =>
        let tFps := src_GetOutputFrameRate (source_at env s) in
        if Fne tFps pFps then tFps else pFps
    | None => pFps
    end in
  let pFps :=
    if negb (mStreamMaxFps m =? 0) then float_of_int (mStreamMaxFps m)
    else pFps in
  let pFps := limit_fps pFps in
  let m := set_mMediaType MEDIA_VIDEO m in
  let m := set_mStreamBitRate
             (if mStreamBitRate m =? -1
              then MEDIA_SOURCE_MUX_DEFAULT_VIDEO_BIT_RATE
              else mStreamBitRate m) m in
  if mMediaSourceOpened m then (false, m) else
  let m := set_mSourceResX pResX m in
  let m := set_mSourceResY pResY m in
  let m := set_mInputFrameRate pFps m in
  let m := set_mOutputFrameRate pFps m in
  if negb (avcodec_find_encoder (engine env) (mStreamCodecId m))
  then (false, m) else
  if negb (avcodec_get_context_defaults3 (engine env) (mStreamCodecId m))
  then (false, m) else
  let '(x, y) :=
    match mMediaSource m with
    | Some s =>
        if (mRequestedStreamingResX m =? -1) || (mRequestedStreamingResY m =? -1)
        then src_GetVideoSourceResolution (source_at env s)
        else (mRequestedStreamingResX m, mRequestedStreamingResY m)
    | None => (mRequestedStreamingResX m, mRequestedStreamingResY m)
    end in
  let '(x, y) := ValidateVideoResolutionForEncoderCodec x y (mStreamCodecId m) in
  let m := set_mCurrentStreamingResX x m in
  let m := set_mCurrentStreamingResY y m in
  if negb (HM_avcodec_open (engine env) (mStreamCodecId m) true)
     && negb (HM_avcodec_open (engine env) (mStreamCodecId m) false)
  then (false, m) else
  let m := StartEncoder env m in
  let m := set_mStreamMaxFps_LastFrame_Timestamp tNow m in
  (true, MarkOpenGrabDeviceSuccessful m).

(** [MediaSourceMuxer::OpenAudioMuxer] *)
Definition OpenAudioMuxer (env : Env) (m : MediaSourceMuxer)
    (pSampleRate pChannels : Z) : bool * MediaSourceMuxer :=
  let m := set_mMediaType MEDIA_AUDIO m in
  let m := set_mStreamBitRate
             (if mStreamBitRate m =? -1
              then MEDIA_SOURCE_MUX_DEFAULT_AUDIO_BIT_RATE
              else mStreamBitRate m) m in
  let m := set_mInputAudioChannels pChannels m in
  let m := set_mInputAudioSampleRate pSampleRate m in
  if mMediaSourceOpened m then (false, m) else
  if negb (avcodec_find_encoder (engine env) (mStreamCodecId m))
  then (false, m) else
  if negb (avcodec_get_context_defaults3 (engine env) (mStreamCodecId m))
  then (false, m) else
  let '(tChannels, tRate, tFormat) :=
    match mStreamCodecId m with
    | AV_CODEC_ID_ADPCM_G722 => (1, 16000, AV_SAMPLE_FMT_S16)
    | AV_CODEC_ID_AMR_NB => (1, 8000, AV_SAMPLE_FMT_S16)
    | AV_CODEC_ID_GSM | AV_CODEC_ID_PCM_ALAW | AV_CODEC_ID_PCM_MULAW =>
        (1, 8000, AV_SAMPLE_FMT_S16)
    | AV_CODEC_ID_PCM_S16BE => (2, 44100, AV_SAMPLE_FMT_S16)
    | AV_CODEC_ID_MP3 => (pChannels, pSampleRate, AV_SAMPLE_FMT_S16P)
    | _ => (2, 44100, AV_SAMPLE_FMT_S16)
    end in
  let m := set_mOutputAudioChannels tChannels m in
  let m := set_mOutputAudioSampleRate tRate m in
  if negb (HM_avcodec_open (engine env) (mStreamCodecId m) false)
  then (false, m) else
  let tFrameSize := codec_frame_size (engine env) (mStreamCodecId m) in
  let m := set_frame_size
             (if tFrameSize <? 32
              then MEDIA_SOURCE_SAMPLES_PER_BUFFER (wire env)
              else tFrameSize) m in
  let m := set_mOutputAudioFormat tFormat m in
  let m := set_mOutputFrameRate
             (Fdiv (float_of_int (mOutputAudioSampleRate m))
                   (float_of_int (frame_size m))) m in
  let m := StartEncoder env m in
  (true, MarkOpenGrabDeviceSuccessful m).

(** [MediaSourceMuxer::Reset] *)
Definition Reset (env : Env) (m : MediaSourceMuxer) (pMediaType : MediaType)
    (tNow : Z) : bool * MediaSourceMuxer :=
  let tMediaType :=
    match pMediaType with MEDIA_UNKNOWN => mMediaType m | _ => pMediaType end in
  let '(_, m) := CloseMuxer m in
  match tMediaType with
  | MEDIA_VIDEO =>
      OpenVideoMuxer env m (mSourceResX m) (mSourceResY m) (mInputFrameRate m) tNow
  | MEDIA_AUDIO =>
      OpenAudioMuxer env m (mInputAudioSampleRate m) (mInputAudioChannels m)
  | MEDIA_UNKNOWN => (false, m)
  end.

(** [MediaSourceMuxer::OpenVideoGrabDevice] *)
Definition OpenVideoGrabDevice (env : Env) (m : MediaSourceMuxer)
    (pResX pResY : Z) (pFps : float) (tNow : Z) : bool * MediaSourceMuxer :=
  let pFps := limit_fps pFps in
  let m := set_mMediaType MEDIA_VIDEO m in
  match mMediaSource m with
  | Some s =>
      if negb (src_OpenVideoGrabDevice (source_at env s)) then (false, m) else
      let m := set_mInputFrameRate (src_GetInputFrameRate (source_at env s)) m in
      let m := set_mOutputFrameRate (src_GetOutputFrameRate (source_at env s)) m in
      if mMediaSourceOpened m then (false, m) else
      (true, snd (OpenVideoMuxer env m pResX pResY pFps tNow))
  | None =>
      if mMediaSourceOpened m then (false, m) else
      OpenVideoMuxer env m pResX pResY pFps tNow
  end.

(** [MediaSourceMuxer::OpenAudioGrabDevice] *)
Definition OpenAudioGrabDevice (env : Env) (m : MediaSourceMuxer)
    (pSampleRate pChannels : Z) : bool * MediaSourceMuxer :=
  let m := set_mMediaType MEDIA_AUDIO m in
  let m := set_mOutputAudioChannels pChannels m in
  let m := set_mOutputAudioSampleRate pSampleRate m in
  match mMediaSource m with
  | Some s =>
      if negb (src_OpenAudioGrabDevice (source_at env s)) then (false, m) else
      let m := set_mInputFrameRate (src_GetInputFrameRate (source_at env s)) m in
      let m := set_mOutputFrameRate (src_GetOutputFrameRate (source_at env s)) m in
      if mMediaSourceOpened m then (false, m) else
      (true, snd (OpenAudioMuxer env m pSampleRate pChannels))
  | None =>
      if mMediaSourceOpened m then (false, m) else
      OpenAudioMuxer env m pSampleRate pChannels
  end.

(** [MediaSourceMuxer::CloseGrabDevice]; the result of the source's own
    [CloseGrabDevice] is taken to be [true]. *)
Definition CloseGrabDevice (m : MediaSourceMuxer) : bool * MediaSourceMuxer :=
  if mMediaSourceOpened m
  then (true, set_mGrabbingStopped false (snd (CloseMuxer m)))
  else (false, set_mGrabbingStopped false m).

(** [MediaSourceMuxer::StopGrabbing] *)
Definition StopGrabbing (m : MediaSourceMuxer) : MediaSourceMuxer :=
  set_mGrabbingStopped true m.

(** ** The preference manager *)

(** The packet budget of [SetOutputStreamPreferences]: the five
    subtractions and the sanity check of the maximum packet size. *)
Definition packet_budget (w : WireConstants) (tStreamCodecId : AVCodecID)
    (pMaxPacketSize : Z) : Z :=
  let p := int (pMaxPacketSize - IP6_HEADER_SIZE w) in
  let p := int (p - IP_OPTIONS_SIZE w) in
  let p := int (p - TCP_HEADER_SIZE w) in
  let p := int (p - TCP_FRAGMENT_HEADER_SIZE w) in
  let p := int (p - GetHeaderSizeMax w tStreamCodecId) in
  if int (MEDIA_SOURCE_MEM_FRAGMENT_BUFFER_SIZE w - 256) <? p
  then int (MEDIA_SOURCE_MEM_FRAGMENT_BUFFER_SIZE w - 256)
  else p.

(** The resolution [SetOutputStreamPreferences] goes on with: validated
    for the codec unless one of the two values is [-1]. *)
Definition requested_resolution (tStreamCodecId : AVCodecID) (pResX pResY : Z)
  : Z * Z :=
  if negb (pResX =? -1) && negb (pResY =? -1)
  then ValidateVideoResolutionForEncoderCodec pResX pResY tStreamCodecId
  else (pResX, pResY).

(** The condition of the [if] that compares the preferences. *)
Definition preferences_differ (m : MediaSourceMuxer) (tStreamCodecId : AVCodecID)
    (pMaxFps pMediaStreamQuality pBitRate pMaxPacketSize pResX pResY : Z) : bool :=
  negb (codec_eqb (mStreamCodecId m) tStreamCodecId)
  || negb (mStreamMaxFps m =? pMaxFps)
  || negb (mStreamQuality m =? pMediaStreamQuality)
  || negb (mStreamBitRate m =? pBitRate)
  || negb (mStreamMaxPacketSize m =? pMaxPacketSize)
  || negb (mCurrentStreamingResX m =? pResX)
  || negb (mCurrentStreamingResY m =? pResY).

(** [MediaSourceMuxer::SetOutputStreamPreferences]: the result, the new
    object and the error and warning lines it logs. *)
Definition SetOutputStreamPreferences (env : Env) (m : MediaSourceMuxer)
    (pStreamCodec : string) (pMediaStreamQuality pBitRate pMaxPacketSize : Z)
    (pDoReset : bool) (pResX pResY pMaxFps : Z) (tNow : Z)
  : bool * MediaSourceMuxer * list LogEntry :=
  let tStreamCodecId := GetCodecIDFromGuiName (engine env) pStreamCodec in
  let '(tSupported, tLog0) := IsOutputCodecSupported (engine env) pStreamCodec in
  let tLog1 :=
    tLog0 ++ (if negb tSupported
              then [LOG LOG_ERROR "Trying to set an unsupported codec"]
              else []) in
  let pMaxPacketSize := packet_budget (wire env) tStreamCodecId pMaxPacketSize in
  let '(tResX, tResY) := requested_resolution tStreamCodecId pResX pResY in
  let tLog2 :=
    if negb (tResX =? pResX) || negb (tResY =? pResY)
    then [LOG LOG_WARN "Codec doesn't support selected video resolution"]
    else [] in
  if preferences_differ m tStreamCodecId pMaxFps pMediaStreamQuality pBitRate
       pMaxPacketSize tResX tResY
  then
    let m := set_mStreamMaxFps pMaxFps m in
    let m := set_mStreamCodecId tStreamCodecId m in
    let m := set_mStreamMaxPacketSize pMaxPacketSize m in
    let m := set_mStreamQuality pMediaStreamQuality m in
    let m := set_mStreamBitRate pBitRate m in
    let m := set_mRequestedStreamingResX tResX m in
    let m := set_mRequestedStreamingResY tResY m in
    if pDoReset && mMediaSourceOpened m
    then (true, snd (Reset env m MEDIA_UNKNOWN tNow), tLog1 ++ tLog2)
    else (true, m, tLog1 ++ tLog2)
  else (false, m, tLog1 ++ tLog2).

(** ** The frame-rate gate *)

(** [MediaSourceMuxer::BelowMaxFps]; [tCurrentTime] is what
    [Time::GetTimeStamp()] returns. *)
Definition BelowMaxFps (m : MediaSourceMuxer) (tCurrentTime : Z)
  : bool * MediaSourceMuxer :=
  if negb (mStreamMaxFps m =? 0) then
    let tTimeDiffToLastFrame :=
      int64_t (tCurrentTime - mStreamMaxFps_LastFrame_Timestamp m) in
    let tTimeDiffTreshold := int (Z.quot (int (1000 * 1000)) (mStreamMaxFps m)) in
    let tTimeDiffForNextFrame :=
      int64_t (tTimeDiffToLastFrame - tTimeDiffTreshold) in
    if 0 <? tTimeDiffForNextFrame then
      let m := set_mStreamMaxFps_LastFrame_Timestamp tCurrentTime m in
      let m := set_mStreamMaxFps_LastFrame_Timestamp
                 (int64_t (mStreamMaxFps_LastFrame_Timestamp m
                           - tTimeDiffForNextFrame)) m in
      (true, m)
    else (false, m)
  else (true, set_mStreamMaxFps_LastFrame_Timestamp tCurrentTime m).

(** The gate called once per grabbed chunk, as [GrabChunk] does: the
    answers in order and the object after the last call. *)
Fixpoint BelowMaxFps_calls (m : MediaSourceMuxer) (times : list Z)
  : list bool * MediaSourceMuxer :=
  match times with
  | [] => ([], m)
  | t :: rest =>
      let '(b, m) := BelowMaxFps m t in
      let '(bs, m) := BelowMaxFps_calls m rest in
      (b :: bs, m)
  end.

Definition admitted (answers : list bool) : Z :=
  Z.of_nat (List.length (filter (fun b => b) answers)).

(** ** The transcode thread *)

(** An operation whose C++ behaviour is undefined (a null or past-the-end
    dereference, a division by zero, a conversion out of range) has no
    result. *)
Definition bind {A B : Type} (x : option A) (f : A -> option B) : option B :=
  match x with Some a => f a | None => None end.

Notation "' p <- x ;; k" := (bind x (fun p => k))
  (at level 61, p pattern, x at next level, right associativity).
Notation "v <- x ;; k" := (bind x (fun v => k))
  (at level 61, x at next level, right associativity).

(** C++ integer division. *)
Definition cdiv (a b : Z) : option Z :=
  if b =? 0 then None else Some (Z.quot a b).

(** Modelled from the spec: [GetOutputFrameRate] of the base class
    [MediaSource], which is not among the sources, returns the output
    frame rate of the session, [mOutputFrameRate]. *)
Definition GetOutputFrameRate (m : MediaSourceMuxer) : float := mOutputFrameRate m.

(** [MediaSourceMuxer::CalculateEncoderPts] *)
Definition CalculateEncoderPts (m : MediaSourceMuxer) (pFrameNumber : Z)
  : option Z :=
  match mMediaType m, mStreamCodecId m with
  | MEDIA_VIDEO, _ | _, AV_CODEC_ID_MP3 =>
      int64_of_float
        (Fdiv (float_of_int (int (pFrameNumber * 1000))) (GetOutputFrameRate m))
  | _, _ => Some (int (pFrameNumber * frame_size m))
  end.

(** [(int64_t)rint(v)] for an [int64_t] [v]: the conversion to [double]
    is exact up to [2 ^ 53] and rounds beyond, [rint] keeps the integral
    value, the conversion back is the value if it fits. *)
Definition rint_int64 (v : Z) : option Z :=
  if Z.abs v <=? 2 ^ 53 then Some v
  else int64_of_float (binary_normalize 53 1024 v 0 false).

(** [(int64_t)rint(CalculateEncoderPts(pFrameNumber))] *)
Definition encoder_pts (m : MediaSourceMuxer) (pFrameNumber : Z) : option Z :=
  v <- CalculateEncoderPts m pFrameNumber ;; rint_int64 v.

(** The local variables of [Run] that live across iterations. *)
Record RunLocals : Type := {
  tLastInputFrameTimestamp : Z;
  tOutputFrameTimestamp : Z;
  tEncoderOutputFrameTimestamp : Z;
  tLastVideoEncoderFrameTimestamp : Z
}.

Definition Run_locals_init : RunLocals :=
  {| tLastInputFrameTimestamp := -1;
     tOutputFrameTimestamp := 0;
     tEncoderOutputFrameTimestamp := 0;
     tLastVideoEncoderFrameTimestamp := 0 |}.

(** What the thread hands to its collaborators. *)
Inductive Event : Type :=
| RelaySyncTimestampToMediaSinks (pReferenceNtpTime pPts : Z)
| EncodeAndWritePacket (pFrameNumber pPts : Z)
| Log (e : LogEntry).

(** The [MEDIA_VIDEO] case of the loop body of [Run] for an entry with
    arrival time [tInputFrameTimestamp]. *)
Definition Run_video (env : Env) (m : MediaSourceMuxer) (l : RunLocals)
    (tInputFrameTimestamp : Z)
  : option (MediaSourceMuxer * RunLocals * list Event) :=
  tPts <- encoder_pts m (mFrameNumber m) ;;
  s <- mMediaSource m ;;
  let '(m, tPts, tLog) :=
    if src_HasVariableOutputFrameRate (source_at env s) then
      let '(m, tLog) :=
        if mEncoderStartTime m =? 0
        then (set_mEncoderStartTime tInputFrameTimestamp m,
              [Log (LOG LOG_WARN "Encoder start time is still invalid")])
        else (m, []) in
      (m, Z.quot (int64_t (tInputFrameTimestamp - mEncoderStartTime m)) 1000, tLog)
    else (m, tPts, []) in
  let tPts :=
    if negb (tLastVideoEncoderFrameTimestamp l =? 0)
       && (tPts <=? tLastVideoEncoderFrameTimestamp l)
    then int64_t (tLastVideoEncoderFrameTimestamp l + 1)
    else tPts in
  let l := {| tLastInputFrameTimestamp := tLastInputFrameTimestamp l;
              tOutputFrameTimestamp := tInputFrameTimestamp;
              tEncoderOutputFrameTimestamp := tPts;
              tLastVideoEncoderFrameTimestamp := tPts |} in
  Some (set_mFrameNumber (int (mFrameNumber m + 1)) m, l,
        tLog ++ [RelaySyncTimestampToMediaSinks tInputFrameTimestamp tPts;
                 EncodeAndWritePacket (mFrameNumber m) tPts]).

(** The resample FIFOs of ffmpeg, as the bytes they hold. *)
Definition av_fifo_size (f : list Z) : Z := Z.of_nat (List.length f).

Definition av_fifo_generic_write (f buf : list Z) (size : Z) : list Z :=
  f ++ firstn (Z.to_nat size) buf.

Definition HM_av_fifo_generic_read (f : list Z) (size : Z) : list Z * list Z :=
  (firstn (Z.to_nat size) f, skipn (Z.to_nat size) f).

Fixpoint set_nth {A : Type} (i : nat) (x : A) (l : list A) : list A :=
  match i, l with
  | _, [] => []
  | O, _ :: r => x :: r
  | S j, y :: r => y :: set_nth j x r
  end.

Definition GetOutputSampleRate (m : MediaSourceMuxer) : Z := mOutputAudioSampleRate m.

(** The loop "buffer the input audio data for frame size conversion":
    plane [i] goes to FIFO [i], or, for a packed format, the [i]-th part
    of plane [0] to FIFO [0]. *)
Fixpoint Run_audio_write (planar : bool) (planes : list (list Z))
    (tWrittenFifoSizePerChannel : Z) (channels : nat) (i : nat)
    (fifos : list (list Z)) : option (list (list Z)) :=
  match channels with
  | O => Some fifos
  | S n =>
      let tFifoIndex := if planar then i else O in
      let tInputBuffer :=
        if planar then nth i planes []
        else skipn (Z.to_nat (Z.of_nat i * tWrittenFifoSizePerChannel))
                   (nth O planes []) in
      f <- nth_error fifos tFifoIndex ;;
      Run_audio_write planar planes tWrittenFifoSizePerChannel n (S i)
        (set_nth tFifoIndex
           (av_fifo_generic_write f tInputBuffer tWrittenFifoSizePerChannel)
           fifos)
  end.

(** The loop "create audio planes" of one slice: one read of
    [tReadFifoSizePerChannel] bytes per channel; the result is the FIFOs,
    [tSilenceAudioFrame] and the planes read. *)
Fixpoint Run_audio_read (e : CodecEngine) (m : MediaSourceMuxer)
    (tReadFifoSizePerChannel : Z) (channels : nat) (i : nat)
    (fifos : list (list Z)) (tSilenceAudioFrame : bool)
  : option (list (list Z) * bool * list (list Z)) :=
  match channels with
  | O => Some (fifos, tSilenceAudioFrame, [])
  | S n =>
      let tFifoIndex :=
        if av_sample_fmt_is_planar (mOutputAudioFormat m) then i else O in
      f <- nth_error fifos tFifoIndex ;;
      let '(tOutputBuffer, f) := HM_av_fifo_generic_read f tReadFifoSizePerChannel in
      let tSilenceAudioFrame :=
        if negb (mRelayingSkipAudioSilence m)
           || negb (ContainsOnlySilence e (mAudioSilenceThreshold m) tOutputBuffer)
        then false else tSilenceAudioFrame in
      ' (fifos, tSilenceAudioFrame, planes) <-
        Run_audio_read e m tReadFifoSizePerChannel n (S i)
          (set_nth tFifoIndex f fifos) tSilenceAudioFrame ;;
      Some (fifos, tSilenceAudioFrame, tOutputBuffer :: planes)
  end.

(** A slice the drain loop took out of the FIFOs: its planes and whether
    it was handed to the encoder. *)
Record AudioSlice : Type := {
  slice_planes : list (list Z);
  slice_encoded : bool
}.

(** The condition of the loop "check FIFO for available frames". *)
Definition Run_audio_available (m : MediaSourceMuxer) : option bool :=
  f <- nth_error (mResampleFifo m) O ;;
  let tReadFifoSizePerChannel :=
    int (frame_size m * av_get_bytes_per_sample (mOutputAudioFormat m)) in
  Some (if av_sample_fmt_is_planar (mOutputAudioFormat m)
        then tReadFifoSizePerChannel <=? av_fifo_size f
        else int (tReadFifoSizePerChannel * mOutputAudioChannels m)
             <=? av_fifo_size f).

(** The body of that loop: one slice is read and either encoded or
    counted as skipped silence. *)
Definition Run_audio_slice (env : Env) (m : MediaSourceMuxer)
    (tOutputFrameTimestamp : Z)
  : option (MediaSourceMuxer * Z * list Event * AudioSlice) :=
  let tOutputSamplesPerChannel := frame_size m in
  let tReadFifoSizePerChannel :=
    int (tOutputSamplesPerChannel
         * av_get_bytes_per_sample (mOutputAudioFormat m)) in
  ' (fifos, tSilenceAudioFrame, planes) <-
    Run_audio_read (engine env) m tReadFifoSizePerChannel
      (Z.to_nat (mOutputAudioChannels m)) O (mResampleFifo m) true ;;
  let m := set_mResampleFifo fifos m in
  if negb tSilenceAudioFrame then
    tPts <- encoder_pts m (mFrameNumber m) ;;
    let tCurPts :=
      if codec_eqb (mStreamCodecId m) AV_CODEC_ID_MP3 then tPts
      else av_rescale_q (engine env) tPts in
    tOffset <- cdiv (int (int (1000 * 1000) * tOutputSamplesPerChannel))
                    (GetOutputSampleRate m) ;;
    Some (set_mFrameNumber (int (mFrameNumber m + 1)) m,
          int64_t (tOutputFrameTimestamp + tOffset),
          [RelaySyncTimestampToMediaSinks tOutputFrameTimestamp tCurPts;
           EncodeAndWritePacket (mFrameNumber m) tCurPts],
          {| slice_planes := planes; slice_encoded := true |})
  else
    Some (set_mRelayingSkipAudioSilenceSkippedChunks
            (int64_t (mRelayingSkipAudioSilenceSkippedChunks m + 1)) m,
          tOutputFrameTimestamp, [],
          {| slice_planes := planes; slice_encoded := false |}).

(** The loop "check FIFO for available frames"; [fuel] bounds the number
    of slices. *)
Fixpoint Run_audio_drain (fuel : nat) (env : Env) (m : MediaSourceMuxer)
    (tOutputFrameTimestamp : Z)
  : option (MediaSourceMuxer * Z * list Event * list AudioSlice) :=
  tAvailable <- Run_audio_available m ;;
  if tAvailable then
    match fuel with
    | O => None
    | S fuel =>
        ' (m, tOutputFrameTimestamp, tEvents, tSlice) <-
          Run_audio_slice env m tOutputFrameTimestamp ;;
        ' (m, tOutputFrameTimestamp, tEvents', tSlices) <-
          Run_audio_drain fuel env m tOutputFrameTimestamp ;;
        Some (m, tOutputFrameTimestamp, tEvents ++ tEvents', tSlice :: tSlices)
    end
  else Some (m, tOutputFrameTimestamp, [], []).

(** The [MEDIA_AUDIO] case of the loop body of [Run]: the chunk is
    resampled, buffered in the resample FIFOs and the FIFOs are drained
    slice by slice. *)
Definition Run_audio (env : Env) (m : MediaSourceMuxer) (l : RunLocals)
    (e : FifoEntry) (fuel : nat)
  : option (MediaSourceMuxer * RunLocals * list Event * list AudioSlice) :=
  let tOutputAudioBytesPerSample := av_get_bytes_per_sample (mOutputAudioFormat m) in
  let tInputAudioBytesPerSample := av_get_bytes_per_sample AV_SAMPLE_FMT_S16 in
  tInputSamplesPerChannel <-
    cdiv (fe_size e) (int (tInputAudioBytesPerSample * mInputAudioChannels m)) ;;
  let '(tResamplingOutputSamples, tInputSamplesPlanes) :=
    if mAudioResampleContext m
    then HM_swr_convert (engine env) (fe_buffer e) tInputSamplesPerChannel
    else (0, [fe_buffer e]) in
  let tWrittenFifoSizePerChannel :=
    int (tResamplingOutputSamples * tOutputAudioBytesPerSample) in
  f <- nth_error (mResampleFifo m) O ;;
  tAlreadyAvailableSamplesPerChannel <-
    cdiv (av_fifo_size f) tOutputAudioBytesPerSample ;;
  tAlreadyAvailableSamplesPerChannel <-
    (if av_sample_fmt_is_planar (mOutputAudioFormat m)
     then Some tAlreadyAvailableSamplesPerChannel
     else cdiv tAlreadyAvailableSamplesPerChannel (mOutputAudioChannels m)) ;;
  tOutputFrameTimestampOffset <-
    cdiv (int (int (1000 * 1000) * tAlreadyAvailableSamplesPerChannel))
         (GetOutputSampleRate m) ;;
  let tOutputFrameTimestamp :=
    int64_t (fe_timestamp e - tOutputFrameTimestampOffset) in
  fifos <-
    Run_audio_write (av_sample_fmt_is_planar (mOutputAudioFormat m))
      tInputSamplesPlanes tWrittenFifoSizePerChannel
      (Z.to_nat (mOutputAudioChannels m)) O (mResampleFifo m) ;;
  let m := set_mResampleFifo fifos m in
  ' (m, tOutputFrameTimestamp, tEvents, tSlices) <-
    Run_audio_drain fuel env m tOutputFrameTimestamp ;;
  Some (m,
        {| tLastInputFrameTimestamp := tLastInputFrameTimestamp l;
           tOutputFrameTimestamp := tOutputFrameTimestamp;
           tEncoderOutputFrameTimestamp := tEncoderOutputFrameTimestamp l;
           tLastVideoEncoderFrameTimestamp := tLastVideoEncoderFrameTimestamp l |},
        tEvents, tSlices).

(** The loop body of [Run] between [ReadFifoExclusive] and
    [ReadFifoExclusiveFinished], for the entry read. *)
Definition Run_entry (env : Env) (m : MediaSourceMuxer) (l : RunLocals)
    (e : FifoEntry) (fuel : nat)
  : option (MediaSourceMuxer * RunLocals * list Event) :=
  let tInputFrameTimestamp := fe_timestamp e in
  let tLog :=
    if negb (tLastInputFrameTimestamp l =? -1)
       && negb (tInputFrameTimestamp =? 0)
       && (tInputFrameTimestamp <? tLastInputFrameTimestamp l)
    then [Log (LOG LOG_WARN "Input frame timestamp is too low")]
    else [] in
  let l := {| tLastInputFrameTimestamp := tInputFrameTimestamp;
              tOutputFrameTimestamp := tOutputFrameTimestamp l;
              tEncoderOutputFrameTimestamp := tEncoderOutputFrameTimestamp l;
              tLastVideoEncoderFrameTimestamp := tLastVideoEncoderFrameTimestamp l |} in
  if (0 <? fe_size e) && mEncoderThreadNeeded m then
    if mStreamActivated m && negb (Nat.eqb (List.length (mMediaSinks m)) O) then
      match mMediaType m with
      | MEDIA_VIDEO =>
          ' (m, l, tEvents) <- Run_video env m l tInputFrameTimestamp ;;
          Some (m, l, tLog ++ tEvents)
      | MEDIA_AUDIO =>
          ' (m, l, tEvents, _) <- Run_audio env m l e fuel ;;
          Some (m, l, tLog ++ tEvents)
      | MEDIA_UNKNOWN =>
          Some (m, l, tLog ++ [Log (LOG LOG_ERROR "Media type unknown")])
      end
    else Some (m, l, tLog ++ [Log (LOG LOG_VERBOSE "Skipped transcoder task")])
  else Some (m, l, tLog).

(** The entries of a list processed one after the other. *)
Fixpoint Run_entries (env : Env) (m : MediaSourceMuxer) (l : RunLocals)
    (es : list FifoEntry) (fuel : nat)
  : option (MediaSourceMuxer * RunLocals * list Event) :=
  match es with
  | [] => Some (m, l, [])
  | e :: rest =>
      ' (m, l, tEvents) <- Run_entry env m l e fuel ;;
      ' (m, l, tEvents') <- Run_entries env m l rest fuel ;;
      Some (m, l, tEvents ++ tEvents')
  end.

(** The presentation timestamps handed to the sinks, in order. *)
Fixpoint relayed_pts (tEvents : list Event) : list Z :=
  match tEvents with
  | [] => []
  | RelaySyncTimestampToMediaSinks _ tPts :: rest => tPts :: relayed_pts rest
  | _ :: rest => relayed_pts rest
  end.

(** The end of the loop body of [Run]: the read ticket is finished and a
    queue near overload is cleared. *)
Definition Run_finish_entry (w : WireConstants) (q : MediaFifo) (tFifoEntry : Z)
  : MediaFifo * list Event :=
  let q := if 0 <=? tFifoEntry then ReadFifoExclusiveFinished q tFifoEntry else q in
  if int (MEDIA_SOURCE_MUX_INPUT_QUEUE_SIZE_LIMIT w - 4) <=? GetUsage q
  then (ClearFifo q,
        [Log (LOG LOG_WARN "encoder FIFO is near overload situation, deleting all stored frames")])
  else (q, []).

(** The producer side while the thread works on an entry: the chunks
    [GrabChunk] writes into the queue. *)
Fixpoint producer_writes (q : MediaFifo) (tChunks : list FifoEntry) : MediaFifo :=
  match tChunks with
  | [] => q
  | c :: rest =>
      producer_writes (WriteFifo q (fe_buffer c) (fe_size c) (fe_timestamp c)) rest
  end.

(** One iteration of the main loop of [Run] with the queue present; no
    result while [ReadFifoExclusive] blocks.  [tChunks] are the chunks
    written by the producer before the ticket is finished. *)
Definition Run_iteration (env : Env) (m : MediaSourceMuxer) (l : RunLocals)
    (tChunks : list FifoEntry) (fuel : nat)
  : option (MediaSourceMuxer * RunLocals * list Event) :=
  match mEncoderFifo m with
  | None => Some (m, l, [Log (LOG LOG_VERBOSE "Suspending the transcoder thread for 10 ms")])
  | Some q =>
      ' (tFifoEntry, e, q) <- ReadFifoExclusive q ;;
      ' (m, l, tEvents) <- Run_entry env m l e fuel ;;
      let q := producer_writes q tChunks in
      let '(q, tEvents') := Run_finish_entry (wire env) q tFifoEntry in
      Some (set_mEncoderFifo (Some q) m, l, tEvents ++ tEvents')
  end.

(** ** The admission of a grabbed chunk *)

(** The end of [MediaSourceMuxer::GrabChunk], once the chunk was grabbed
    from the base source with result [tResult]: a closed muxer returns
    at once; on an open one the frame-rate gate is called, and an
    admitted chunk is written into the frame queue with its arrival
    time, which is the encoder start time while no frame was encoded.
    [tCurrentTime] is what [Time::GetTimeStamp()] returns, [tNtpTime]
    what [RTP::GetNtpTime()] returns. *)
Definition GrabChunk_relay (m : MediaSourceMuxer) (pChunkBuffer : list Z)
    (pChunkSize : Z) (pDropChunk : bool) (tResult : Z)
    (tCurrentTime tNtpTime : Z) : MediaSourceMuxer :=
  if negb (mMediaSourceOpened m) then m else
  let '(tBelowMaxFps, m) := BelowMaxFps m tCurrentTime in
  match mEncoderFifo m with
  | Some q =>
      if tBelowMaxFps && mStreamActivated m && negb pDropChunk
         && (0 <=? tResult) && (0 <? pChunkSize)
         && negb (Nat.eqb (List.length (mMediaSinks m)) O)
      then
        let m := set_mEncoderStartTime
                   (if mFrameNumber m =? 0 then tNtpTime
                    else mEncoderStartTime m) m in
        set_mEncoderFifo (Some (WriteFifo q pChunkBuffer pChunkSize tNtpTime)) m
      else m
  | None => m
  end.

(** A chunk is grabbed at time [t] and the thread runs one iteration. *)
Definition grab_and_encode (env : Env)
    (s : option (MediaSourceMuxer * RunLocals * list Event)) (t : Z)
  : option (MediaSourceMuxer * RunLocals * list Event) :=
  ' (m, l, tEvents) <- s ;;
  ' (m, l, tEvents') <-
    Run_iteration env (GrabChunk_relay m [] 4 false 0 t t) l [] O ;;
  Some (m, l, tEvents ++ tEvents').

(** ** The relay switches *)

(** [MediaSourceMuxer::SetRelayActivation] *)
Definition SetRelayActivation (m : MediaSourceMuxer) (pState : bool)
  : MediaSourceMuxer :=
  set_mStreamActivated pState m.

(** [MediaSourceMuxer::SetRelaySkipSilence] *)
Definition SetRelaySkipSilence (m : MediaSourceMuxer) (pState : bool)
  : MediaSourceMuxer :=
  set_mRelayingSkipAudioSilence pState m.

(** [MediaSourceMuxer::SetRelaySkipSilenceThreshold] *)
Definition SetRelaySkipSilenceThreshold (m : MediaSourceMuxer) (pValue : Z)
  : MediaSourceMuxer :=
  set_mAudioSilenceThreshold pValue m.

(** ** The device selector *)

(** [MediaSourceMuxer::RegisterMediaSource] *)
Definition RegisterMediaSource (m : MediaSourceMuxer) (pMediaSource : nat)
  : bool * MediaSourceMuxer :=
  let tFound := existsb (Nat.eqb pMediaSource) (mMediaSources m) in
  let m := set_mMediaSources
             (if tFound then mMediaSources m
              else mMediaSources m ++ [pMediaSource]) m in
  let m := set_mMediaSource
             (match mMediaSource m with
              | None => Some pMediaSource
              | Some s => Some s
              end) m in
  (negb tFound, m).

Definition pointer_eqb (p q : option nat) : bool :=
  match p, q with
  | Some a, Some b => Nat.eqb a b
  | None, None => true
  | _, _ => false
  end.

(** The loop "probe all registered media sources": an iterator is the
    rest of the list from its position on, [mMediaSources.end()] is the
    empty rest.  The result is [tResult], [pIsNewDevice] and [tIt]. *)
Fixpoint SelectDevice_probe (env : Env) (tIt : list nat)
    (pDesiredDevice : string) (tMediaType : MediaType)
    (tResult pIsNewDevice : bool) : bool * bool * list nat :=
  match tIt with
  | [] => (tResult, pIsNewDevice, [])
  | s :: rest =>
      let '(tResult, pIsNewDevice) :=
        src_SelectDevice (source_at env s) pDesiredDevice tMediaType false in
      if tResult then (true, pIsNewDevice, tIt)
      else SelectDevice_probe env rest pDesiredDevice tMediaType tResult pIsNewDevice
  end.

(** The loop
    [while ((!(tResult = Open...GrabDevice(...))) && (tIt != mMediaSources.end()))]
    with its body, which advances [tIt] and calls [SelectDevice] on the
    source it then points to: the body dereferences
    the iterator it has just advanced, also when that is the end. *)
Fixpoint SelectDevice_reopen (env : Env)
    (tOpen : MediaSourceMuxer -> bool * MediaSourceMuxer)
    (pDesiredDevice : string) (tMediaType : MediaType)
    (tIt : list nat) (m : MediaSourceMuxer) (pIsNewDevice : bool)
  : option (bool * bool * MediaSourceMuxer) :=
  let '(tResult, m) := tOpen m in
  if tResult then Some (true, pIsNewDevice, m)
  else
    match tIt with
    | [] => Some (false, pIsNewDevice, m)
    | _ :: rest =>
        match rest with
        | [] => None
        | s :: _ =>
            let '(_, pIsNewDevice) :=
              src_SelectDevice (source_at env s) pDesiredDevice tMediaType
                pIsNewDevice in
            SelectDevice_reopen env tOpen pDesiredDevice tMediaType rest m
              pIsNewDevice
        end
    end.

(** The part of [SelectDevice] that closes the old source, switches to
    the accepted one and opens it again. *)
Definition SelectDevice_switch (env : Env) (m : MediaSourceMuxer)
    (pDesiredDevice : string) (tMediaType : MediaType)
    (tOldMediaSourceOpened : bool) (tOldMediaSource : option nat)
    (tIt : list nat) (s : nat) (pIsNewDevice : bool) (tNow : Z)
  : option (bool * bool * MediaSourceMuxer) :=
  let m := if tOldMediaSourceOpened
           then snd (CloseGrabDevice (StopGrabbing m)) else m in
  let m := set_mMediaSource (Some s) m in
  if tOldMediaSourceOpened then
    let tOpen :=
      match tMediaType with
      | MEDIA_AUDIO =>
          fun m => OpenAudioGrabDevice env m (mInputAudioSampleRate m)
                     (mInputAudioChannels m)
      | _ =>
          fun m => OpenVideoGrabDevice env m (mSourceResX m) (mSourceResY m)
                     (mInputFrameRate m) tNow
      end in
    match tMediaType with
    | MEDIA_UNKNOWN => Some (true, pIsNewDevice, m)
    | _ =>
        let '(tOpened, m) := tOpen m in
        if negb tOpened then
          let m := set_mMediaSource tOldMediaSource m in
          SelectDevice_reopen env tOpen pDesiredDevice tMediaType tIt m false
        else Some (true, pIsNewDevice, m)
    end
  else Some (true, pIsNewDevice, m).

(** [MediaSourceMuxer::SelectDevice]: the result, [pIsNewDevice] and the
    new object. *)
Definition SelectDevice (env : Env) (m : MediaSourceMuxer)
    (pDesiredDevice : string) (pMediaType : MediaType) (tNow : Z)
  : option (bool * bool * MediaSourceMuxer) :=
  let tOldMediaSourceOpened := mMediaSourceOpened m in
  let tOldMediaSource := mMediaSource m in
  let tMediaType :=
    match pMediaType with MEDIA_UNKNOWN => mMediaType m | _ => pMediaType end in
  let m := set_mMediaType tMediaType m in
  let m := set_mDesiredDevice pDesiredDevice m in
  ' (tResult, pIsNewDevice, m) <-
    (if Nat.ltb O (List.length (mMediaSources m)) then
       let '(tResult, pIsNewDevice, tIt) :=
         SelectDevice_probe env (mMediaSources m) pDesiredDevice tMediaType
           true false in
       let '(tResult, pIsNewDevice, tIt, m) :=
         if negb tResult
            && Nat.ltb 6 (String.length pDesiredDevice)
            && String.eqb (substring 0 6 pDesiredDevice) "FILE: "
         then
           let tFileName :=
             substring 6 (String.length pDesiredDevice - 6) pDesiredDevice in
           let m := snd (RegisterMediaSource m (new_MediaSourceFile env tFileName)) in
           let '(tResult, pIsNewDevice, tIt) :=
             SelectDevice_probe env (mMediaSources m) pDesiredDevice tMediaType
               tResult pIsNewDevice in
           (tResult, pIsNewDevice, tIt, m)
         else (tResult, pIsNewDevice, tIt, m) in
       if tResult then
         s <- hd_error tIt ;;
         ' (tResult, pIsNewDevice, m) <-
           (if negb (pointer_eqb (mMediaSource m) (Some s))
               || negb (String.eqb (mCurrentDevice m) (mDesiredDevice m))
            then SelectDevice_switch env m pDesiredDevice tMediaType
                   tOldMediaSourceOpened tOldMediaSource tIt s pIsNewDevice tNow
            else Some (true, false, m)) ;;
         Some (tResult, pIsNewDevice, set_mCurrentDevice (mDesiredDevice m) m)
       else Some (false, pIsNewDevice, m)
     else Some (true, false, m)) ;;
  if negb (pointer_eqb (mMediaSource m) tOldMediaSource) then
    match mMediaSource m, tOldMediaSource with
    | Some _, Some _ => Some (tResult, pIsNewDevice, m)
    | _, _ => None
    end
  else Some (tResult, pIsNewDevice, m).

(** ** Vocabulary of the statements *)

(** The codecs for which the resolution validator has a case of its own. *)
Definition has_resolution_policy (c : AVCodecID) : bool :=
  match c with
  | AV_CODEC_ID_H261 | AV_CODEC_ID_H263 | AV_CODEC_ID_H263P
  | AV_CODEC_ID_H264 | AV_CODEC_ID_HEVC | AV_CODEC_ID_THEORA => true
  | _ => false
  end.

(** The preferences the setter stores, but for the bit rate. *)
Definition stored_prefs (m : MediaSourceMuxer) :=
  (mStreamCodecId m, mStreamMaxPacketSize m, mStreamQuality m,
   mStreamMaxFps m, mRequestedStreamingResX m, mRequestedStreamingResY m).

(** The object with new preferences assigned, as the setter assigns
    them. *)
Definition with_preferences (m : MediaSourceMuxer) (c : AVCodecID)
    (fps p q b x y : Z) : MediaSourceMuxer :=
  set_mRequestedStreamingResY y
    (set_mRequestedStreamingResX x
       (set_mStreamBitRate b
          (set_mStreamQuality q
             (set_mStreamMaxPacketSize p
                (set_mStreamCodecId c (set_mStreamMaxFps fps m)))))).

(** The sum of the overheads [SetOutputStreamPreferences] subtracts. *)
Definition wire_overhead (w : WireConstants) (c : AVCodecID) : Z :=
  IP6_HEADER_SIZE w + IP_OPTIONS_SIZE w + TCP_HEADER_SIZE w
  + TCP_FRAGMENT_HEADER_SIZE w + GetHeaderSizeMax w c.

(** Header sizes are not negative and the fragment buffer has room for
    the 256 bytes of additional headers. *)
Definition wire_sane (w : WireConstants) (c : AVCodecID) : Prop :=
  0 <= IP6_HEADER_SIZE w /\ 0 <= IP_OPTIONS_SIZE w /\ 0 <= TCP_HEADER_SIZE w
  /\ 0 <= TCP_FRAGMENT_HEADER_SIZE w /\ 0 <= GetHeaderSizeMax w c
  /\ 256 <= MEDIA_SOURCE_MEM_FRAGMENT_BUFFER_SIZE w <= INT_MAX.

(** The frame rate [OpenVideoMuxer] limits: the maximum frame rate of the
    preferences if there is one, else the output frame rate of the base
    source if there is one, else the rate passed in. *)
Definition effective_fps (env : Env) (m : MediaSourceMuxer) (pFps : float) : float :=
  if negb (mStreamMaxFps m =? 0) then float_of_int (mStreamMaxFps m)
  else match mMediaSource m with
       | Some s =>
           if Fne (src_GetOutputFrameRate (source_at env s)) pFps
           then src_GetOutputFrameRate (source_at env s) else pFps
       | None => pFps
       end.

(** Strictly increasing lists of timestamps. *)
Fixpoint strictly_increasing (l : list Z) : Prop :=
  match l with
  | [] => True
  | x :: rest =>
      match rest with
      | [] => True
      | y :: _ => x < y /\ strictly_increasing rest
      end
  end.

(** The slices of a drain that were encoded, and those that were not. *)
Definition encoded_slices (l : list AudioSlice) : Z :=
  Z.of_nat (List.length (filter slice_encoded l)).
Definition skipped_slices (l : list AudioSlice) : Z :=
  Z.of_nat (List.length (filter (fun s => negb (slice_encoded s)) l)).

Fixpoint encode_calls (tEvents : list Event) : Z :=
  match tEvents with
  | [] => 0
  | EncodeAndWritePacket _ _ :: rest => 1 + encode_calls rest
  | _ :: rest => encode_calls rest
  end.

(** A slice is silence if every plane read for it is classified so. *)
Definition slice_is_silence (e : CodecEngine) (tThreshold : Z) (s : AudioSlice) : bool :=
  forallb (ContainsOnlySilence e tThreshold) (slice_planes s).

(** What the audio case of the thread reads of the muxer and leaves
    unchanged. *)
Definition audio_config (m : MediaSourceMuxer) :=
  (mMediaType m, mStreamCodecId m, mOutputFrameRate m, frame_size m,
   mOutputAudioChannels m, mOutputAudioFormat m, mOutputAudioSampleRate m,
   mRelayingSkipAudioSilence m, mAudioSilenceThreshold m).

(** The number of bytes in resample FIFO 0. *)
Definition fifo0_size (fifos : list (list Z)) : nat :=
  List.length (nth O fifos []).

(** The drain loop can run: a slice has bytes, there is a channel, the
    FIFOs the loop reads exist, the sample rate is not zero and the
    presentation time of a frame is defined. *)
Definition audio_ready (m : MediaSourceMuxer) : Prop :=
  let per := int (frame_size m * av_get_bytes_per_sample (mOutputAudioFormat m)) in
  0 < per
  /\ 0 < mOutputAudioChannels m
  /\ 0 < int (per * mOutputAudioChannels m)
  /\ (Z.to_nat (mOutputAudioChannels m) <= List.length (mResampleFifo m))%nat
  /\ mOutputAudioSampleRate m <> 0
  /\ (forall n, encoder_pts m n <> None).

(** [tReadFifoSizePerChannel] of the audio case of [Run]: the bytes of
    one plane of a slice. *)
Definition tReadFifoSizePerChannel (m : MediaSourceMuxer) : Z :=
  int (frame_size m * av_get_bytes_per_sample (mOutputAudioFormat m)).

(** The bytes resample FIFO 0 must hold for the drain loop to take a
    slice: one plane for a planar sample format, the planes of all
    channels for a packed one. *)
Definition slice_size (m : MediaSourceMuxer) : Z :=
  if av_sample_fmt_is_planar (mOutputAudioFormat m)
  then tReadFifoSizePerChannel m
  else int (tReadFifoSizePerChannel m * mOutputAudioChannels m).

(** The slices resample FIFOs hold, read off their bytes.  In a planar
    format plane [i] of slice [k] is the [k]-th piece of [per] bytes of
    FIFO [i]; in a packed format FIFO 0 holds the slices one after the
    other, each with the planes of its [channels] channels one after the
    other. *)
Definition fifo_plane (planar : bool) (per channels : nat)
    (fifos : list (list Z)) (k i : nat) : list Z :=
  if planar
  then firstn per (skipn (k * per) (nth i fifos []))
  else firstn per (skipn ((k * channels + i) * per) (nth O fifos [])).

Definition fifo_slice (planar : bool) (per channels : nat)
    (fifos : list (list Z)) (k : nat) : list (list Z) :=
  map (fifo_plane planar per channels fifos k) (seq 0 channels).

(** FIFO [j] without the bytes of its first [n] slices. *)
Definition fifo_rest (planar : bool) (per channels : nat)
    (fifos : list (list Z)) (n j : nat) : list Z :=
  if planar
  then if (j <? channels)%nat
       then skipn (n * per) (nth j fifos [])
       else nth j fifos []
  else match j with
       | O => skipn (n * channels * per) (nth O fifos [])
       | S _ => nth j fifos []
       end.

(** The number of slices FIFO 0 of a muxer holds in full, the planes of
    these slices in order, and what the FIFOs hold behind them. *)
Definition available_slices (m : MediaSourceMuxer) : nat :=
  Z.to_nat (Z.of_nat (fifo0_size (mResampleFifo m)) / slice_size m).

Definition fifo_slices (m : MediaSourceMuxer) : list (list (list Z)) :=
  map (fifo_slice (av_sample_fmt_is_planar (mOutputAudioFormat m))
         (Z.to_nat (tReadFifoSizePerChannel m))
         (Z.to_nat (mOutputAudioChannels m)) (mResampleFifo m))
      (seq 0 (available_slices m)).

Definition fifo_left (m : MediaSourceMuxer) (j : nat) : list Z :=
  fifo_rest (av_sample_fmt_is_planar (mOutputAudioFormat m))
    (Z.to_nat (tReadFifoSizePerChannel m))
    (Z.to_nat (mOutputAudioChannels m)) (mResampleFifo m)
    (available_slices m) j.

(** Timestamps of the microsecond clock. *)
Definition time_ok (t : Z) : Prop := 0 <= t <= 2 ^ 62.

(** ** Example worlds *)

(** Header sizes of IPv6 and TCP, a four-byte option and fragment header
    and the fixed RTP header; a 64 kB fragment buffer, a queue of 16. *)
Definition example_wire : WireConstants :=
  {| IP6_HEADER_SIZE := 40;
     IP_OPTIONS_SIZE := 4;
     TCP_HEADER_SIZE := 20;
     TCP_FRAGMENT_HEADER_SIZE := 4;
     GetHeaderSizeMax := fun _ => 12;
     MEDIA_SOURCE_MEM_FRAGMENT_BUFFER_SIZE := 65536;
     MEDIA_SOURCE_MUX_INPUT_QUEUE_SIZE_LIMIT := 16;
     MEDIA_SOURCE_SAMPLES_PER_BUFFER := 1024 |}.

(** A codec engine that knows H.261, H.263 and H.264 by name and has
    encoders for all codecs but H.264; silence is a plane of bytes below
    the threshold. *)
Definition example_engine : CodecEngine :=
  {| GetCodecIDFromGuiName := fun s =>
       if String.eqb s "H.261" then AV_CODEC_ID_H261
       else if String.eqb s "H.263" then AV_CODEC_ID_H263
       else if String.eqb s "H.264" then AV_CODEC_ID_H264
       else if String.eqb s "G711 A-law" then AV_CODEC_ID_PCM_ALAW
       else AV_CODEC_ID_NONE;
     GetGuiNameFromCodecID := fun c =>
       match c with
       | AV_CODEC_ID_H261 => "H.261"
       | AV_CODEC_ID_H263 => "H.263"
       | AV_CODEC_ID_H264 => "H.264"
       | AV_CODEC_ID_PCM_ALAW => "G711 A-law"
       | _ => "unknown"
       end%string;
     avcodec_find_encoder := fun c =>
       match c with AV_CODEC_ID_H264 | AV_CODEC_ID_NONE => false | _ => true end;
     avcodec_get_context_defaults3 := fun _ => true;
     HM_avcodec_open := fun _ _ => true;
     codec_frame_size := fun _ => 32;
     ContainsOnlySilence := fun t buf => forallb (fun x => Z.abs x <? t) buf;
     HM_swr_convert := fun buf n => (n, [buf]);
     av_rescale_q := fun v => v |}.

(** A media source by its answers: does it accept the device, does it
    open, is its output frame rate variable. *)
Definition example_source (tAccepts tOpens tVariable : bool) : MediaSource :=
  {| src_SelectDevice := fun _ _ _ => (tAccepts, tAccepts);
     src_OpenVideoGrabDevice := tOpens;
     src_OpenAudioGrabDevice := tOpens;
     src_GetInputFrameRate := float_29_97;
     src_GetOutputFrameRate := float_29_97;
     src_GetVideoSourceResolution := (640, 480);
     src_HasVariableOutputFrameRate := tVariable |}.

(** Source 1 is a camera with a variable frame rate that serves only its
    own device and, once closed, does not open again; sources 2 and 3
    accept the desired device, 2 fails to open, 3 opens. *)
Definition example_env : Env :=
  {| wire := example_wire;
     engine := example_engine;
     source_at := fun p =>
       match p with
       | 1%nat => example_source false false true
       | 2%nat => example_source true false false
       | _ => example_source true true false
       end;
     new_MediaSourceFile := fun _ => 9%nat |}.

(** A world whose sources are cameras of 60 frames per second that
    open. *)
Definition example_env_fast : Env :=
  {| wire := example_wire;
     engine := example_engine;
     source_at := fun _ =>
       {| src_SelectDevice := fun _ _ _ => (true, true);
          src_OpenVideoGrabDevice := true;
          src_OpenAudioGrabDevice := true;
          src_GetInputFrameRate := float_of_int 60;
          src_GetOutputFrameRate := float_of_int 60;
          src_GetVideoSourceResolution := (640, 480);
          src_HasVariableOutputFrameRate := false |};
     new_MediaSourceFile := fun _ => 9%nat |}.

(** The same world, but source 1 opens again after it was closed. *)
Definition example_env_reopens : Env :=
  {| wire := example_wire;
     engine := example_engine;
     source_at := fun p =>
       match p with
       | 1%nat => example_source false true true
       | 2%nat => example_source true false false
       | _ => example_source true true false
       end;
     new_MediaSourceFile := fun _ => 9%nat |}.

Definition example_entry (tTimestamp : Z) : FifoEntry :=
  {| fe_buffer := []; fe_size := 4; fe_timestamp := tTimestamp |}.

(** A video muxer on source 1, opened for H.261 with one sink. *)
Definition example_video_muxer : MediaSourceMuxer :=
  let m := MediaSourceMuxer_new (Some 1%nat) in
  let m := set_mMediaSources [1%nat; 2%nat; 3%nat] m in
  let m := set_mMediaSinks [1%nat] m in
  let m := set_mStreamCodecId AV_CODEC_ID_H261 m in
  snd (OpenVideoMuxer example_env m 352 288 float_29_97 0).

(** A video muxer limited to 10 frames per second, opened at time 0. *)
Definition example_limited_muxer : MediaSourceMuxer :=
  let m := MediaSourceMuxer_new (Some 1%nat) in
  let m := set_mStreamCodecId AV_CODEC_ID_H261 (set_mStreamMaxFps 10 m) in
  snd (OpenVideoMuxer example_env m 352 288 float_29_97 0).

(** The video muxer with one chunk waiting in its frame queue. *)
Definition example_queued_muxer : MediaSourceMuxer :=
  set_mEncoderFifo
    (Some {| fifo_capacity := 16;
             fifo_entries := [example_entry 1000000];
             fifo_reading := None |})
    example_video_muxer.

(** Twelve chunks the producer writes while the thread encodes. *)
Definition example_chunks : list FifoEntry :=
  map (fun k => example_entry (1000000 + 40000 * Z.of_nat k)) (seq 1 12).

(** An audio muxer on source 1, opened for G.711 A-law with silence
    suppression: slices of 32 samples in one channel.  Its resample FIFO
    holds a slice of silence, a slice of sound and a slice of silence. *)
Definition example_audio_muxer : MediaSourceMuxer :=
  let m := MediaSourceMuxer_new (Some 1%nat) in
  let m := set_mMediaSinks [1%nat] m in
  let m := set_mStreamCodecId AV_CODEC_ID_PCM_ALAW m in
  let m := snd (OpenAudioMuxer example_env m 8000 1) in
  let m := SetRelaySkipSilenceThreshold (SetRelaySkipSilence m true) 128 in
  set_mResampleFifo [repeat 0 64 ++ repeat 200 64 ++ repeat 1 64] m.
(** ** Resolutions a codec supports *)

(** The resolutions the comments of the validator and the tests of
    [SetVideoGrabResolution] name for a codec: QCIF and CIF for H.261,
    SQCIF to 16CIF for H.263, multiples of 4 up to 2048 x 1152 for H.263+,
    even sizes for H.264 and HEVC, CIF for Theora. *)
Definition resolution_supported (c : AVCodecID) (x y : Z) : bool :=
  match c with
  | AV_CODEC_ID_H261 =>
      ((x =? 176) && (y =? 144)) || ((x =? 352) && (y =? 288))
  | AV_CODEC_ID_H263 =>
      ((x =? 128) && (y =? 96)) || ((x =? 176) && (y =? 144))
      || ((x =? 352) && (y =? 288)) || ((x =? 704) && (y =? 576))
      || ((x =? 1408) && (y =? 1152))
  | AV_CODEC_ID_H263P =>
      (x <=? 2048) && (y <=? 1152) && (x mod 4 =? 0) && (y mod 4 =? 0)
  | AV_CODEC_ID_H264 | AV_CODEC_ID_HEVC => Z.even x && Z.even y
  | AV_CODEC_ID_THEORA => (x =? 352) && (y =? 288)
  | _ => true
  end.

(** ** Vocabulary of the life cycle *)

(** The steps of [OpenVideoMuxer] that can fail: the encoder is found,
    its context gets its defaults and the codec opens, with the options
    of the muxer or, at the second attempt, without them. *)
Definition video_encoder_usable (e : CodecEngine) (c : AVCodecID) : bool :=
  avcodec_find_encoder e c && avcodec_get_context_defaults3 e c
  && (HM_avcodec_open e c true || HM_avcodec_open e c false).

(** The same for [OpenAudioMuxer], which opens the codec once. *)
Definition audio_encoder_usable (e : CodecEngine) (c : AVCodecID) : bool :=
  avcodec_find_encoder e c && avcodec_get_context_defaults3 e c
  && HM_avcodec_open e c false.

(** ** Vocabulary of the transcode thread *)


Fixpoint encoded_frames (tEvents : list Event) : list Z :=
  match tEvents with
  | [] => []
  | EncodeAndWritePacket tFrame _ :: rest => tFrame :: encoded_frames rest
  | _ :: rest => encoded_frames rest
  end.



(** The locals of [Run] after an entry that was not encoded. *)
Definition entry_seen (l : RunLocals) (e : FifoEntry) : RunLocals :=
  {| tLastInputFrameTimestamp := fe_timestamp e;
     tOutputFrameTimestamp := tOutputFrameTimestamp l;
     tEncoderOutputFrameTimestamp := tEncoderOutputFrameTimestamp l;
     tLastVideoEncoderFrameTimestamp := tLastVideoEncoderFrameTimestamp l |}.


(** The bytes the buffering loop appends to resample FIFO [j] for
    [channels] channels of [size] bytes each: the head of plane [j] for a
    planar sample format; for a packed one the head of plane 0 for all
    channels, which goes to FIFO 0. *)
Definition written_bytes (planar : bool) (planes : list (list Z))
    (size : nat) (channels : nat) (j : nat) : list Z :=
  if planar
  then if (j <? channels)%nat then firstn size (nth j planes []) else []
  else match j with
       | O => firstn (channels * size) (nth O planes [])
       | S _ => []
       end.

(** ** Unregistering a media source *)

(** [mMediaSources.erase(tIt)] for the first iterator [tIt] that points
    to [pMediaSource]. *)
Fixpoint erase_first (pMediaSource : nat) (l : list nat) : list nat :=
  match l with
  | [] => []
  | s :: rest =>
      if Nat.eqb s pMediaSource then rest else s :: erase_first pMediaSource rest
  end.

(** [MediaSourceMuxer::UnregisterMediaSource]; [pAutoDelete] decides
    whether the object behind the pointer is deleted, the registry is the
    same either way. *)
Definition UnregisterMediaSource (m : MediaSourceMuxer) (pMediaSource : nat)
    (pAutoDelete : bool) : bool * MediaSourceMuxer :=
  let tFound := existsb (Nat.eqb pMediaSource) (mMediaSources m) in
  let m := set_mMediaSources (erase_first pMediaSource (mMediaSources m)) m in
  let m := set_mMediaSource
             (if tFound && pointer_eqb (mMediaSource m) (Some pMediaSource)
              then hd_error (mMediaSources m)
              else mMediaSource m) m in
  (tFound, m).

(** The registry is in order: no source is registered twice and the
    active source, if there is one, is registered. *)
Definition registry_ok (m : MediaSourceMuxer) : Prop :=
  NoDup (mMediaSources m)
  /\ forall s, mMediaSource m = Some s -> In s (mMediaSources m).

(** ** Vocabulary of the device selector *)

(** A registered source accepts the desired device: its [SelectDevice]
    returns [true]. *)
Definition accepts (env : Env) (pDesiredDevice : string)
    (tMediaType : MediaType) (s : nat) : bool :=
  fst (src_SelectDevice (source_at env s) pDesiredDevice tMediaType false).

(** [s] is the first source of the list that accepts the device. *)
Definition first_acceptor (env : Env) (pDesiredDevice : string)
    (tMediaType : MediaType) (l : list nat) (s : nat) : Prop :=
  exists pre rest,
    l = pre ++ s :: rest
    /\ accepts env pDesiredDevice tMediaType s = true
    /\ forallb (fun x => negb (accepts env pDesiredDevice tMediaType x)) pre
       = true.


(** ** The grab resolution *)

(** The [switch] of [SetVideoGrabResolution]: the resolution
    [tResX] x [tResY] its warning names for the stream codec. *)
Definition SetVideoGrabResolution_codec (c : AVCodecID) (pResX pResY : Z)
  : Z * Z :=
  match c with
  | AV_CODEC_ID_H261 =>
      if ((pResX =? 176) && (pResY =? 144)) || ((pResX =? 352) && (pResY =? 288))
      then
        let tResX := if 352 <? pResX then 352 else pResX in
        let tResX := if pResX <? 176 then 176 else tResX in
        let tResY := if 288 <? pResY then 288 else pResY in
        let tResY := if pResY <? 144 then 144 else tResY in
        (tResX, tResY)
      else (352, 288)
  | AV_CODEC_ID_H263 =>
      if ((pResX =? 128) && (pResY =? 96)) || ((pResX =? 176) && (pResY =? 144))
         || ((pResX =? 352) && (pResY =? 288)) || ((pResX =? 704) && (pResY =? 576))
         || ((pResX =? 1408) && (pResY =? 1152))
      then
        let tResX := if 704 <? pResX then 704 else pResX in
        let tResX := if pResX <? 176 then 176 else tResX in
        let tResY := if 576 <? pResY then 576 else pResY in
        let tResY := if pResY <? 144 then 144 else tResY in
        (tResX, tResY)
      else (352, 288)
  | _ => (pResX, pResY)
  end.

(** The warning the [switch] logs for a resolution that is not in the
    list of the stream codec. *)
Definition SetVideoGrabResolution_codec_log (c : AVCodecID) (pResX pResY : Z)
  : list LogEntry :=
  match c with
  | AV_CODEC_ID_H261 =>
      if ((pResX =? 176) && (pResY =? 144)) || ((pResX =? 352) && (pResY =? 288))
      then []
      else [LOG LOG_WARN "Resolution unsupported by H.261, will switch to default resolution of 352*288"]
  | AV_CODEC_ID_H263 =>
      if ((pResX =? 128) && (pResY =? 96)) || ((pResX =? 176) && (pResY =? 144))
         || ((pResX =? 352) && (pResY =? 288)) || ((pResX =? 704) && (pResY =? 576))
         || ((pResX =? 1408) && (pResY =? 1152))
      then []
      else [LOG LOG_WARN "Resolution unsupported by H.263, will switch to default resolution of 352*288"]
  | _ => []
  end.

(** [MediaSourceMuxer::SetVideoGrabResolution]: the new object and what
    is logged as error or warning.  The resolution of the [switch] is
    assigned to the parameters, which are not read again; the base
    source is told the resolution stored in the members. *)
Definition SetVideoGrabResolution (env : Env) (m : MediaSourceMuxer)
    (pResX pResY : Z) (tNow : Z) : MediaSourceMuxer * list LogEntry :=
  match mMediaType m with
  | MEDIA_AUDIO => (m, [LOG LOG_ERROR "Wrong media type detected"])
  | _ =>
      if negb (pResX =? mSourceResX m) || negb (pResY =? mSourceResY m) then
        let m := set_mSourceResX pResX m in
        let m := set_mSourceResY pResY m in
        let '(tResX, tResY) :=
          SetVideoGrabResolution_codec (mStreamCodecId m) pResX pResY in
        let tLog :=
          SetVideoGrabResolution_codec_log (mStreamCodecId m) pResX pResY
          ++ (if negb (tResX =? pResX) || negb (tResY =? pResY)
              then [LOG LOG_WARN "Codec doesn't support video resolution"]
              else []) in
        if mMediaSourceOpened m then
          let '(_, m) := CloseMuxer m in
          (snd (OpenVideoMuxer env m (mSourceResX m) (mSourceResY m)
                  (mInputFrameRate m) tNow), tLog)
        else (m, tLog)
      else (m, [])
  end.

(** ** Flipping the picture

    The chunk buffer of a video muxer holds the picture row by row, four
    bytes a pixel.  The horizontal flip moves a pixel as one
    [unsigned int]; the vertical flip moves a row of
    [tRowLength = mSourceResX * 4] bytes, that is [mSourceResX] pixels,
    with [memcpy].  The buffer is the list of its pixels; reading or
    writing behind its end has no result. *)





(** The inner loop of the horizontal flip: [n] more pixels of the row at
    [tPixels] to swap, from column [tColumnCount] on. *)
Fixpoint HFlip_columns {A : Type} (n tPixels tResX tColumnCount : nat)
    (buf : list A) : option (list A) :=
  match n with
  | O => Some buf
  | S n =>
      tPixelBuffer <- nth_error buf (tPixels + tColumnCount) ;;
      tRight <- nth_error buf (tPixels + (tResX - tColumnCount - 1)) ;;
      let buf := set_nth (tPixels + tColumnCount) tRight buf in
      let buf := set_nth (tPixels + (tResX - tColumnCount - 1)) tPixelBuffer buf in
      HFlip_columns n tPixels tResX (S tColumnCount) buf
  end.

(** The outer loop: [n] more rows. *)
Fixpoint HFlip_rows {A : Type} (n tPixels tResX tColumnMax : nat)
    (buf : list A) : option (list A) :=
  match n with
  | O => Some buf
  | S n =>
      buf <- HFlip_columns tColumnMax tPixels tResX O buf ;;
      HFlip_rows n (tPixels + tResX) tResX tColumnMax buf
  end.

(** The horizontal flip of [GrabChunk]. *)
Definition GrabChunk_HFlip {A : Type} (mSourceResX mSourceResY : Z)
    (buf : list A) : option (list A) :=
  HFlip_rows (Z.to_nat mSourceResY) O (Z.to_nat mSourceResX)
    (Z.to_nat (Z.quot mSourceResX 2)) buf.


(** A picture of [h] rows of [w] pixels. *)
Definition picture_rows {A : Type} (w h : nat) (rows : list (list A)) : Prop :=
  List.length rows = h /\ Forall (fun r => List.length r = w) rows.

(* ===================================================================== *)
(** * Part II: the properties *)
(* ===================================================================== *)

(** ** Machine integers *)

Lemma wrap_small (w z : Z) :
  0 < w -> - 2 ^ (w - 1) <= z < 2 ^ (w - 1) -> wrap w z = z.
Proof.
  intros Hw Hz. unfold wrap.
  assert (H2 : 2 ^ w = 2 * 2 ^ (w - 1)).
  { replace w with (1 + (w - 1)) at 1 by lia.
    rewrite Z.pow_add_r by lia. reflexivity. }
  rewrite Z.mod_small by lia. lia.
Qed.

Lemma int_small (z : Z) : in_int z -> int z = z.
Proof.
  unfold in_int, INT_MIN, INT_MAX, int. intros H.
  apply wrap_small; [lia|]. change (32 - 1) with 31. lia.
Qed.

Lemma int64_small (z : Z) : in_int64 z -> int64_t z = z.
Proof.
  unfold in_int64, INT64_MIN, INT64_MAX, int64_t. intros H.
  apply wrap_small; [lia|]. change (64 - 1) with 63. lia.
Qed.

Ltac int_range := unfold in_int, in_int64, INT_MIN, INT_MAX, INT64_MIN, INT64_MAX in *.

(** ** The resolution validator *)

Lemma round_up_even (x : Z) :
  0 <= x < INT_MAX ->
  let x' := int (Z.quot (int (x + 1)) 2 * 2) in
  Z.even x' = true /\ x <= x' <= x + 1.
Proof.
  intros Hx. cbv zeta.
  rewrite (int_small (x + 1)) by (int_range; lia).
  assert (Hq : 0 <= Z.quot (x + 1) 2 * 2 <= x + 1 /\ x < Z.quot (x + 1) 2 * 2 + 2).
  { rewrite Z.quot_div_nonneg by lia.
    pose proof (Z.div_mod (x + 1) 2 ltac:(lia)) as Hd.
    pose proof (Z.mod_pos_bound (x + 1) 2 ltac:(lia)) as Hm. lia. }
  rewrite int_small by (int_range; lia).
  split.
  - rewrite Z.mul_comm. rewrite Z.even_mul. reflexivity.
  - split; [|lia].
    destruct Hq as [Hq1 Hq2].
    rewrite Z.quot_div_nonneg in * by lia.
    pose proof (Z.div_mod (x + 1) 2 ltac:(lia)) as Hd.
    pose proof (Z.mod_pos_bound (x + 1) 2 ltac:(lia)) as Hm.
    lia.
Qed.

(** C3: the resolution validator is a function of the resolution and the
    codec alone.  For H.261 it thresholds on the width (640x480 becomes
    352x288); for H.264 it rounds each dimension up to the next even value
    independently (640x480 stays, 101x101 becomes 102x102); a codec
    without a policy of its own leaves the resolution unchanged. *)
Theorem validate_resolution_policy (x y : Z) (c : AVCodecID)
    (Hx : 0 <= x < INT_MAX) (Hy : 0 <= y < INT_MAX) :
  ValidateVideoResolutionForEncoderCodec 640 480 AV_CODEC_ID_H261 = (352, 288)
  /\ ValidateVideoResolutionForEncoderCodec 640 480 AV_CODEC_ID_H264 = (640, 480)
  /\ ValidateVideoResolutionForEncoderCodec 101 101 AV_CODEC_ID_H264 = (102, 102)
  /\ ValidateVideoResolutionForEncoderCodec x y AV_CODEC_ID_H261
     = (if 176 <? x then (352, 288) else (176, 144))
  /\ (let '(x', y') := ValidateVideoResolutionForEncoderCodec x y AV_CODEC_ID_H264 in
      (Z.even x' = true /\ x <= x' <= x + 1)
      /\ (Z.even y' = true /\ y <= y' <= y + 1))
  /\ (has_resolution_policy c = false ->
      ValidateVideoResolutionForEncoderCodec x y c = (x, y)).
Proof.
  repeat split; try reflexivity.
  - apply (round_up_even x Hx).
  - apply (round_up_even x Hx).
  - apply (round_up_even x Hx).
  - apply (round_up_even y Hy).
  - apply (round_up_even y Hy).
  - apply (round_up_even y Hy).
  - destruct c; simpl; intros H; try discriminate; reflexivity.
Qed.

Lemma validate_resolution_policy_witness :
  (0 <= 101 < INT_MAX)
  /\ ValidateVideoResolutionForEncoderCodec 101 480 AV_CODEC_ID_H264 = (102, 480)
  /\ ValidateVideoResolutionForEncoderCodec 101 480 AV_CODEC_ID_MPEG4 = (101, 480).
Proof.
  assert (H1 : 0 <= 101 < INT_MAX) by (unfold INT_MAX; lia).
  assert (H2 : 0 <= 480 < INT_MAX) by (unfold INT_MAX; lia).
  pose proof (validate_resolution_policy 101 480 AV_CODEC_ID_MPEG4 H1 H2)
    as (_ & _ & _ & _ & _ & Hpass).
  split; [exact H1|]. split; [reflexivity|].
  apply Hpass. reflexivity.
Defined.
(** ** Reading a member after an assignment *)

(** Reduce the projections of the muxer record applied to its setters. *)
Ltac members :=
  cbn [ mStreamCodecId mStreamMaxPacketSize mStreamQuality
    mStreamBitRate mStreamMaxFps mStreamMaxFps_LastFrame_Timestamp
    mCurrentStreamingResX mCurrentStreamingResY mRequestedStreamingResX
    mRequestedStreamingResY mSourceResX mSourceResY mInputFrameRate
    mOutputFrameRate mInputAudioChannels mInputAudioSampleRate
    mOutputAudioChannels mOutputAudioSampleRate mOutputAudioFormat frame_size
    mAudioResampleContext mMediaType mMediaSourceOpened mGrabbingStopped
    mMediaSource mMediaSources mMediaSinks mCurrentDevice mDesiredDevice
    mStreamActivated mRelayingSkipAudioSilence
    mRelayingSkipAudioSilenceSkippedChunks mAudioSilenceThreshold
    mEncoderThreadNeeded mFrameNumber mEncoderStartTime mResampleFifo
    mEncoderFifo set_mStreamCodecId set_mStreamMaxPacketSize
    set_mStreamQuality set_mStreamBitRate set_mStreamMaxFps
    set_mStreamMaxFps_LastFrame_Timestamp set_mCurrentStreamingResX
    set_mCurrentStreamingResY set_mRequestedStreamingResX
    set_mRequestedStreamingResY set_mSourceResX set_mSourceResY
    set_mInputFrameRate set_mOutputFrameRate set_mInputAudioChannels
    set_mInputAudioSampleRate set_mOutputAudioChannels
    set_mOutputAudioSampleRate set_mOutputAudioFormat set_frame_size
    set_mAudioResampleContext set_mMediaType set_mMediaSourceOpened
    set_mGrabbingStopped set_mMediaSource set_mMediaSources set_mMediaSinks
    set_mCurrentDevice set_mDesiredDevice set_mStreamActivated
    set_mRelayingSkipAudioSilence set_mRelayingSkipAudioSilenceSkippedChunks
    set_mAudioSilenceThreshold set_mEncoderThreadNeeded set_mFrameNumber
    set_mEncoderStartTime set_mResampleFifo set_mEncoderFifo fst snd].


(** The same by value. *)
Ltac members_cbv :=
  cbv [ mStreamCodecId mStreamMaxPacketSize mStreamQuality
    mStreamBitRate mStreamMaxFps mStreamMaxFps_LastFrame_Timestamp
    mCurrentStreamingResX mCurrentStreamingResY mRequestedStreamingResX
    mRequestedStreamingResY mSourceResX mSourceResY mInputFrameRate
    mOutputFrameRate mInputAudioChannels mInputAudioSampleRate
    mOutputAudioChannels mOutputAudioSampleRate mOutputAudioFormat frame_size
    mAudioResampleContext mMediaType mMediaSourceOpened mGrabbingStopped
    mMediaSource mMediaSources mMediaSinks mCurrentDevice mDesiredDevice
    mStreamActivated mRelayingSkipAudioSilence
    mRelayingSkipAudioSilenceSkippedChunks mAudioSilenceThreshold
    mEncoderThreadNeeded mFrameNumber mEncoderStartTime mResampleFifo
    mEncoderFifo set_mStreamCodecId set_mStreamMaxPacketSize
    set_mStreamQuality set_mStreamBitRate set_mStreamMaxFps
    set_mStreamMaxFps_LastFrame_Timestamp set_mCurrentStreamingResX
    set_mCurrentStreamingResY set_mRequestedStreamingResX
    set_mRequestedStreamingResY set_mSourceResX set_mSourceResY
    set_mInputFrameRate set_mOutputFrameRate set_mInputAudioChannels
    set_mInputAudioSampleRate set_mOutputAudioChannels
    set_mOutputAudioSampleRate set_mOutputAudioFormat set_frame_size
    set_mAudioResampleContext set_mMediaType set_mMediaSourceOpened
    set_mGrabbingStopped set_mMediaSource set_mMediaSources set_mMediaSinks
    set_mCurrentDevice set_mDesiredDevice set_mStreamActivated
    set_mRelayingSkipAudioSilence set_mRelayingSkipAudioSilenceSkippedChunks
    set_mAudioSilenceThreshold set_mEncoderThreadNeeded set_mFrameNumber
    set_mEncoderStartTime set_mResampleFifo set_mEncoderFifo fst snd] in *.

(** Case analysis on an innermost scrutinee of the goal. *)
Ltac break_match :=
  match goal with
  | |- context [match ?x with _ => _ end] =>
      lazymatch x with
      | context [match _ with _ => _ end] => fail
      | _ => destruct x eqn:?
      end
  end.

(** ** The preference manager *)

(** A reset leaves them alone. *)
Lemma OpenVideoMuxer_prefs (env : Env) (m : MediaSourceMuxer)
    (x y : Z) (f : float) (t : Z) :
  stored_prefs (snd (OpenVideoMuxer env m x y f t)) = stored_prefs m.
Proof.
  destruct m.
  cbv [OpenVideoMuxer StartEncoder MarkOpenGrabDeviceSuccessful stored_prefs].
  members_cbv.
  repeat (break_match; try reflexivity).
Qed.

Lemma OpenAudioMuxer_prefs (env : Env) (m : MediaSourceMuxer) (r c : Z) :
  stored_prefs (snd (OpenAudioMuxer env m r c)) = stored_prefs m.
Proof.
  destruct m.
  cbv [OpenAudioMuxer StartEncoder MarkOpenGrabDeviceSuccessful stored_prefs].
  members_cbv.
  repeat (break_match; try reflexivity).
Qed.

Lemma CloseMuxer_prefs (m : MediaSourceMuxer) :
  stored_prefs (snd (CloseMuxer m)) = stored_prefs m.
Proof. destruct m. reflexivity. Qed.

Lemma Reset_prefs (env : Env) (m : MediaSourceMuxer) (t : MediaType) (tNow : Z) :
  stored_prefs (snd (Reset env m t tNow)) = stored_prefs m.
Proof.
  unfold Reset.
  destruct (CloseMuxer m) as [r m1] eqn:Hc.
  assert (H1 : stored_prefs m1 = stored_prefs m).
  { change m1 with (snd (r, m1)). rewrite <- Hc. apply CloseMuxer_prefs. }
  destruct (match t with MEDIA_UNKNOWN => mMediaType m | _ => t end).
  - exact H1.
  - rewrite OpenVideoMuxer_prefs. exact H1.
  - rewrite OpenAudioMuxer_prefs. exact H1.
Qed.

Lemma codec_eqb_eq (a b : AVCodecID) : codec_eqb a b = true <-> a = b.
Proof.
  unfold codec_eqb. destruct (AVCodecID_eq_dec a b); split; congruence.
Qed.

Lemma codec_eqb_refl (a : AVCodecID) : codec_eqb a a = true.
Proof. apply codec_eqb_eq. reflexivity. Qed.

Lemma preferences_differ_spec (m : MediaSourceMuxer) (c : AVCodecID)
    (fps q b p x y : Z) :
  preferences_differ m c fps q b p x y = true <->
  (mStreamCodecId m <> c \/ mStreamMaxFps m <> fps \/ mStreamQuality m <> q
   \/ mStreamBitRate m <> b \/ mStreamMaxPacketSize m <> p
   \/ mCurrentStreamingResX m <> x \/ mCurrentStreamingResY m <> y).
Proof.
  unfold preferences_differ.
  repeat rewrite orb_true_iff. repeat rewrite negb_true_iff.
  repeat rewrite Z.eqb_neq.
  assert (Hc : codec_eqb (mStreamCodecId m) c = false <-> mStreamCodecId m <> c).
  { pose proof (codec_eqb_eq (mStreamCodecId m) c) as H.
    destruct (codec_eqb (mStreamCodecId m) c); split; intros; try congruence.
    - exfalso. apply H0. apply H. reflexivity.
    - intros E. apply H in E. discriminate. }
  rewrite Hc. tauto.
Qed.

Lemma preferences_same_spec (m : MediaSourceMuxer) (c : AVCodecID)
    (fps q b p x y : Z) :
  preferences_differ m c fps q b p x y = false ->
  mStreamCodecId m = c /\ mStreamMaxFps m = fps /\ mStreamQuality m = q
  /\ mStreamBitRate m = b /\ mStreamMaxPacketSize m = p
  /\ mCurrentStreamingResX m = x /\ mCurrentStreamingResY m = y.
Proof.
  unfold preferences_differ. intros H.
  repeat (apply orb_false_iff in H; destruct H as [H ?]).
  repeat match goal with
         | H : negb _ = false |- _ => apply negb_false_iff in H
         end.
  repeat match goal with
         | H : (_ =? _) = true |- _ => apply Z.eqb_eq in H
         end.
  apply codec_eqb_eq in H. tauto.
Qed.

(** The object with the new preferences written, before any reset. *)
Lemma SetOutputStreamPreferences_unfold (env : Env) (m : MediaSourceMuxer)
    (codec : string) (q b p : Z) (doReset : bool) (rx ry fps tNow : Z) :
  let c := GetCodecIDFromGuiName (engine env) codec in
  let p' := packet_budget (wire env) c p in
  let x' := fst (requested_resolution c rx ry) in
  let y' := snd (requested_resolution c rx ry) in
  let mp := with_preferences m c fps p' q b x' y' in
  fst (SetOutputStreamPreferences env m codec q b p doReset rx ry fps tNow)
  = if preferences_differ m c fps q b p' x' y'
    then (true, if doReset && mMediaSourceOpened m
                then snd (Reset env mp MEDIA_UNKNOWN tNow) else mp)
    else (false, m).
Proof.
  cbv zeta. unfold SetOutputStreamPreferences.
  destruct (IsOutputCodecSupported (engine env) codec) as [tSupported tLog0].
  destruct (requested_resolution (GetCodecIDFromGuiName (engine env) codec) rx ry)
    as [x' y'].
  cbn [fst snd].
  destruct (preferences_differ m _ fps q b _ x' y'); [|reflexivity].
  unfold with_preferences. members.
  destruct (doReset && mMediaSourceOpened m); reflexivity.
Qed.

Lemma with_preferences_members (m : MediaSourceMuxer) (c : AVCodecID)
    (fps p q b x y : Z) :
  let mp := with_preferences m c fps p q b x y in
  stored_prefs mp = (c, p, q, fps, x, y)
  /\ mStreamBitRate mp = b
  /\ mCurrentStreamingResX mp = mCurrentStreamingResX m
  /\ mCurrentStreamingResY mp = mCurrentStreamingResY m
  /\ mMediaSourceOpened mp = mMediaSourceOpened m.
Proof. repeat split. Qed.

Lemma packet_budget_min (w : WireConstants) (c : AVCodecID) (p : Z) :
  wire_sane w c -> in_int p -> INT_MIN <= p - wire_overhead w c ->
  packet_budget w c p
  = Z.min (p - wire_overhead w c) (MEDIA_SOURCE_MEM_FRAGMENT_BUFFER_SIZE w - 256).
Proof.
  unfold wire_sane, wire_overhead, packet_budget.
  intros (H1 & H2 & H3 & H4 & H5 & H6) Hp Hlow.
  int_range.
  rewrite (int_small (p - IP6_HEADER_SIZE w)) by (int_range; lia).
  rewrite (int_small (p - IP6_HEADER_SIZE w - IP_OPTIONS_SIZE w))
    by (int_range; lia).
  rewrite (int_small (p - IP6_HEADER_SIZE w - IP_OPTIONS_SIZE w
                      - TCP_HEADER_SIZE w)) by (int_range; lia).
  rewrite (int_small (p - IP6_HEADER_SIZE w - IP_OPTIONS_SIZE w
                      - TCP_HEADER_SIZE w - TCP_FRAGMENT_HEADER_SIZE w))
    by (int_range; lia).
  rewrite (int_small (p - IP6_HEADER_SIZE w - IP_OPTIONS_SIZE w
                      - TCP_HEADER_SIZE w - TCP_FRAGMENT_HEADER_SIZE w
                      - GetHeaderSizeMax w c)) by (int_range; lia).
  rewrite (int_small (MEDIA_SOURCE_MEM_FRAGMENT_BUFFER_SIZE w - 256))
    by (int_range; lia).
  destruct (Z.ltb_spec (MEDIA_SOURCE_MEM_FRAGMENT_BUFFER_SIZE w - 256)
              (p - IP6_HEADER_SIZE w - IP_OPTIONS_SIZE w - TCP_HEADER_SIZE w
               - TCP_FRAGMENT_HEADER_SIZE w - GetHeaderSizeMax w c)); lia.
Qed.

(** The member [mStreamMaxPacketSize] after a call. *)
Lemma SetOutputStreamPreferences_packet_size (env : Env) (m : MediaSourceMuxer)
    (codec : string) (q b p : Z) (doReset : bool) (rx ry fps tNow : Z) :
  mStreamMaxPacketSize
    (snd (fst (SetOutputStreamPreferences env m codec q b p doReset rx ry fps tNow)))
  = packet_budget (wire env) (GetCodecIDFromGuiName (engine env) codec) p.
Proof.
  pose proof (SetOutputStreamPreferences_unfold env m codec q b p doReset rx ry
                fps tNow) as H.
  cbv zeta in H. rewrite H. clear H.
  destruct (preferences_differ _ _ _ _ _ _ _ _) eqn:Hd.
  - cbn [snd].
    destruct (doReset && mMediaSourceOpened m).
    + match goal with
      | |- mStreamMaxPacketSize (snd (Reset ?e ?mp ?t ?n)) = _ =>
          pose proof (Reset_prefs e mp t n) as Hr
      end.
      pose proof (with_preferences_members m
                    (GetCodecIDFromGuiName (engine env) codec) fps
                    (packet_budget (wire env)
                       (GetCodecIDFromGuiName (engine env) codec) p) q b
                    (fst (requested_resolution
                            (GetCodecIDFromGuiName (engine env) codec) rx ry))
                    (snd (requested_resolution
                            (GetCodecIDFromGuiName (engine env) codec) rx ry)))
        as (Hm & _).
      cbv zeta in Hm. rewrite Hm in Hr. unfold stored_prefs in Hr. congruence.
    + reflexivity.
  - cbn [snd]. apply preferences_same_spec in Hd. tauto.
Qed.

(** C2 (as the code has it): the stored packet budget is the requested
    size minus the IPv6 header, IP options, TCP header, TCP fragment header
    and maximum RTP header overheads, limited from above to the fragment
    buffer size minus 256.  There is no lower limit: the stored budget is
    non-negative exactly when the request covers the overheads. *)
Theorem packet_budget_stored (env : Env) (m : MediaSourceMuxer)
    (codec : string) (q b p : Z) (doReset : bool) (rx ry fps tNow : Z)
    (Hw : wire_sane (wire env) (GetCodecIDFromGuiName (engine env) codec))
    (Hp : in_int p)
    (Hlow : INT_MIN <= p - wire_overhead (wire env)
                             (GetCodecIDFromGuiName (engine env) codec)) :
  let c := GetCodecIDFromGuiName (engine env) codec in
  let tBudget :=
    mStreamMaxPacketSize
      (snd (fst (SetOutputStreamPreferences env m codec q b p doReset rx ry fps tNow))) in
  tBudget = Z.min (p - wire_overhead (wire env) c)
                  (MEDIA_SOURCE_MEM_FRAGMENT_BUFFER_SIZE (wire env) - 256)
  /\ tBudget <= MEDIA_SOURCE_MEM_FRAGMENT_BUFFER_SIZE (wire env) - 256
  /\ (0 <= tBudget <-> wire_overhead (wire env) c <= p).
Proof.
  cbv zeta. rewrite SetOutputStreamPreferences_packet_size.
  rewrite packet_budget_min by assumption.
  destruct Hw as (_ & _ & _ & _ & _ & H6). lia.
Qed.

Lemma packet_budget_stored_witness :
  mStreamMaxPacketSize
    (snd (fst (SetOutputStreamPreferences example_env (MediaSourceMuxer_new None)
                 "H.261" 20 (-1) 1400 false 352 288 0 0)))
  <= MEDIA_SOURCE_MEM_FRAGMENT_BUFFER_SIZE (wire example_env) - 256.
Proof.
  refine (proj1 (proj2 (packet_budget_stored example_env (MediaSourceMuxer_new None)
                          "H.261" 20 (-1) 1400 false 352 288 0 0 _ _ _))).
  - cbv. intuition discriminate.
  - cbv. intuition discriminate.
  - cbv. discriminate.
Defined.

(** C2, the claim as stated fails: a request of 64 bytes is stored as a
    negative budget. *)
Lemma packet_budget_negative :
  let tBudget :=
    mStreamMaxPacketSize
      (snd (fst (SetOutputStreamPreferences example_env (MediaSourceMuxer_new None)
                   "H.261" 20 (-1) 64 false 352 288 0 0))) in
  tBudget = -16
  /\ ~ (0 <= tBudget <= MEDIA_SOURCE_MEM_FRAGMENT_BUFFER_SIZE (wire example_env) - 256).
Proof.
  cbv zeta. split; [reflexivity|].
  vm_compute. intros [H _]. apply H. reflexivity.
Qed.

(** C4 (as the code has it): the setter returns [true] exactly when the
    codec, the maximum frame rate, the quality, the bit rate or the
    adjusted maximum packet size differs from the stored value, or the
    validated resolution differs from the resolution currently streamed.
    On [true] it stores all the new values, the resolution as the
    requested resolution, whatever [pDoReset] is, and resets exactly when
    [pDoReset] is set and the muxer is open; on [false] it changes
    nothing.  When no reset runs, a second call with the same arguments
    returns [true] exactly when the validated resolution differs from the
    resolution currently streamed, which the first call does not touch. *)
Theorem SetOutputStreamPreferences_changed (env : Env) (m : MediaSourceMuxer)
    (codec : string) (q b p : Z) (doReset : bool) (rx ry fps tNow tNow' : Z) :
  let c := GetCodecIDFromGuiName (engine env) codec in
  let p' := packet_budget (wire env) c p in
  let x' := fst (requested_resolution c rx ry) in
  let y' := snd (requested_resolution c rx ry) in
  let r := fst (fst (SetOutputStreamPreferences env m codec q b p doReset rx ry fps tNow)) in
  let m' := snd (fst (SetOutputStreamPreferences env m codec q b p doReset rx ry fps tNow)) in
  (r = true <->
   (mStreamCodecId m <> c \/ mStreamMaxFps m <> fps \/ mStreamQuality m <> q
    \/ mStreamBitRate m <> b \/ mStreamMaxPacketSize m <> p'
    \/ mCurrentStreamingResX m <> x' \/ mCurrentStreamingResY m <> y'))
  /\ (r = false -> m' = m)
  /\ (r = true ->
      stored_prefs m' = (c, p', q, fps, x', y')
      /\ exists mp,
          stored_prefs mp = (c, p', q, fps, x', y')
          /\ mStreamBitRate mp = b
          /\ mCurrentStreamingResX mp = mCurrentStreamingResX m
          /\ mCurrentStreamingResY mp = mCurrentStreamingResY m
          /\ mMediaSourceOpened mp = mMediaSourceOpened m
          /\ m' = if doReset && mMediaSourceOpened m
                  then snd (Reset env mp MEDIA_UNKNOWN tNow) else mp)
  /\ (doReset && mMediaSourceOpened m = false ->
      fst (fst (SetOutputStreamPreferences env m' codec q b p doReset rx ry fps tNow'))
      = negb (mCurrentStreamingResX m =? x') || negb (mCurrentStreamingResY m =? y')).
Proof.
  cbv zeta.
  pose proof (SetOutputStreamPreferences_unfold env m codec q b p doReset rx ry
                fps tNow) as H.
  cbv zeta in H. rewrite H. clear H.
  set (c := GetCodecIDFromGuiName (engine env) codec).
  set (p' := packet_budget (wire env) c p).
  set (x' := fst (requested_resolution c rx ry)).
  set (y' := snd (requested_resolution c rx ry)).
  pose proof (preferences_differ_spec m c fps q b p' x' y') as Hspec.
  pose proof (with_preferences_members m c fps p' q b x' y') as Hmp.
  cbv zeta in Hmp. destruct Hmp as (Hmp1 & Hmp2 & Hmp3 & Hmp4 & Hmp5).
  destruct (preferences_differ m c fps q b p' x' y') eqn:Hd; cbn [fst snd].
  - split; [exact Hspec|]. split; [discriminate|]. split.
    + intros _. split.
      * destruct (doReset && mMediaSourceOpened m).
        -- rewrite Reset_prefs. exact Hmp1.
        -- exact Hmp1.
      * exists (with_preferences m c fps p' q b x' y').
        repeat (split; [assumption|]). reflexivity.
    + intros Hno. rewrite Hno.
      pose proof (SetOutputStreamPreferences_unfold env
                    (with_preferences m c fps p' q b x' y')
                    codec q b p doReset rx ry fps tNow') as H2.
      cbv zeta in H2. rewrite H2. clear H2.
      fold c. fold p'. fold x'. fold y'.
      assert (Hsame :
        preferences_differ (with_preferences m c fps p' q b x' y') c fps q b
          p' x' y'
        = negb (mCurrentStreamingResX m =? x')
          || negb (mCurrentStreamingResY m =? y')).
      { unfold preferences_differ, with_preferences. members.
        rewrite codec_eqb_refl. repeat rewrite Z.eqb_refl. reflexivity. }
      rewrite Hsame.
      destruct (negb (mCurrentStreamingResX m =? x')
                || negb (mCurrentStreamingResY m =? y')); reflexivity.
  - split.
    + split; [discriminate|]. intros Hx. apply Hspec in Hx. discriminate.
    + split; [reflexivity|]. split; [discriminate|].
      intros _.
      pose proof (SetOutputStreamPreferences_unfold env m codec q b p doReset
                    rx ry fps tNow') as H2.
      cbv zeta in H2. rewrite H2. clear H2.
      fold c. fold p'. fold x'. fold y'. rewrite Hd. cbn [fst].
      apply preferences_same_spec in Hd.
      destruct Hd as (_ & _ & _ & _ & _ & Hx & Hy).
      rewrite Hx, Hy. repeat rewrite Z.eqb_refl. reflexivity.
Qed.

Lemma SetOutputStreamPreferences_changed_witness :
  fst (fst (SetOutputStreamPreferences example_env
              (snd (fst (SetOutputStreamPreferences example_env
                           example_video_muxer "H.261" 20 (-1) 1400 false
                           352 288 0 5)))
              "H.261" 20 (-1) 1400 false 352 288 0 6))
  = false.
Proof.
  refine (eq_trans
            (proj2 (proj2 (proj2
               (SetOutputStreamPreferences_changed example_env
                  example_video_muxer "H.261" 20 (-1) 1400 false
                  352 288 0 5 6))) _) _).
  - reflexivity.
  - vm_compute. reflexivity.
Defined.

(** C4, the claim as stated fails: on a muxer that is not open, the same
    call returns [true] twice, the streamed resolution being still 0x0. *)
Lemma SetOutputStreamPreferences_twice_true :
  let m := MediaSourceMuxer_new None in
  let r1 := SetOutputStreamPreferences example_env m "H.261" 20 (-1) 1400
              false 352 288 0 0 in
  let r2 := SetOutputStreamPreferences example_env (snd (fst r1)) "H.261" 20
              (-1) 1400 false 352 288 0 0 in
  fst (fst r1) = true /\ fst (fst r2) = true.
Proof. vm_compute. split; reflexivity. Qed.

(** C5 (as the code has it): for a codec name without an available
    encoder the setter logs the error, returns its changed or unchanged
    result as for any other name, and the stored codec afterwards is the
    codec the name stands for. *)
Theorem unsupported_codec_is_stored (env : Env) (m : MediaSourceMuxer)
    (codec : string) (q b p : Z) (doReset : bool) (rx ry fps tNow : Z)
    (Hunsupported : fst (IsOutputCodecSupported (engine env) codec) = false) :
  let c := GetCodecIDFromGuiName (engine env) codec in
  let r := SetOutputStreamPreferences env m codec q b p doReset rx ry fps tNow in
  In (LOG LOG_ERROR "Trying to set an unsupported codec") (snd r)
  /\ fst (fst r)
     = preferences_differ m c fps q b (packet_budget (wire env) c p)
         (fst (requested_resolution c rx ry)) (snd (requested_resolution c rx ry))
  /\ mStreamCodecId (snd (fst r)) = c.
Proof.
  cbv zeta. split; [|split].
  - unfold SetOutputStreamPreferences.
    destruct (IsOutputCodecSupported (engine env) codec) as [tSupported tLog0].
    cbn [fst] in Hunsupported. subst tSupported. cbn [negb].
    destruct (requested_resolution _ rx ry) as [x' y'].
    repeat break_match; cbn [snd]; rewrite <- app_assoc;
      apply in_or_app; right; left; reflexivity.
  - pose proof (SetOutputStreamPreferences_unfold env m codec q b p doReset rx
                  ry fps tNow) as H.
    cbv zeta in H. rewrite H.
    destruct (preferences_differ _ _ _ _ _ _ _ _); reflexivity.
  - pose proof (SetOutputStreamPreferences_unfold env m codec q b p doReset rx
                  ry fps tNow) as H.
    cbv zeta in H. rewrite H. clear H.
    destruct (preferences_differ _ _ _ _ _ _ _ _) eqn:Hd; cbn [snd].
    + destruct (doReset && mMediaSourceOpened m).
      * match goal with
        | |- mStreamCodecId (snd (Reset ?e (with_preferences ?m0 ?c0 ?f0 ?p0 ?q0 ?b0 ?x0 ?y0) ?t ?n)) = _ =>
            pose proof (Reset_prefs e (with_preferences m0 c0 f0 p0 q0 b0 x0 y0) t n) as Hr;
            pose proof (with_preferences_members m0 c0 f0 p0 q0 b0 x0 y0) as (Hm & _)
        end.
        cbv zeta in Hm. rewrite Hm in Hr. unfold stored_prefs in Hr. congruence.
      * reflexivity.
    + apply preferences_same_spec in Hd. tauto.
Qed.

Lemma unsupported_codec_is_stored_witness :
  mStreamCodecId
    (snd (fst (SetOutputStreamPreferences example_env (MediaSourceMuxer_new None)
                 "H.264" 20 (-1) 1400 false 352 288 0 0)))
  = AV_CODEC_ID_H264.
Proof.
  refine (proj2 (proj2 (unsupported_codec_is_stored example_env
                          (MediaSourceMuxer_new None) "H.264" 20 (-1) 1400
                          false 352 288 0 0 _))).
  reflexivity.
Defined.

(** C5, the claim as stated fails: the stored codec H.261 is replaced by
    H.264, for which the engine has no encoder. *)
Lemma unsupported_codec_replaces_stored :
  let m := set_mStreamCodecId AV_CODEC_ID_H261 (MediaSourceMuxer_new None) in
  let m' := snd (fst (SetOutputStreamPreferences example_env m "H.264" 20 (-1)
                        1400 false 352 288 0 0)) in
  fst (IsOutputCodecSupported example_engine "H.264") = false
  /\ mStreamCodecId m = AV_CODEC_ID_H261
  /\ mStreamCodecId m' = AV_CODEC_ID_H264
  /\ mStreamCodecId m' <> mStreamCodecId m.
Proof. vm_compute. repeat split; discriminate. Qed.

(** ** The frame-rate gate *)

Lemma BelowMaxFps_step (m : MediaSourceMuxer) (t : Z) :
  mStreamMaxFps m <> 0 -> in_int (mStreamMaxFps m) ->
  time_ok t -> time_ok (mStreamMaxFps_LastFrame_Timestamp m) ->
  let tInterval := Z.quot (1000 * 1000) (mStreamMaxFps m) in
  let tOvershoot := t - mStreamMaxFps_LastFrame_Timestamp m - tInterval in
  BelowMaxFps m t
  = if 0 <? tOvershoot
    then (true, set_mStreamMaxFps_LastFrame_Timestamp (t - tOvershoot) m)
    else (false, m).
Proof.
  intros Hfps Hint Ht Hl. cbv zeta. unfold BelowMaxFps, time_ok in *.
  destruct (Z.eqb_spec (mStreamMaxFps m) 0) as [E|_]; [contradiction|].
  cbn [negb].
  assert (Hq : -1000000 <= Z.quot (1000 * 1000) (mStreamMaxFps m) <= 1000000).
  { change (1000 * 1000) with 1000000.
    destruct (Z.lt_trichotomy (mStreamMaxFps m) 0) as [Hn|[Hz|Hp]]; [|lia|].
    - pose proof (Z.quot_opp_r 1000000 (- mStreamMaxFps m) ltac:(lia)) as Ho.
      rewrite Z.opp_involutive in Ho.
      pose proof (Z.quot_pos 1000000 (- mStreamMaxFps m) ltac:(lia) ltac:(lia)).
      pose proof (Z.quot_le_upper_bound 1000000 (- mStreamMaxFps m) 1000000
                    ltac:(lia) ltac:(nia)). lia.
    - pose proof (Z.quot_pos 1000000 (mStreamMaxFps m) ltac:(lia) ltac:(lia)).
      pose proof (Z.quot_le_upper_bound 1000000 (mStreamMaxFps m) 1000000
                    ltac:(lia) ltac:(nia)). lia. }
  rewrite (int_small (1000 * 1000)) by (int_range; lia).
  rewrite (int_small (Z.quot (1000 * 1000) (mStreamMaxFps m)))
    by (int_range; lia).
  rewrite (int64_small (t - mStreamMaxFps_LastFrame_Timestamp m))
    by (int_range; lia).
  rewrite (int64_small (t - mStreamMaxFps_LastFrame_Timestamp m
                        - Z.quot (1000 * 1000) (mStreamMaxFps m)))
    by (int_range; lia).
  destruct (Z.ltb_spec 0 (t - mStreamMaxFps_LastFrame_Timestamp m
                          - Z.quot (1000 * 1000) (mStreamMaxFps m))); [|reflexivity].
  members.
  rewrite int64_small by (int_range; lia).
  destruct m; reflexivity.
Qed.

Lemma admitted_cons (b : bool) (bs : list bool) :
  admitted (b :: bs) = (if b then 1 else 0) + admitted bs.
Proof.
  unfold admitted. cbn [filter]. destruct b; cbn [List.length]; lia.
Qed.

Lemma admitted_nonneg (bs : list bool) : 0 <= admitted bs.
Proof. unfold admitted. lia. Qed.

(** Every admission moves the reference forward by one interval, and a
    frame is admitted only later than the reference plus the interval. *)
Lemma BelowMaxFps_calls_bound (tInterval tBound : Z) (ts : list Z) :
  forall m : MediaSourceMuxer,
  mStreamMaxFps m <> 0 -> in_int (mStreamMaxFps m) ->
  Z.quot (1000 * 1000) (mStreamMaxFps m) = tInterval -> 0 < tInterval ->
  time_ok (mStreamMaxFps_LastFrame_Timestamp m) ->
  (forall t, In t ts -> time_ok t /\ t <= tBound) ->
  let n := admitted (fst (BelowMaxFps_calls m ts)) in
  n = 0 \/ mStreamMaxFps_LastFrame_Timestamp m + n * tInterval < tBound.
Proof.
  induction ts as [|t ts IH]; intros m Hfps Hint Hq Hpos Hl Hts; cbv zeta.
  - left. reflexivity.
  - cbn [BelowMaxFps_calls].
    destruct (Hts t (or_introl eq_refl)) as [Ht Htb].
    pose proof (BelowMaxFps_step m t Hfps Hint Ht Hl) as Hstep.
    cbv zeta in Hstep. rewrite Hq in Hstep. rewrite Hstep. clear Hstep.
    destruct (Z.ltb_spec 0 (t - mStreamMaxFps_LastFrame_Timestamp m - tInterval))
      as [Hadmit|Hdrop].
    + set (m1 := set_mStreamMaxFps_LastFrame_Timestamp
                   (t - (t - mStreamMaxFps_LastFrame_Timestamp m - tInterval)) m).
      assert (Hl1 : mStreamMaxFps_LastFrame_Timestamp m1
                    = mStreamMaxFps_LastFrame_Timestamp m + tInterval).
      { unfold m1. members. lia. }
      assert (Hf1 : mStreamMaxFps m1 = mStreamMaxFps m) by reflexivity.
      specialize (IH m1).
      rewrite Hf1, Hl1 in IH.
      specialize (IH Hfps Hint Hq Hpos).
      assert (Hok : time_ok (mStreamMaxFps_LastFrame_Timestamp m + tInterval)).
      { unfold time_ok in *. lia. }
      specialize (IH Hok (fun u Hu => Hts u (or_intror Hu))).
      cbv zeta in IH.
      destruct (BelowMaxFps_calls m1 ts) as [bs m2]. cbn [fst] in *.
      rewrite admitted_cons. right.
      pose proof (admitted_nonneg bs). nia.
    + specialize (IH m Hfps Hint Hq Hpos Hl (fun u Hu => Hts u (or_intror Hu))).
      cbv zeta in IH.
      destruct (BelowMaxFps_calls m ts) as [bs m2]. cbn [fst] in *.
      rewrite admitted_cons. exact IH.
Qed.

(** C8 (as the code has it): without a maximum frame rate the gate admits
    every frame and moves the reference to the current time.  With one, it
    admits exactly when the time since the reference exceeds the interval
    of one second divided by the maximum frame rate, and then the new
    reference is the current time minus the overshoot.  From a reference
    no older than one interval before the first of the timestamps, driving
    the gate with timestamps that span one second at a maximum of 10
    frames per second admits at most 10 frames. *)
Theorem BelowMaxFps_gate (m : MediaSourceMuxer) (t t0 : Z) (ts : list Z)
    (Hint : in_int (mStreamMaxFps m))
    (Ht : time_ok t)
    (Hl : time_ok (mStreamMaxFps_LastFrame_Timestamp m))
    (Hts : forall u, In u ts -> time_ok u /\ t0 <= u <= t0 + 1000000) :
  (mStreamMaxFps m = 0 ->
   BelowMaxFps m t = (true, set_mStreamMaxFps_LastFrame_Timestamp t m))
  /\ (mStreamMaxFps m <> 0 ->
      let tInterval := Z.quot (1000 * 1000) (mStreamMaxFps m) in
      let tElapsed := t - mStreamMaxFps_LastFrame_Timestamp m in
      let tOvershoot := tElapsed - tInterval in
      fst (BelowMaxFps m t) = (tInterval <? tElapsed)
      /\ (tInterval < tElapsed ->
          mStreamMaxFps_LastFrame_Timestamp (snd (BelowMaxFps m t))
          = t - tOvershoot)
      /\ (tElapsed <= tInterval -> snd (BelowMaxFps m t) = m))
  /\ (mStreamMaxFps m = 10 ->
      t0 - 100000 <= mStreamMaxFps_LastFrame_Timestamp m ->
      admitted (fst (BelowMaxFps_calls m ts)) <= 10).
Proof.
  split; [|split].
  - intros H0. unfold BelowMaxFps. rewrite H0. reflexivity.
  - intros Hfps. cbv zeta.
    pose proof (BelowMaxFps_step m t Hfps Hint Ht Hl) as Hstep.
    cbv zeta in Hstep. rewrite Hstep. clear Hstep.
    destruct (Z.ltb_spec 0 (t - mStreamMaxFps_LastFrame_Timestamp m
                            - Z.quot (1000 * 1000) (mStreamMaxFps m)));
      destruct (Z.ltb_spec (Z.quot (1000 * 1000) (mStreamMaxFps m))
                  (t - mStreamMaxFps_LastFrame_Timestamp m)); try lia;
      cbn [fst snd]; (split; [reflexivity|split; [|intros; try reflexivity; lia]]).
    + intros _. reflexivity.
    + intros; lia.
  - intros H10 Href.
    assert (Hfps : mStreamMaxFps m <> 0) by lia.
    assert (Hq : Z.quot (1000 * 1000) (mStreamMaxFps m) = 100000)
      by (rewrite H10; reflexivity).
    pose proof (BelowMaxFps_calls_bound 100000 (t0 + 1000000) ts m Hfps Hint Hq
                  ltac:(lia) Hl) as Hb.
    cbv zeta in Hb.
    assert (Hall : forall u, In u ts -> time_ok u /\ u <= t0 + 1000000).
    { intros u Hu. destruct (Hts u Hu). split; [assumption|lia]. }
    specialize (Hb Hall).
    destruct Hb as [Hb|Hb]; lia.
Qed.

Lemma BelowMaxFps_gate_witness :
  admitted
    (fst (BelowMaxFps_calls example_limited_muxer
            [0; 50000; 100001; 150000; 200002; 1000000]))
  <= 10.
Proof.
  refine (proj2 (proj2 (BelowMaxFps_gate example_limited_muxer
                          5 0 [0; 50000; 100001; 150000; 200002; 1000000]
                          _ _ _ _)) _ _).
  - cbv. intuition discriminate.
  - cbv. intuition discriminate.
  - cbv. intuition discriminate.
  - intros u Hu. cbn [In] in Hu.
    repeat (destruct Hu as [Hu|Hu]; [subst u; cbv; intuition discriminate|]).
    destruct Hu.
  - reflexivity.
  - cbv. discriminate.
Defined.

(** C8, the claim as stated fails: the muxer was opened at time 0 and
    the first chunk is grabbed five seconds later; the 21 frames grabbed
    at 20 frames per second within the next second are all admitted at a
    maximum of 10 frames per second. *)
Lemma BelowMaxFps_burst :
  let m := example_limited_muxer in
  let ts := map (fun k => 5000000 + 50000 * Z.of_nat k) (seq 0 21) in
  (forall u, In u ts -> 5000000 <= u <= 5000000 + 1000000)
  /\ admitted (fst (BelowMaxFps_calls m ts)) = 21
  /\ ~ (admitted (fst (BelowMaxFps_calls m ts)) <= 10 + 1).
Proof.
  cbv zeta. split; [|split].
  - intros u Hu. cbn in Hu.
    repeat (destruct Hu as [Hu|Hu]; [subst u; lia|]). destruct Hu.
  - vm_compute. reflexivity.
  - vm_compute. intros H. apply H. reflexivity.
Qed.

(** ** The transcode thread: video timestamps *)

Ltac break_match_in H :=
  match type of H with
  | context [match ?x with _ => _ end] =>
      lazymatch x with
      | context [match _ with _ => _ end] => fail
      | _ => destruct x eqn:?
      end
  end.


(** C1, the code at a failing input: a source with a variable frame rate
    delivers two frames half a millisecond apart; the thread relays the
    presentation timestamp 0 for both, because the timestamp 0 of the
    first frame also stands for "no frame yet" in the check that
    enforces the increasing time base.  So it is for the two entries
    processed one after the other, and so it is when each is grabbed,
    admitted and encoded in turn. *)
Theorem video_pts_not_increasing :
  option_map (fun r => relayed_pts (snd r))
    (Run_entries example_env example_video_muxer Run_locals_init
       [example_entry 1000000; example_entry 1000500] 0)
  = Some [0; 0]
  /\ option_map (fun r => relayed_pts (snd r))
       (fold_left (grab_and_encode example_env) [1000000; 1000500]
          (Some (example_video_muxer, Run_locals_init, [])))
     = Some [0; 0]
  /\ ~ strictly_increasing [0; 0].
Proof.
  split; [|split].
  - vm_compute. reflexivity.
  - vm_compute. reflexivity.
  - cbn. lia.
Qed.

(** ** The transcode thread: the frame queue *)

Lemma producer_writes_shape (chunks : list FifoEntry) :
  forall q : MediaFifo,
  fifo_capacity (producer_writes q chunks) = fifo_capacity q
  /\ fifo_reading (producer_writes q chunks) = fifo_reading q
  /\ (GetUsage q <= fifo_capacity q ->
      GetUsage (producer_writes q chunks) <= fifo_capacity q).
Proof.
  induction chunks as [|c chunks IH]; intros q; cbn [producer_writes].
  - repeat split. intros H; exact H.
  - destruct (IH (WriteFifo q (fe_buffer c) (fe_size c) (fe_timestamp c)))
      as (Hc & Hr & Hu).
    unfold WriteFifo in *.
    destruct (Z.ltb_spec (GetUsage q) (fifo_capacity q)) as [Hlt|Hge].
    + cbn [fifo_capacity fifo_reading] in *.
      repeat split; try assumption.
      intros _. apply Hu. unfold GetUsage in *. cbn [fifo_entries].
      rewrite length_app. cbn [List.length]. lia.
    + repeat split; assumption.
Qed.

Lemma Run_finish_entry_spec (w : WireConstants) (q : MediaFifo) (tFifoEntry : Z) :
  in_int (MEDIA_SOURCE_MUX_INPUT_QUEUE_SIZE_LIMIT w - 4) ->
  0 <= tFifoEntry ->
  let q' := fst (Run_finish_entry w q tFifoEntry) in
  fifo_reading q' = None
  /\ fifo_capacity q' = fifo_capacity q
  /\ (MEDIA_SOURCE_MUX_INPUT_QUEUE_SIZE_LIMIT w - 4 <= GetUsage q ->
      GetUsage q' = 0)
  /\ (GetUsage q < MEDIA_SOURCE_MUX_INPUT_QUEUE_SIZE_LIMIT w - 4 ->
      fifo_entries q' = fifo_entries q).
Proof.
  intros Hint Hticket. cbv zeta. unfold Run_finish_entry.
  rewrite (int_small _ Hint).
  destruct (Z.leb_spec 0 tFifoEntry) as [_|]; [|lia].
  unfold ReadFifoExclusiveFinished, ClearFifo, GetUsage.
  cbn [fifo_entries fifo_capacity fifo_reading].
  destruct (Z.leb_spec (MEDIA_SOURCE_MUX_INPUT_QUEUE_SIZE_LIMIT w - 4)
              (Z.of_nat (List.length (fifo_entries q))));
    cbn [fst fifo_entries fifo_capacity fifo_reading List.length];
    repeat split; intros; try reflexivity; lia.
Qed.

(** C7: a pass of the thread over one entry of the frame queue.  When the
    usage of the queue, once the read ticket is finished, has reached the
    capacity minus 4, the thread clears the queue and the usage after the
    pass is 0; otherwise the queue keeps its entries.  The usage exceeds
    the capacity neither during the pass nor after it. *)
Theorem Run_clears_queue_near_overload (env : Env) (m m1 : MediaSourceMuxer)
    (l l1 : RunLocals) (tChunks : list FifoEntry) (fuel : nat)
    (q : MediaFifo) (e : FifoEntry) (rest : list FifoEntry)
    (tEvents1 : list Event)
    (Hq : mEncoderFifo m = Some q)
    (Hfree : fifo_reading q = None)
    (Hentries : fifo_entries q = e :: rest)
    (Hcap : fifo_capacity q = MEDIA_SOURCE_MUX_INPUT_QUEUE_SIZE_LIMIT (wire env))
    (Hint : in_int (MEDIA_SOURCE_MUX_INPUT_QUEUE_SIZE_LIMIT (wire env) - 4))
    (Husage : GetUsage q <= fifo_capacity q)
    (Hentry : Run_entry env m l e fuel = Some (m1, l1, tEvents1)) :
  let q1 := producer_writes {| fifo_capacity := fifo_capacity q;
                               fifo_entries := rest;
                               fifo_reading := Some e |} tChunks in
  exists (tEvents : list Event) (q' : MediaFifo),
    Run_iteration env m l tChunks fuel
    = Some (set_mEncoderFifo (Some q') m1, l1, tEvents)
    /\ fifo_reading q' = None
    /\ (fifo_capacity q - 4 <= GetUsage q1 -> GetUsage q' = 0)
    /\ (GetUsage q1 < fifo_capacity q - 4 -> fifo_entries q' = fifo_entries q1)
    /\ GetUsage q1 <= fifo_capacity q
    /\ GetUsage q' <= fifo_capacity q.
Proof.
  cbv zeta.
  set (q0 := {| fifo_capacity := fifo_capacity q; fifo_entries := rest;
                fifo_reading := Some e |}).
  pose proof (producer_writes_shape tChunks q0) as (Hc1 & Hr1 & Hu1).
  assert (Hu0 : GetUsage q0 <= fifo_capacity q0).
  { unfold GetUsage in *. unfold q0. cbn [fifo_entries fifo_capacity].
    rewrite Hentries in Husage. cbn [List.length] in Husage. lia. }
  specialize (Hu1 Hu0). change (fifo_capacity q0) with (fifo_capacity q) in *.
  pose proof (Run_finish_entry_spec (wire env) (producer_writes q0 tChunks) 0
                Hint ltac:(lia)) as Hfin.
  cbv zeta in Hfin. destruct Hfin as (Hf1 & Hf2 & Hf3 & Hf4).
  unfold Run_iteration. rewrite Hq.
  unfold ReadFifoExclusive. rewrite Hfree, Hentries. cbn [bind].
  fold q0. rewrite Hentry. cbn [bind].
  destruct (Run_finish_entry (wire env) (producer_writes q0 tChunks) 0)
    as [q' tEvents'] eqn:Hrun.
  cbn [fst] in *.
  exists (tEvents1 ++ tEvents'), q'.
  rewrite <- Hcap in *.
  split; [reflexivity|]. split; [exact Hf1|]. split; [exact Hf3|].
  split; [exact Hf4|]. split; [exact Hu1|].
  destruct (Z.le_gt_cases (fifo_capacity q - 4) (GetUsage (producer_writes q0 tChunks)))
    as [Hover|Hunder].
  - rewrite (Hf3 Hover). unfold GetUsage in Husage. rewrite Hentries in Husage.
    cbn [List.length] in Husage. lia.
  - unfold GetUsage. rewrite (Hf4 Hunder). fold (GetUsage (producer_writes q0 tChunks)).
    exact Hu1.
Qed.

Lemma Run_clears_queue_near_overload_witness :
  exists (m' : MediaSourceMuxer) (l' : RunLocals) (tEvents : list Event)
         (q' : MediaFifo),
    Run_iteration example_env example_queued_muxer Run_locals_init
      example_chunks 0 = Some (m', l', tEvents)
    /\ mEncoderFifo m' = Some q'
    /\ GetUsage q' = 0.
Proof.
  destruct (Run_entry example_env example_queued_muxer Run_locals_init
              (example_entry 1000000) 0) as [[[m1 l1] ev1]|] eqn:Hentry;
    [|vm_compute in Hentry; discriminate].
  destruct (Run_clears_queue_near_overload example_env example_queued_muxer m1
              Run_locals_init l1 example_chunks 0
              {| fifo_capacity := 16;
                 fifo_entries := [example_entry 1000000];
                 fifo_reading := None |}
              (example_entry 1000000) [] ev1
              eq_refl eq_refl eq_refl eq_refl
              ltac:(cbv; intuition discriminate)
              ltac:(cbv; discriminate)
              Hentry) as (tEvents & q' & Hrun & _ & Hclear & _).
  exists (set_mEncoderFifo (Some q') m1), l1, tEvents, q'.
  split; [exact Hrun|]. split; [reflexivity|].
  apply Hclear. vm_compute. discriminate.
Defined.

(** ** The device selector *)

Lemma OpenVideoGrabDevice_source (env : Env) (m : MediaSourceMuxer)
    (x y : Z) (f : float) (t : Z) :
  mMediaSource (snd (OpenVideoGrabDevice env m x y f t)) = mMediaSource m.
Proof.
  destruct m.
  cbv [OpenVideoGrabDevice OpenVideoMuxer StartEncoder
       MarkOpenGrabDeviceSuccessful].
  members_cbv.
  repeat (break_match; try reflexivity).
Qed.

Lemma OpenAudioGrabDevice_source (env : Env) (m : MediaSourceMuxer) (r c : Z) :
  mMediaSource (snd (OpenAudioGrabDevice env m r c)) = mMediaSource m.
Proof.
  destruct m.
  cbv [OpenAudioGrabDevice OpenAudioMuxer StartEncoder
       MarkOpenGrabDeviceSuccessful].
  members_cbv.
  repeat (break_match; try reflexivity).
Qed.

Section RollbackLoop.

Variable env : Env.
Variable tOpen : MediaSourceMuxer -> bool * MediaSourceMuxer.
Variable dev : string.
Variable t : MediaType.

Hypothesis tOpen_keeps_source :
  forall m, mMediaSource (snd (tOpen m)) = mMediaSource m.

(** The loop that follows a failed switch never makes a probed candidate
    the active source: whatever it returns, the active source is the one
    put back before the loop. *)
Lemma SelectDevice_reopen_keeps_source (tIt : list nat) :
  forall (m m' : MediaSourceMuxer) (n r n' : bool),
  SelectDevice_reopen env tOpen dev t tIt m n = Some (r, n', m') ->
  mMediaSource m' = mMediaSource m.
Proof.
  induction tIt as [|s tIt IH]; intros m m' n r n' H;
    cbn [SelectDevice_reopen] in H;
    pose proof (tOpen_keeps_source m) as Hm;
    destruct (tOpen m) as [ok m1]; cbn [snd] in Hm;
    destruct ok; try (inversion H; subst; exact Hm).
  destruct tIt as [|s' tIt]; [discriminate|].
  destruct (src_SelectDevice (source_at env s') dev t n) as [a n1].
  apply IH in H. congruence.
Qed.

(** It reports a failure only from the end of the list, which it reaches
    by dereferencing it: started at a candidate, it either reports
    success or has no defined result. *)
Lemma SelectDevice_reopen_reports_no_failure (tIt : list nat) :
  tIt <> [] ->
  forall (m m' : MediaSourceMuxer) (n n' : bool),
  SelectDevice_reopen env tOpen dev t tIt m n <> Some (false, n', m').
Proof.
  induction tIt as [|s tIt IH]; intros Hne m m' n n' H; [contradiction|].
  cbn [SelectDevice_reopen] in H.
  destruct (tOpen m) as [ok m1]. destruct ok; [discriminate|].
  destruct tIt as [|s' tIt]; [discriminate|].
  destruct (src_SelectDevice (source_at env s') dev t n) as [a n1].
  exact (IH ltac:(discriminate) _ _ _ _ H).
Qed.

End RollbackLoop.

(** So it is for the loop as [SelectDevice] runs it on a video muxer. *)
Lemma SelectDevice_reopen_video_keeps_source (env : Env) (dev : string)
    (tIt : list nat) (tNow : Z) (m m' : MediaSourceMuxer) (n r n' : bool) :
  SelectDevice_reopen env
    (fun m => OpenVideoGrabDevice env m (mSourceResX m) (mSourceResY m)
                (mInputFrameRate m) tNow)
    dev MEDIA_VIDEO tIt m n = Some (r, n', m') ->
  mMediaSource m' = mMediaSource m.
Proof.
  apply SelectDevice_reopen_keeps_source.
  intros m0. apply OpenVideoGrabDevice_source.
Qed.

(** C6, the code at a failing input: the muxer is open on source 1 and
    sources 2 and 3 accept the desired device; source 2 does not open,
    source 1 does not open again, source 3 would.  The selector puts
    source 1 back, tries to open source 1 again and again while it moves
    its iterator on, never opens source 3, and finally dereferences the
    end of the list: it has no defined result.  When source 1 does open
    again, the selector reports success with source 1 active. *)
Theorem SelectDevice_never_opens_next_candidate :
  SelectDevice example_env example_video_muxer "cam" MEDIA_VIDEO 0 = None
  /\ option_map (fun r => (fst (fst r), mMediaSource (snd r)))
       (SelectDevice example_env_reopens example_video_muxer "cam" MEDIA_VIDEO 0)
     = Some (true, Some 1%nat).
Proof. split; vm_compute; reflexivity. Qed.

(** ** The frame rate of a video session *)

Lemma Fcompare_antisym (x y : float) :
  Fcompare y x = option_map CompOpp (Fcompare x y).
Proof.
  destruct x as [sx|sx| |sx mx ex], y as [sy|sy| |sy my ey];
    try reflexivity;
    try (destruct sx; reflexivity);
    try (destruct sy; reflexivity);
    try (destruct sx, sy; reflexivity).
  unfold Fcompare. cbn [option_map]. rewrite (Z.min_comm ey ex).
  rewrite Z.compare_antisym. reflexivity.
Qed.

Lemma Fcompare_defined (x y : float) :
  is_nan x = false -> is_nan y = false -> exists c, Fcompare x y = Some c.
Proof.
  destruct x, y; cbn; intros; try discriminate; eexists; reflexivity.
Qed.

Lemma Fscaled_shift (s : bool) (m : positive) (e e0 e1 : Z) :
  e1 <= e0 -> e0 <= e ->
  Fscaled s m e e1 = Fscaled s m e e0 * 2 ^ (e0 - e1).
Proof.
  intros H1 H0. unfold Fscaled.
  replace (e - e1) with ((e - e0) + (e0 - e1)) by lia.
  rewrite Z.pow_add_r by lia.
  destruct s; lia.
Qed.

(** The comparison of two finite values at any common exponent below
    both. *)
Lemma Fcompare_finite (s1 s2 : bool) (m1 m2 : positive) (e1 e2 e0 : Z) :
  e0 <= e1 -> e0 <= e2 ->
  Fcompare (S754_finite s1 m1 e1) (S754_finite s2 m2 e2)
  = Some (Z.compare (Fscaled s1 m1 e1 e0) (Fscaled s2 m2 e2 e0)).
Proof.
  intros H1 H2. cbn [Fcompare]. f_equal.
  rewrite (Fscaled_shift s1 m1 e1 (Z.min e1 e2) e0) by lia.
  rewrite (Fscaled_shift s2 m2 e2 (Z.min e1 e2) e0) by lia.
  apply Zmult_compare_compat_r.
  apply Z.lt_gt. apply Z.pow_pos_nonneg; lia.
Qed.

(** A value below 5 is not above 29.97. *)
Lemma Flt_5_not_Fgt_29_97 (f : float) :
  Flt f float_5 = true -> Fgt f double_29_97 = false.
Proof.
  destruct f as [s|s| |s m e]; try (destruct s); try reflexivity;
    try discriminate.
  - unfold Flt, Fgt. change float_5 with (S754_finite false 10485760 (-21)).
    unfold double_29_97.
    set (e0 := Z.min e (-48)).
    rewrite (Fcompare_finite true false m 10485760 e (-21) e0) by lia.
    rewrite (Fcompare_finite true false m 8435805052018360 e (-48) e0) by lia.
    unfold Fscaled.
    assert (Hp : 0 < 2 ^ (-48 - e0)) by (apply Z.pow_pos_nonneg; lia).
    assert (Hq : 0 < 2 ^ (e - e0)) by (apply Z.pow_pos_nonneg; lia).
    intros _.
    destruct (Z.compare_spec (- (Z.pos m * 2 ^ (e - e0)))
                (Z.pos 8435805052018360 * 2 ^ (-48 - e0))); try reflexivity.
    nia.
  - unfold Flt, Fgt. change float_5 with (S754_finite false 10485760 (-21)).
    unfold double_29_97.
    set (e0 := Z.min e (-48)).
    rewrite (Fcompare_finite false false m 10485760 e (-21) e0) by lia.
    rewrite (Fcompare_finite false false m 8435805052018360 e (-48) e0) by lia.
    unfold Fscaled.
    assert (Hp : 0 < 2 ^ (-48 - e0)) by (apply Z.pow_pos_nonneg; lia).
    assert (Hs : 2 ^ (-21 - e0) = 2 ^ 27 * 2 ^ (-48 - e0)).
    { rewrite <- Z.pow_add_r by lia. f_equal. lia. }
    rewrite Hs.
    destruct (Z.compare_spec (Z.pos m * 2 ^ (e - e0))
                (Z.pos 10485760 * (2 ^ 27 * 2 ^ (-48 - e0)))); try discriminate.
    intros _.
    destruct (Z.compare_spec (Z.pos m * 2 ^ (e - e0))
                (Z.pos 8435805052018360 * 2 ^ (-48 - e0))); try reflexivity.
    change (2 ^ 27) with 134217728 in *. nia.
Qed.

Lemma limit_fps_above (f : float) :
  Fgt f double_29_97 = true -> limit_fps f = float_29_97.
Proof. intros H. unfold limit_fps. rewrite H. reflexivity. Qed.

Lemma limit_fps_below (f : float) :
  Flt f float_5 = true -> limit_fps f = float_5.
Proof.
  intros H. unfold limit_fps. rewrite (Flt_5_not_Fgt_29_97 f H), H. reflexivity.
Qed.

Lemma limit_fps_range (f : float) :
  is_nan f = false ->
  Fle float_5 (limit_fps f) = true /\ Fle (limit_fps f) double_29_97 = true.
Proof.
  intros Hnan. unfold limit_fps.
  destruct (Fgt f double_29_97) eqn:Hgt.
  - split; reflexivity.
  - destruct (Flt f float_5) eqn:Hlt.
    + split; reflexivity.
    + split.
      * destruct (Fcompare_defined f float_5 Hnan eq_refl) as [c Hc].
        unfold Fle. rewrite (Fcompare_antisym f float_5), Hc.
        unfold Flt in Hlt. rewrite Hc in Hlt.
        destruct c; try reflexivity; discriminate.
      * destruct (Fcompare_defined f double_29_97 Hnan eq_refl) as [c Hc].
        unfold Fle. unfold Fgt in Hgt. rewrite Hc in *.
        destruct c; try reflexivity; discriminate.
Qed.

Lemma OpenVideoMuxer_rates (env : Env) (m : MediaSourceMuxer)
    (x y : Z) (pFps : float) (tNow : Z) :
  mMediaSourceOpened m = false ->
  mInputFrameRate (snd (OpenVideoMuxer env m x y pFps tNow))
  = limit_fps (effective_fps env m pFps)
  /\ mOutputFrameRate (snd (OpenVideoMuxer env m x y pFps tNow))
     = limit_fps (effective_fps env m pFps).
Proof.
  destruct m. cbn [mMediaSourceOpened]. intros ->.
  cbv [OpenVideoMuxer StartEncoder MarkOpenGrabDeviceSuccessful effective_fps].
  members_cbv.
  repeat (break_match; try (split; reflexivity)).
Qed.

Lemma effective_fps_ext (env : Env) (m1 m2 : MediaSourceMuxer) (f : float) :
  mStreamMaxFps m1 = mStreamMaxFps m2 -> mMediaSource m1 = mMediaSource m2 ->
  effective_fps env m1 f = effective_fps env m2 f.
Proof. intros H1 H2. unfold effective_fps. rewrite H1, H2. reflexivity. Qed.

Lemma OpenVideoGrabDevice_rates (env : Env) (m : MediaSourceMuxer)
    (x y : Z) (pFps : float) (tNow : Z) :
  mMediaSourceOpened m = false ->
  (mMediaSource m = None
   \/ exists s, mMediaSource m = Some s
                /\ src_OpenVideoGrabDevice (source_at env s) = true) ->
  mInputFrameRate (snd (OpenVideoGrabDevice env m x y pFps tNow))
  = limit_fps (effective_fps env m (limit_fps pFps))
  /\ mOutputFrameRate (snd (OpenVideoGrabDevice env m x y pFps tNow))
     = limit_fps (effective_fps env m (limit_fps pFps)).
Proof.
  intros Hclosed Hsrc. unfold OpenVideoGrabDevice.
  change (mMediaSource (set_mMediaType MEDIA_VIDEO m)) with (mMediaSource m).
  destruct Hsrc as [Hnone|(s & Hs & Hopen)].
  - rewrite Hnone.
    change (mMediaSourceOpened (set_mMediaType MEDIA_VIDEO m))
      with (mMediaSourceOpened m).
    rewrite Hclosed.
    destruct (OpenVideoMuxer_rates env (set_mMediaType MEDIA_VIDEO m) x y
                (limit_fps pFps) tNow Hclosed) as [H1 H2].
    rewrite H1, H2.
    rewrite (effective_fps_ext env (set_mMediaType MEDIA_VIDEO m) m
               (limit_fps pFps) eq_refl eq_refl).
    split; reflexivity.
  - rewrite Hs, Hopen. cbn [negb].
    set (m0 := set_mOutputFrameRate (src_GetOutputFrameRate (source_at env s))
                 (set_mInputFrameRate (src_GetInputFrameRate (source_at env s))
                    (set_mMediaType MEDIA_VIDEO m))).
    change (mMediaSourceOpened m0) with (mMediaSourceOpened m).
    rewrite Hclosed. cbn [snd].
    destruct (OpenVideoMuxer_rates env m0 x y (limit_fps pFps) tNow Hclosed)
      as [H1 H2].
    rewrite H1, H2.
    rewrite (effective_fps_ext env m0 m (limit_fps pFps) eq_refl eq_refl).
    split; reflexivity.
Qed.

Lemma limit_fps_keeps (f : float) :
  Fle float_5 f = true -> Fle f double_29_97 = true -> limit_fps f = f.
Proof.
  intros H5 H29. unfold limit_fps.
  assert (Hgt : Fgt f double_29_97 = false).
  { unfold Fle in H29. unfold Fgt.
    destruct (Fcompare f double_29_97) as [[| |]|];
      try reflexivity; discriminate. }
  assert (Hlt : Flt f float_5 = false).
  { unfold Fle in H5. unfold Flt. rewrite (Fcompare_antisym float_5 f).
    destruct (Fcompare float_5 f) as [[| |]|];
      try reflexivity; discriminate. }
  rewrite Hgt, Hlt. reflexivity.
Qed.

(** On an open muxer [OpenVideoMuxer] gives up before it touches the
    frame rates. *)
Lemma OpenVideoMuxer_open_rates (env : Env) (m : MediaSourceMuxer)
    (x y : Z) (pFps : float) (tNow : Z) :
  mMediaSourceOpened m = true ->
  fst (OpenVideoMuxer env m x y pFps tNow) = false
  /\ mInputFrameRate (snd (OpenVideoMuxer env m x y pFps tNow))
     = mInputFrameRate m
  /\ mOutputFrameRate (snd (OpenVideoMuxer env m x y pFps tNow))
     = mOutputFrameRate m.
Proof.
  destruct m. cbn [mMediaSourceOpened]. intros ->.
  cbv [OpenVideoMuxer]. members_cbv. repeat split.
Qed.

(** [OpenVideoGrabDevice] when the muxer does not get opened: the base
    source fails to open, or the muxer is open already. *)
Lemma OpenVideoGrabDevice_given_up (env : Env) (m : MediaSourceMuxer)
    (x y : Z) (pFps : float) (tNow : Z) :
  let r := OpenVideoGrabDevice env m x y pFps tNow in
  (forall s, mMediaSource m = Some s ->
             src_OpenVideoGrabDevice (source_at env s) = false ->
             fst r = false
             /\ mInputFrameRate (snd r) = mInputFrameRate m
             /\ mOutputFrameRate (snd r) = mOutputFrameRate m)
  /\ (forall s, mMediaSource m = Some s ->
                src_OpenVideoGrabDevice (source_at env s) = true ->
                mMediaSourceOpened m = true ->
                fst r = false
                /\ mInputFrameRate (snd r)
                   = src_GetInputFrameRate (source_at env s)
                /\ mOutputFrameRate (snd r)
                   = src_GetOutputFrameRate (source_at env s))
  /\ (mMediaSource m = None -> mMediaSourceOpened m = true ->
      fst r = false
      /\ mInputFrameRate (snd r) = mInputFrameRate m
      /\ mOutputFrameRate (snd r) = mOutputFrameRate m).
Proof.
  cbv zeta. unfold OpenVideoGrabDevice.
  change (mMediaSource (set_mMediaType MEDIA_VIDEO m)) with (mMediaSource m).
  split; [|split].
  - intros s Hs Hfail. rewrite Hs, Hfail. cbn [negb fst snd].
    repeat split.
  - intros s Hs Hopens Hopen. rewrite Hs, Hopens. cbn [negb].
    match goal with
    | |- context [if mMediaSourceOpened ?m0 then _ else _] =>
        change (mMediaSourceOpened m0) with (mMediaSourceOpened m)
    end.
    rewrite Hopen. cbn [fst snd]. members. repeat split.
  - intros Hnone Hopen. rewrite Hnone.
    change (mMediaSourceOpened (set_mMediaType MEDIA_VIDEO m))
      with (mMediaSourceOpened m).
    rewrite Hopen. cbn [fst snd]. repeat split.
Qed.

(** C10 (as the code has it): [OpenVideoMuxer] on a muxer that is not
    open limits a frame rate to the range from 5 to 29.97 before it
    becomes the input and output frame rate of the session: a rate above
    29.97 becomes 29.97, a rate below 5 becomes 5, a rate in the range is
    kept (and so is a NaN, which no comparison catches).  The rate limited is the maximum frame rate of the preferences
    if one is set, else the output frame rate of the base source if
    there is one (the rate requested where the two compare equal), else
    the rate requested.  On an open muxer [OpenVideoMuxer] returns
    [false] and leaves the two rates.  [OpenVideoGrabDevice] limits the
    rate requested in the same way before [OpenVideoMuxer] gets it.
    Where the base source does not open it returns [false] and leaves
    the two rates; else it stores the input and output frame rate of
    the base source as they are, and on an open muxer returns [false]
    with them; on a muxer that is not open [OpenVideoMuxer] then puts
    the limited rate in their place. *)
Theorem frame_rate_is_limited (env : Env) (m : MediaSourceMuxer)
    (x y : Z) (pFps : float) (tNow : Z) :
  let r1 := OpenVideoMuxer env m x y pFps tNow in
  let r2 := OpenVideoGrabDevice env m x y pFps tNow in
  let f1 := effective_fps env m pFps in
  let f2 := effective_fps env m (limit_fps pFps) in
  (forall f : float,
     (Fgt f double_29_97 = true -> limit_fps f = float_29_97)
     /\ (Flt f float_5 = true -> limit_fps f = float_5)
     /\ (Fle float_5 f = true -> Fle f double_29_97 = true -> limit_fps f = f)
     /\ (is_nan f = true -> limit_fps f = f)
     /\ (is_nan f = false ->
         Fle float_5 (limit_fps f) = true
         /\ Fle (limit_fps f) double_29_97 = true))
  /\ (mStreamMaxFps m <> 0 -> f1 = float_of_int (mStreamMaxFps m))
  /\ (forall s, mStreamMaxFps m = 0 -> mMediaSource m = Some s ->
                f1 = if Fne (src_GetOutputFrameRate (source_at env s)) pFps
                     then src_GetOutputFrameRate (source_at env s)
                     else pFps)
  /\ (mStreamMaxFps m = 0 -> mMediaSource m = None -> f1 = pFps)
  /\ (mMediaSourceOpened m = false ->
      mInputFrameRate (snd r1) = limit_fps f1
      /\ mOutputFrameRate (snd r1) = limit_fps f1)
  /\ (mMediaSourceOpened m = true ->
      fst r1 = false
      /\ mInputFrameRate (snd r1) = mInputFrameRate m
      /\ mOutputFrameRate (snd r1) = mOutputFrameRate m)
  /\ (mMediaSourceOpened m = false ->
      (mMediaSource m = None
       \/ exists s, mMediaSource m = Some s
                    /\ src_OpenVideoGrabDevice (source_at env s) = true) ->
      mInputFrameRate (snd r2) = limit_fps f2
      /\ mOutputFrameRate (snd r2) = limit_fps f2)
  /\ (forall s, mMediaSource m = Some s ->
                src_OpenVideoGrabDevice (source_at env s) = false ->
                fst r2 = false
                /\ mInputFrameRate (snd r2) = mInputFrameRate m
                /\ mOutputFrameRate (snd r2) = mOutputFrameRate m)
  /\ (forall s, mMediaSource m = Some s ->
                src_OpenVideoGrabDevice (source_at env s) = true ->
                mMediaSourceOpened m = true ->
                fst r2 = false
                /\ mInputFrameRate (snd r2)
                   = src_GetInputFrameRate (source_at env s)
                /\ mOutputFrameRate (snd r2)
                   = src_GetOutputFrameRate (source_at env s))
  /\ (mMediaSource m = None -> mMediaSourceOpened m = true ->
      fst r2 = false
      /\ mInputFrameRate (snd r2) = mInputFrameRate m
      /\ mOutputFrameRate (snd r2) = mOutputFrameRate m).
Proof.
  cbv zeta.
  split.
  { intros f.
    split; [apply limit_fps_above|].
    split; [apply limit_fps_below|].
    split; [apply limit_fps_keeps|].
    split; [|apply limit_fps_range].
    destruct f; try discriminate. reflexivity. }
  split.
  { intros H0. unfold effective_fps.
    destruct (Z.eqb_spec (mStreamMaxFps m) 0); [contradiction|reflexivity]. }
  split.
  { intros s H0 Hs. unfold effective_fps. rewrite H0, Hs. reflexivity. }
  split.
  { intros H0 Hn. unfold effective_fps. rewrite H0, Hn. reflexivity. }
  split; [apply OpenVideoMuxer_rates|].
  split; [apply OpenVideoMuxer_open_rates|].
  split; [apply OpenVideoGrabDevice_rates|].
  exact (OpenVideoGrabDevice_given_up env m x y pFps tNow).
Qed.

(** A rate in the range is kept: with no maximum frame rate and no base
    source, a session requested at 15 frames per second runs at 15. *)
Lemma frame_rate_is_limited_witness :
  mOutputFrameRate
    (snd (OpenVideoMuxer example_env
            (set_mStreamCodecId AV_CODEC_ID_H261 (MediaSourceMuxer_new None))
            352 288 (float_of_int 15) 0))
  = float_of_int 15.
Proof.
  destruct (frame_rate_is_limited example_env
              (set_mStreamCodecId AV_CODEC_ID_H261 (MediaSourceMuxer_new None))
              352 288 (float_of_int 15) 0)
    as (Hlimit & _ & _ & Hreq & Hclosed & _).
  destruct (Hlimit (float_of_int 15)) as (_ & _ & Hkeep & _).
  rewrite (proj2 (Hclosed eq_refl)), (Hreq eq_refl eq_refl).
  apply Hkeep; reflexivity.
Defined.

(** C10, the claim as stated fails.  With a maximum frame rate of 60 in
    the preferences, a session requested at 1 frame per second runs at
    29.97, not at 5; on a base source of 29.97 frames per second a
    session requested at 10 runs at 29.97; and a second
    [OpenVideoGrabDevice] on a muxer it has opened, on a base source of
    60 frames per second, returns [false] and leaves the 60 of the base
    source as the input and output frame rate, above the range. *)
Lemma frame_rate_not_limited :
  let m1 := snd (OpenVideoMuxer example_env
                   (set_mStreamMaxFps 60
                      (set_mStreamCodecId AV_CODEC_ID_H261
                         (MediaSourceMuxer_new None)))
                   352 288 (float_of_int 1) 0) in
  let m2 := snd (OpenVideoMuxer example_env
                   (set_mStreamCodecId AV_CODEC_ID_H261
                      (MediaSourceMuxer_new (Some 3%nat)))
                   352 288 (float_of_int 10) 0) in
  let m := snd (OpenVideoGrabDevice example_env_fast
                  (set_mStreamCodecId AV_CODEC_ID_H261
                     (MediaSourceMuxer_new (Some 1%nat)))
                  352 288 (float_of_int 25) 0) in
  let r3 := OpenVideoGrabDevice example_env_fast m 352 288 (float_of_int 25) 0 in
  (Flt (float_of_int 1) float_5 = true
   /\ mMediaSourceOpened m1 = true
   /\ mInputFrameRate m1 = float_29_97 /\ mOutputFrameRate m1 = float_29_97
   /\ float_29_97 <> float_5)
  /\ (Fle float_5 (float_of_int 10) = true
      /\ Fle (float_of_int 10) double_29_97 = true
      /\ mMediaSourceOpened m2 = true
      /\ mInputFrameRate m2 = float_29_97 /\ mOutputFrameRate m2 = float_29_97
      /\ float_29_97 <> float_of_int 10)
  /\ (mMediaSourceOpened m = true
      /\ mInputFrameRate m = float_29_97 /\ mOutputFrameRate m = float_29_97
      /\ fst r3 = false
      /\ mInputFrameRate (snd r3) = float_of_int 60
      /\ mOutputFrameRate (snd r3) = float_of_int 60
      /\ Fgt (float_of_int 60) double_29_97 = true).
Proof. vm_compute. repeat split; discriminate. Qed.

(** ** The transcode thread: silence suppression *)

Section SilenceSuppression.

Variable env : Env.

Lemma audio_config_fields (m m' : MediaSourceMuxer) :
  audio_config m' = audio_config m ->
  mMediaType m' = mMediaType m /\ mStreamCodecId m' = mStreamCodecId m
  /\ mOutputFrameRate m' = mOutputFrameRate m /\ frame_size m' = frame_size m
  /\ mOutputAudioChannels m' = mOutputAudioChannels m
  /\ mOutputAudioFormat m' = mOutputAudioFormat m
  /\ mOutputAudioSampleRate m' = mOutputAudioSampleRate m
  /\ mRelayingSkipAudioSilence m' = mRelayingSkipAudioSilence m
  /\ mAudioSilenceThreshold m' = mAudioSilenceThreshold m.
Proof.
  unfold audio_config. intros H. inversion H. repeat split; assumption.
Qed.

Lemma encoder_pts_config (m m' : MediaSourceMuxer) (n : Z) :
  audio_config m' = audio_config m -> encoder_pts m' n = encoder_pts m n.
Proof.
  intros H. apply audio_config_fields in H.
  destruct H as (H1 & H2 & H3 & H4 & _).
  unfold encoder_pts, CalculateEncoderPts, GetOutputFrameRate.
  rewrite H1, H2, H3, H4. reflexivity.
Qed.

(** The flag [tSilenceAudioFrame] after the planes of a slice were read:
    it is still set if silence is skipped and every plane is silence. *)
Lemma Run_audio_read_silence (e : CodecEngine) (m : MediaSourceMuxer) (per : Z)
    (n : nat) :
  forall (i : nat) (fifos fifos' : list (list Z)) (b b' : bool)
         (planes : list (list Z)),
  Run_audio_read e m per n i fifos b = Some (fifos', b', planes) ->
  b' = b && forallb (fun buf => mRelayingSkipAudioSilence m
                                && ContainsOnlySilence e (mAudioSilenceThreshold m) buf)
             planes
  /\ List.length planes = n.
Proof.
  induction n as [|n IH]; intros i fifos fifos' b b' planes H.
  - cbn in H. inversion H; subst. cbn. rewrite andb_true_r. split; reflexivity.
  - cbn [Run_audio_read] in H. unfold bind in H.
    destruct (nth_error fifos _) as [f|]; [|discriminate].
    unfold HM_av_fifo_generic_read in H.
    destruct (Run_audio_read e m per n (S i) _ _) as [[[fs s] ps]|] eqn:Hrec;
      [|discriminate].
    inversion H; subst; clear H.
    apply IH in Hrec. destruct Hrec as [Hs Hl].
    cbn [forallb List.length]. split; [|congruence].
    rewrite Hs.
    destruct (mRelayingSkipAudioSilence m),
             (ContainsOnlySilence e (mAudioSilenceThreshold m)
                (firstn (Z.to_nat per) f)), b; reflexivity.
Qed.

Lemma forallb_and_const (A : Type) (c : bool) (p : A -> bool) (l : list A) :
  l <> [] -> forallb (fun x => c && p x) l = c && forallb p l.
Proof.
  induction l as [|x l IH]; intros Hne; [contradiction|].
  cbn [forallb]. destruct l as [|y l].
  - cbn. destruct c, (p x); reflexivity.
  - rewrite IH by discriminate. destruct c, (p x); reflexivity.
Qed.

(** One slice: it is either encoded, with one encode call and the frame
    counter advanced, or skipped, with the skip counter advanced and
    nothing handed to the encoder. *)
Lemma Run_audio_slice_spec (m m' : MediaSourceMuxer)
    (tOut tOut' : Z) (tEvents : list Event) (sl : AudioSlice) :
  Run_audio_slice env m tOut = Some (m', tOut', tEvents, sl) ->
  audio_config m' = audio_config m
  /\ (if slice_encoded sl
      then mFrameNumber m' = int (mFrameNumber m + 1)
           /\ mRelayingSkipAudioSilenceSkippedChunks m'
              = mRelayingSkipAudioSilenceSkippedChunks m
           /\ encode_calls tEvents = 1
      else mFrameNumber m' = mFrameNumber m
           /\ mRelayingSkipAudioSilenceSkippedChunks m'
              = int64_t (mRelayingSkipAudioSilenceSkippedChunks m + 1)
           /\ tEvents = [])
  /\ (0 < mOutputAudioChannels m ->
      slice_encoded sl
      = negb (mRelayingSkipAudioSilence m
              && slice_is_silence (engine env) (mAudioSilenceThreshold m) sl)).
Proof.
  intros H. unfold Run_audio_slice, bind in H.
  destruct (Run_audio_read _ _ _ _ _ _ _) as [[[fifos sil] planes]|] eqn:Hread;
    [|discriminate].
  apply Run_audio_read_silence in Hread. destruct Hread as [Hsil Hlen].
  cbn [andb] in Hsil.
  assert (Hclass : 0 < mOutputAudioChannels m ->
                   sil = mRelayingSkipAudioSilence m
                         && forallb (ContainsOnlySilence (engine env)
                                       (mAudioSilenceThreshold m)) planes).
  { intros Hch. rewrite Hsil. apply forallb_and_const.
    intros ->. cbn in Hlen.
    assert (0 < Z.to_nat (mOutputAudioChannels m))%nat by lia. lia. }
  destruct sil; cbn [negb] in H.
  - inversion H; subst; clear H. cbn [slice_encoded].
    split; [reflexivity|]. split; [repeat split|].
    intros Hch. unfold slice_is_silence. cbn [slice_planes].
    rewrite <- (Hclass Hch). reflexivity.
  - destruct (encoder_pts _ _) as [p|]; [|discriminate].
    destruct (cdiv _ _) as [o|]; [|discriminate].
    inversion H; subst; clear H. cbn [slice_encoded].
    split; [reflexivity|]. split; [repeat split|].
    intros Hch. unfold slice_is_silence. cbn [slice_planes].
    rewrite <- (Hclass Hch). reflexivity.
Qed.

Lemma encode_calls_app (a b : list Event) :
  encode_calls (a ++ b) = encode_calls a + encode_calls b.
Proof.
  induction a as [|x a IH]; [reflexivity|].
  cbn [app encode_calls]. destruct x; lia.
Qed.

Lemma slices_cons (s : AudioSlice) (l : list AudioSlice) :
  encoded_slices (s :: l) = (if slice_encoded s then 1 else 0) + encoded_slices l
  /\ skipped_slices (s :: l)
     = (if slice_encoded s then 0 else 1) + skipped_slices l.
Proof.
  unfold encoded_slices, skipped_slices. cbn [filter].
  destruct (slice_encoded s); cbn [negb List.length]; lia.
Qed.

(** The drain loop: the counters move by the number of slices encoded
    and skipped, every encode call belongs to an encoded slice, and a
    slice is skipped exactly when silence is skipped and the slice is
    silence. *)
Lemma Run_audio_drain_spec (fuel : nat) :
  forall (m m' : MediaSourceMuxer) (tOut tOut' : Z) (tEvents : list Event)
         (slices : list AudioSlice),
  Run_audio_drain fuel env m tOut = Some (m', tOut', tEvents, slices) ->
  0 <= mFrameNumber m -> mFrameNumber m + Z.of_nat fuel <= INT_MAX ->
  0 <= mRelayingSkipAudioSilenceSkippedChunks m ->
  mRelayingSkipAudioSilenceSkippedChunks m + Z.of_nat fuel <= INT64_MAX ->
  audio_config m' = audio_config m
  /\ mFrameNumber m' = mFrameNumber m + encoded_slices slices
  /\ mRelayingSkipAudioSilenceSkippedChunks m'
     = mRelayingSkipAudioSilenceSkippedChunks m + skipped_slices slices
  /\ encode_calls tEvents = encoded_slices slices
  /\ (0 < mOutputAudioChannels m ->
      Forall (fun s =>
                slice_encoded s
                = negb (mRelayingSkipAudioSilence m
                        && slice_is_silence (engine env)
                             (mAudioSilenceThreshold m) s)) slices).
Proof.
  induction fuel as [|fuel IH]; intros m m' tOut tOut' tEvents slices H Hf0 Hf1 Hs0 Hs1.
  - cbn [Run_audio_drain] in H. unfold bind in H.
    destruct (Run_audio_available m) as [[|]|]; try discriminate.
    inversion H; subst; clear H.
    repeat split; try (unfold encoded_slices, skipped_slices; cbn; lia).
    intros _. constructor.
  - cbn [Run_audio_drain] in H. unfold bind in H.
    destruct (Run_audio_available m) as [[|]|]; try discriminate.
    + destruct (Run_audio_slice env m tOut) as [[[[m1 o1] ev1] sl]|] eqn:Hslice;
        [|discriminate].
      destruct (Run_audio_drain fuel env m1 o1) as [[[[m2 o2] ev2] sls]|] eqn:Hrec;
        [|discriminate].
      inversion H; subst; clear H.
      apply Run_audio_slice_spec in Hslice.
      destruct Hslice as (Hcfg & Hcount & Hclass).
      pose proof (audio_config_fields _ _ Hcfg)
        as (_ & _ & _ & _ & Hch & _ & _ & Hskip & Hthr).
      assert (Hstep :
        0 <= mFrameNumber m1 /\ mFrameNumber m1 + Z.of_nat fuel <= INT_MAX
        /\ 0 <= mRelayingSkipAudioSilenceSkippedChunks m1
        /\ mRelayingSkipAudioSilenceSkippedChunks m1 + Z.of_nat fuel <= INT64_MAX
        /\ mFrameNumber m1
           = mFrameNumber m + (if slice_encoded sl then 1 else 0)
        /\ mRelayingSkipAudioSilenceSkippedChunks m1
           = mRelayingSkipAudioSilenceSkippedChunks m
             + (if slice_encoded sl then 0 else 1)
        /\ encode_calls ev1 = (if slice_encoded sl then 1 else 0)).
      { destruct (slice_encoded sl); destruct Hcount as (Hc1 & Hc2 & Hc3).
        - rewrite int_small in Hc1 by (int_range; lia).
          rewrite Hc1, Hc2, Hc3. lia.
        - rewrite int64_small in Hc2 by (int_range; lia).
          rewrite Hc1, Hc2, Hc3. cbn [encode_calls]. lia. }
      destruct Hstep as (G1 & G2 & G3 & G4 & G5 & G6 & G7).
      specialize (IH m1 m' o1 tOut' ev2 sls Hrec G1 G2 G3 G4).
      destruct IH as (I1 & I2 & I3 & I4 & I5).
      destruct (slices_cons sl sls) as [E1 E2].
      split; [congruence|].
      split; [rewrite I2, G5, E1; lia|].
      split; [rewrite I3, G6, E2; lia|].
      split; [rewrite encode_calls_app, G7, I4, E1; lia|].
      intros Hpos. constructor.
      * apply Hclass. exact Hpos.
      * rewrite Hch, Hskip, Hthr in I5. apply I5. exact Hpos.
    + inversion H; subst; clear H.
      repeat split; try (unfold encoded_slices, skipped_slices; cbn; lia).
      intros _. constructor.
Qed.
Lemma nth_set_nth_same (A : Type) (i : nat) (x d : A) (l : list A) :
  (i < List.length l)%nat -> nth i (set_nth i x l) d = x.
Proof.
  revert i. induction l as [|y l IH]; intros i H; [cbn in H; lia|].
  destruct i as [|i]; [reflexivity|]. cbn. apply IH. cbn in H. lia.
Qed.

Lemma nth_set_nth_other (A : Type) (i j : nat) (x d : A) (l : list A) :
  j <> i -> nth j (set_nth i x l) d = nth j l d.
Proof.
  revert i j. induction l as [|y l IH]; intros i j H.
  - destruct i; reflexivity.
  - destruct i as [|i], j as [|j]; try reflexivity; try contradiction.
    cbn. apply IH. congruence.
Qed.

Lemma nth_error_nth_length (A : Type) (i : nat) (x d : A) (l : list A) :
  nth_error l i = Some x -> nth i l d = x /\ (i < List.length l)%nat.
Proof.
  intros H. split; [apply nth_error_nth; exact H|].
  apply nth_error_Some. congruence.
Qed.

Lemma firstn_add_skipn (A : Type) (a b : nat) (l : list A) :
  firstn (a + b) l = firstn a l ++ firstn b (skipn a l).
Proof.
  revert l. induction a as [|a IH]; intros l; [reflexivity|].
  destruct l as [|x l]; cbn.
  - destruct b; reflexivity.
  - rewrite IH. reflexivity.
Qed.

Lemma skipn_add (A : Type) (a b : nat) (l : list A) :
  skipn (a + b) l = skipn b (skipn a l).
Proof.
  revert l. induction a as [|a IH]; intros l; [reflexivity|].
  destruct l as [|x l]; cbn.
  - destruct b; reflexivity.
  - apply IH.
Qed.


Lemma set_nth_length (A : Type) (i : nat) (x : A) (l : list A) :
  List.length (set_nth i x l) = List.length l.
Proof.
  revert i. induction l as [|y l IH]; intros [|i]; cbn; try reflexivity.
  rewrite IH. reflexivity.
Qed.

Lemma fifo0_size_set_nth (i : nat) (f x : list Z) (fifos : list (list Z)) :
  nth_error fifos i = Some f ->
  fifo0_size (set_nth i x fifos)
  = match i with O => List.length x | S _ => fifo0_size fifos end.
Proof.
  destruct fifos as [|y r]; destruct i; cbn; intros H; try discriminate;
    reflexivity.
Qed.

(** Reading the planes of a slice keeps the FIFOs in place and takes
    bytes out of FIFO 0. *)
Lemma Run_audio_read_measure (e : CodecEngine) (m : MediaSourceMuxer) (per : Z)
    (n : nat) :
  forall (i : nat) (fifos fifos' : list (list Z)) (b b' : bool)
         (planes : list (list Z)),
  Run_audio_read e m per n i fifos b = Some (fifos', b', planes) ->
  List.length fifos' = List.length fifos
  /\ (fifo0_size fifos' <= fifo0_size fifos)%nat
  /\ (i = O -> (0 < n)%nat -> 0 < per -> (0 < fifo0_size fifos)%nat ->
      (fifo0_size fifos' < fifo0_size fifos)%nat).
Proof.
  induction n as [|n IH]; intros i fifos fifos' b b' planes H.
  - cbn in H. inversion H; subst. repeat split; try lia.
  - cbn [Run_audio_read] in H. unfold bind in H.
    destruct (nth_error fifos _) as [f|] eqn:Hnth; [|discriminate].
    unfold HM_av_fifo_generic_read in H.
    destruct (Run_audio_read e m per n (S i) _ _) as [[[fs s] ps]|] eqn:Hrec;
      [|discriminate].
    inversion H; subst; clear H.
    apply IH in Hrec. destruct Hrec as (Hlen & Hle & _).
    rewrite set_nth_length in Hlen.
    rewrite (fifo0_size_set_nth _ f _ _ Hnth) in Hle.
    pose proof (length_skipn (Z.to_nat per) f) as Hskip.
    split; [exact Hlen|].
    assert (Hf0 : (if av_sample_fmt_is_planar (mOutputAudioFormat m) then i else O)
                  = O -> fifo0_size fifos = List.length f).
    { intros E. rewrite E in Hnth. unfold fifo0_size.
      destruct fifos as [|y r]; cbn in *; [discriminate|]. congruence. }
    split.
    + destruct (if av_sample_fmt_is_planar (mOutputAudioFormat m) then i else O)
        eqn:Hidx.
      * rewrite (Hf0 eq_refl). lia.
      * exact Hle.
    + intros Hi _ Hper Hpos. subst i.
      assert (Hidx : (if av_sample_fmt_is_planar (mOutputAudioFormat m)
                      then O else O) = O)
        by (destruct (av_sample_fmt_is_planar _); reflexivity).
      rewrite Hidx in *. rewrite (Hf0 eq_refl) in *.
      assert (0 < Z.to_nat per)%nat by lia. lia.
Qed.

Lemma Run_audio_read_total (e : CodecEngine) (m : MediaSourceMuxer) (per : Z)
    (n : nat) :
  forall (i : nat) (fifos : list (list Z)) (b : bool),
  (i + n <= List.length fifos)%nat -> (0 < List.length fifos)%nat ->
  exists r, Run_audio_read e m per n i fifos b = Some r.
Proof.
  induction n as [|n IH]; intros i fifos b Hlen Hpos.
  - eexists. reflexivity.
  - cbn [Run_audio_read]. unfold bind.
    destruct (nth_error fifos _) as [f|] eqn:Hnth.
    + unfold HM_av_fifo_generic_read.
      edestruct (IH (S i)) as [[[fs s] ps] Hrec];
        [| |rewrite Hrec; eexists; reflexivity];
        rewrite set_nth_length; lia.
    + apply nth_error_None in Hnth.
      destruct (av_sample_fmt_is_planar (mOutputAudioFormat m)); lia.
Qed.

Lemma audio_ready_config (m m' : MediaSourceMuxer) :
  audio_config m' = audio_config m ->
  List.length (mResampleFifo m') = List.length (mResampleFifo m) ->
  audio_ready m -> audio_ready m'.
Proof.
  intros Hcfg Hlen (R1 & R2 & R3 & R4 & R5 & R6).
  pose proof (audio_config_fields _ _ Hcfg)
    as (_ & _ & _ & Hfs & Hch & Hfmt & Hrate & _ & _).
  unfold audio_ready. rewrite Hfs, Hch, Hfmt, Hrate, Hlen.
  repeat split; try assumption.
  intros n. rewrite (encoder_pts_config _ _ n Hcfg). apply R6.
Qed.

(** A slice can be taken whenever the loop is ready, and taking it
    shortens FIFO 0. *)
Lemma Run_audio_slice_total (m : MediaSourceMuxer) (tOut : Z) :
  audio_ready m -> (0 < fifo0_size (mResampleFifo m))%nat ->
  exists m' tOut' tEvents sl,
    Run_audio_slice env m tOut = Some (m', tOut', tEvents, sl)
    /\ audio_ready m'
    /\ (fifo0_size (mResampleFifo m') < fifo0_size (mResampleFifo m))%nat.
Proof.
  intros Hready Hpos.
  pose proof Hready as (R1 & R2 & R3 & R4 & R5 & R6).
  destruct (Run_audio_read_total (engine env) m
              (int (frame_size m * av_get_bytes_per_sample (mOutputAudioFormat m)))
              (Z.to_nat (mOutputAudioChannels m)) O (mResampleFifo m) true)
    as [[[fifos sil] planes] Hread]; [lia|lia|].
  pose proof (Run_audio_read_measure _ _ _ _ _ _ _ _ _ _ Hread)
    as (Hlen & _ & Hlt).
  specialize (Hlt eq_refl ltac:(lia) R1 Hpos).
  assert (Hsome : exists r, Run_audio_slice env m tOut = Some r).
  { unfold Run_audio_slice, bind. rewrite Hread.
    destruct sil; cbn [negb].
    - eexists. reflexivity.
    - destruct (encoder_pts (set_mResampleFifo fifos m)
                  (mFrameNumber (set_mResampleFifo fifos m))) as [p|] eqn:Hp.
      + unfold cdiv, GetOutputSampleRate.
        change (mOutputAudioSampleRate (set_mResampleFifo fifos m))
          with (mOutputAudioSampleRate m).
        destruct (Z.eqb_spec (mOutputAudioSampleRate m) 0); [contradiction|].
        eexists. reflexivity.
      + exfalso.
        rewrite (encoder_pts_config m (set_mResampleFifo fifos m) _ eq_refl) in Hp.
        exact (R6 _ Hp). }
  destruct Hsome as [[[[m' o'] ev] sl] Hslice].
  exists m', o', ev, sl. split; [exact Hslice|].
  pose proof (Run_audio_slice_spec _ _ _ _ _ _ Hslice) as (Hcfg & _ & _).
  assert (Hfifo : mResampleFifo m' = fifos).
  { unfold Run_audio_slice, bind in Hslice. rewrite Hread in Hslice.
    destruct sil; cbn [negb] in Hslice.
    - inversion Hslice; subst. reflexivity.
    - destruct (encoder_pts _ _); [|discriminate].
      destruct (cdiv _ _); [|discriminate].
      inversion Hslice; subst. reflexivity. }
  rewrite Hfifo. split; [|exact Hlt].
  apply (audio_ready_config m m' Hcfg); [|exact Hready].
  rewrite Hfifo. exact Hlen.
Qed.

Lemma Run_audio_available_defined (m : MediaSourceMuxer) :
  audio_ready m ->
  exists b, Run_audio_available m = Some b
            /\ (b = true -> (0 < fifo0_size (mResampleFifo m))%nat).
Proof.
  intros (R1 & R2 & R3 & R4 & _).
  unfold Run_audio_available, bind, fifo0_size, av_fifo_size.
  destruct (mResampleFifo m) as [|f r]; [cbn in R4; lia|].
  cbn [nth_error nth].
  eexists. split; [reflexivity|].
  destruct (av_sample_fmt_is_planar (mOutputAudioFormat m)); intros Hb;
    apply Z.leb_le in Hb; lia.
Qed.

Lemma int_bounds (z : Z) : in_int (int z).
Proof.
  unfold in_int, INT_MIN, INT_MAX, int, wrap. change (32 - 1) with 31.
  pose proof (Z.mod_pos_bound (z + 2 ^ 31) (2 ^ 32) ltac:(lia)). lia.
Qed.

(** The presentation time of an audio frame that is not MP3: the samples
    passed so far. *)
Lemma encoder_pts_audio (m : MediaSourceMuxer) (n : Z) :
  mMediaType m = MEDIA_AUDIO -> mStreamCodecId m <> AV_CODEC_ID_MP3 ->
  encoder_pts m n = Some (int (n * frame_size m)).
Proof.
  intros Ht Hc. unfold encoder_pts, CalculateEncoderPts. rewrite Ht.
  assert (Hr : rint_int64 (int (n * frame_size m)) = Some (int (n * frame_size m))).
  { unfold rint_int64. pose proof (int_bounds (n * frame_size m)) as Hb.
    int_range.
    destruct (Z.leb_spec (Z.abs (int (n * frame_size m))) (2 ^ 53));
      [reflexivity|lia]. }
  destruct (mStreamCodecId m); try contradiction; exact Hr.
Qed.

Lemma slices_all_encoded (l : list AudioSlice) :
  Forall (fun s => slice_encoded s = true) l ->
  encoded_slices l = Z.of_nat (List.length l) /\ skipped_slices l = 0.
Proof.
  induction 1 as [|s l Hs _ IH]; [split; reflexivity|].
  destruct (slices_cons s l) as [E1 E2]. rewrite E1, E2, Hs.
  cbn [List.length]. lia.
Qed.

Lemma slices_all_skipped (l : list AudioSlice) :
  Forall (fun s => slice_encoded s = false) l ->
  skipped_slices l = Z.of_nat (List.length l) /\ encoded_slices l = 0.
Proof.
  induction 1 as [|s l Hs _ IH]; [split; reflexivity|].
  destruct (slices_cons s l) as [E1 E2]. rewrite E1, E2, Hs.
  cbn [List.length]. lia.
Qed.

(** The planes one slice reads and what the reads leave in the FIFOs. *)
Lemma Run_audio_read_planes (e : CodecEngine) (m : MediaSourceMuxer) (per : Z)
    (n : nat) :
  forall (i : nat) (fifos fifos' : list (list Z)) (b b' : bool)
         (planes : list (list Z)),
  Run_audio_read e m per n i fifos b = Some (fifos', b', planes) ->
  if av_sample_fmt_is_planar (mOutputAudioFormat m)
  then planes = map (fun j => firstn (Z.to_nat per) (nth j fifos [])) (seq i n)
       /\ (forall j : nat,
             nth j fifos' []
             = if ((i <=? j) && (j <? i + n))%nat
               then skipn (Z.to_nat per) (nth j fifos [])
               else nth j fifos [])
  else planes
       = map (fun c => firstn (Z.to_nat per)
                         (skipn (c * Z.to_nat per) (nth O fifos [])))
             (seq 0 n)
       /\ (forall j : nat,
             nth j fifos' []
             = match j with
               | O => skipn (n * Z.to_nat per) (nth O fifos [])
               | S _ => nth j fifos []
               end).
Proof.
  induction n as [|n IH]; intros i fifos fifos' b b' planes H.
  - cbn in H. inversion H; subst.
    destruct (av_sample_fmt_is_planar _); (split; [reflexivity|]); intros j.
    + replace ((i <=? j) && (j <? i + 0))%nat with false; [reflexivity|].
      symmetry. apply andb_false_iff.
      destruct (Nat.leb_spec i j);
        [right; apply Nat.ltb_ge; lia | left; reflexivity].
    + destruct j; reflexivity.
  - cbn [Run_audio_read] in H. unfold bind in H.
    destruct (nth_error fifos _) as [f|] eqn:Ef; [|discriminate].
    unfold HM_av_fifo_generic_read in H.
    destruct (Run_audio_read e m per n (S i) _ _) as [[[fs s] ps]|] eqn:Hrec;
      [|discriminate].
    inversion H; subst; clear H.
    pose proof (IH _ _ _ _ _ _ Hrec) as I. clear IH Hrec.
    destruct (av_sample_fmt_is_planar (mOutputAudioFormat m)).
    + apply (nth_error_nth_length _ _ _ []) in Ef. destruct Ef as [Ef Hlen].
      destruct I as [Ip If]. split.
      * cbn [seq map]. rewrite Ef. f_equal. rewrite Ip.
        apply map_ext_in. intros j Hj. apply in_seq in Hj.
        rewrite nth_set_nth_other by lia. reflexivity.
      * intros j. rewrite If.
        destruct (Nat.eq_dec j i) as [->|Hne].
        -- rewrite nth_set_nth_same by exact Hlen.
           replace ((S i <=? i) && (i <? S i + n))%nat with false
             by (symmetry; apply andb_false_iff; left; apply Nat.leb_gt; lia).
           replace ((i <=? i) && (i <? i + S n))%nat with true
             by (symmetry; apply andb_true_iff; split;
                 [apply Nat.leb_le | apply Nat.ltb_lt]; lia).
           rewrite Ef. reflexivity.
        -- rewrite nth_set_nth_other by exact Hne.
           replace ((S i <=? j) && (j <? S i + n))%nat
             with ((i <=? j) && (j <? i + S n))%nat; [reflexivity|].
           destruct (Nat.leb_spec i j), (Nat.leb_spec (S i) j),
             (Nat.ltb_spec j (i + S n)), (Nat.ltb_spec j (S i + n));
             try reflexivity; lia.
    + apply (nth_error_nth_length _ _ _ []) in Ef. destruct Ef as [Ef Hlen].
      destruct I as [Ip If]. split.
      * cbn [seq map]. rewrite Ef. cbn [Nat.mul skipn]. f_equal.
        rewrite Ip, <- seq_shift, map_map.
        apply map_ext. intros c.
        rewrite nth_set_nth_same by exact Hlen.
        rewrite <- skipn_add. reflexivity.
      * intros j. rewrite If. destruct j as [|j].
        -- rewrite nth_set_nth_same by exact Hlen.
           rewrite <- skipn_add, Ef. reflexivity.
        -- rewrite nth_set_nth_other by discriminate. reflexivity.
Qed.

Lemma fifo_slice_next (planar : bool) (per channels : nat)
    (fifos fifos1 : list (list Z)) (k : nat) :
  (forall j : nat, nth j fifos1 [] = fifo_rest planar per channels fifos 1 j) ->
  fifo_slice planar per channels fifos1 k
  = fifo_slice planar per channels fifos (S k).
Proof.
  intros H. unfold fifo_slice. apply map_ext_in. intros i Hi.
  apply in_seq in Hi. unfold fifo_plane. rewrite !H. unfold fifo_rest.
  destruct planar.
  - destruct (Nat.ltb_spec i channels) as [_|?]; [|lia].
    rewrite <- skipn_add. f_equal. f_equal. lia.
  - rewrite <- skipn_add. f_equal. f_equal. lia.
Qed.

Lemma fifo_rest_next (planar : bool) (per channels : nat)
    (fifos fifos1 : list (list Z)) (n j : nat) :
  (forall j : nat, nth j fifos1 [] = fifo_rest planar per channels fifos 1 j) ->
  fifo_rest planar per channels fifos1 n j
  = fifo_rest planar per channels fifos (S n) j.
Proof.
  intros H. unfold fifo_rest at 1. rewrite !H. unfold fifo_rest.
  destruct planar.
  - destruct (j <? channels)%nat; [|reflexivity].
    rewrite <- skipn_add. f_equal. lia.
  - destruct j as [|j]; [|reflexivity].
    rewrite <- skipn_add. f_equal. lia.
Qed.

(** One slice of the drain loop: its planes are the first slice of the
    FIFOs, and the FIFOs are left without it. *)
Lemma Run_audio_slice_planes (m m' : MediaSourceMuxer)
    (tOut tOut' : Z) (tEvents : list Event) (sl : AudioSlice) :
  Run_audio_slice env m tOut = Some (m', tOut', tEvents, sl) ->
  let planar := av_sample_fmt_is_planar (mOutputAudioFormat m) in
  let per := Z.to_nat (tReadFifoSizePerChannel m) in
  let channels := Z.to_nat (mOutputAudioChannels m) in
  slice_planes sl = fifo_slice planar per channels (mResampleFifo m) 0
  /\ (forall j : nat,
        nth j (mResampleFifo m') []
        = fifo_rest planar per channels (mResampleFifo m) 1 j).
Proof.
  intros H. cbv zeta. unfold Run_audio_slice, bind in H.
  destruct (Run_audio_read _ _ _ _ _ _ _) as [[[fifos sil] planes]|] eqn:Hread;
    [|discriminate].
  assert (Hsl : slice_planes sl = planes /\ mResampleFifo m' = fifos).
  { destruct sil; cbn [negb] in H.
    - inversion H; subst; clear H. split; reflexivity.
    - destruct (encoder_pts _ _) as [p|]; [|discriminate].
      destruct (cdiv _ _) as [o|]; [|discriminate].
      inversion H; subst; clear H. split; reflexivity. }
  destruct Hsl as [-> ->]. clear H.
  pose proof (Run_audio_read_planes _ _ _ _ _ _ _ _ _ _ Hread) as P.
  unfold fifo_slice, fifo_plane, fifo_rest, tReadFifoSizePerChannel.
  destruct (av_sample_fmt_is_planar (mOutputAudioFormat m));
    destruct P as [Pp Pf]; split.
  - rewrite Pp. apply map_ext. intros j. reflexivity.
  - intros j. rewrite Pf. cbn [Nat.leb andb Nat.add].
    rewrite Nat.mul_1_l. reflexivity.
  - rewrite Pp. apply map_ext. intros c. reflexivity.
  - intros j. rewrite Pf. destruct j; [|reflexivity].
    rewrite Nat.mul_1_l. reflexivity.
Qed.

Lemma slice_size_nat (m : MediaSourceMuxer) :
  audio_ready m ->
  tReadFifoSizePerChannel m * mOutputAudioChannels m <= INT_MAX ->
  0 < slice_size m
  /\ slice_size m
     = Z.of_nat (if av_sample_fmt_is_planar (mOutputAudioFormat m)
                 then 1 * Z.to_nat (tReadFifoSizePerChannel m)
                 else 1 * Z.to_nat (mOutputAudioChannels m)
                      * Z.to_nat (tReadFifoSizePerChannel m)).
Proof.
  intros (R1 & R2 & R3 & _) Hwhole.
  fold (tReadFifoSizePerChannel m) in R1, R3.
  unfold slice_size.
  destruct (av_sample_fmt_is_planar (mOutputAudioFormat m)).
  - split; [exact R1|]. lia.
  - rewrite int_small in * by (int_range; nia). split; [exact R3|]. nia.
Qed.

Lemma fifo_rest_0 (planar : bool) (per channels : nat)
    (fifos : list (list Z)) (j : nat) :
  fifo_rest planar per channels fifos 0 j = nth j fifos [].
Proof.
  unfold fifo_rest.
  destruct planar; [destruct (j <? channels)%nat | destruct j]; reflexivity.
Qed.

(** The condition of the drain loop compares the size of a slice with
    the bytes in FIFO 0. *)
Lemma Run_audio_available_slice (m : MediaSourceMuxer) (b : bool) :
  Run_audio_available m = Some b ->
  b = (slice_size m <=? Z.of_nat (fifo0_size (mResampleFifo m))).
Proof.
  unfold Run_audio_available, bind, fifo0_size, av_fifo_size, slice_size,
    tReadFifoSizePerChannel.
  destruct (mResampleFifo m) as [|f r]; cbn [nth_error nth]; [discriminate|].
  intros H. inversion H.
  destruct (av_sample_fmt_is_planar (mOutputAudioFormat m)); reflexivity.
Qed.

(** One pass of the drain loop leaves the loop ready, with the same
    sizes and with FIFO 0 shorter by one slice. *)
Lemma Run_audio_slice_step (m m1 : MediaSourceMuxer) (tOut o1 : Z)
    (ev1 : list Event) (sl : AudioSlice) :
  Run_audio_slice env m tOut = Some (m1, o1, ev1, sl) ->
  audio_ready m ->
  tReadFifoSizePerChannel m * mOutputAudioChannels m <= INT_MAX ->
  Run_audio_available m = Some true ->
  audio_ready m1
  /\ tReadFifoSizePerChannel m1 = tReadFifoSizePerChannel m
  /\ mOutputAudioChannels m1 = mOutputAudioChannels m
  /\ mOutputAudioFormat m1 = mOutputAudioFormat m
  /\ slice_size m1 = slice_size m
  /\ Z.of_nat (fifo0_size (mResampleFifo m1))
     = Z.of_nat (fifo0_size (mResampleFifo m)) - slice_size m.
Proof.
  intros Hslice Hready Hwhole Ea.
  destruct (slice_size_nat m Hready Hwhole) as [Hpos Hnat].
  pose proof (Run_audio_available_slice m _ Ea) as Hav.
  symmetry in Hav. apply Z.leb_le in Hav.
  destruct (Run_audio_slice_total m tOut Hready ltac:(lia))
    as (m1' & o1' & ev1' & sl' & Hslice' & Hready1 & _).
  rewrite Hslice in Hslice'. inversion Hslice'; subst m1' o1' ev1' sl'.
  clear Hslice'.
  destruct (Run_audio_slice_spec _ _ _ _ _ _ Hslice) as (Hcfg & _).
  pose proof (audio_config_fields _ _ Hcfg)
    as (_ & _ & _ & Hfs & Hch & Hfmt & _).
  assert (Hper : tReadFifoSizePerChannel m1 = tReadFifoSizePerChannel m)
    by (unfold tReadFifoSizePerChannel; rewrite Hfs, Hfmt; reflexivity).
  split; [exact Hready1|]. split; [exact Hper|]. split; [exact Hch|].
  split; [exact Hfmt|].
  split; [unfold slice_size; rewrite Hper, Hch, Hfmt; reflexivity|].
  destruct (Run_audio_slice_planes _ _ _ _ _ _ Hslice) as [_ S2].
  unfold fifo0_size. rewrite (S2 O). unfold fifo_rest.
  destruct Hready as (_ & R2 & _).
  rewrite Hnat.
  destruct (av_sample_fmt_is_planar (mOutputAudioFormat m)).
  - destruct (Nat.ltb_spec 0 (Z.to_nat (mOutputAudioChannels m)))
      as [_|?]; [|lia].
    rewrite length_skipn. unfold fifo0_size in Hav. lia.
  - rewrite length_skipn. unfold fifo0_size in Hav. lia.
Qed.

(** The drain loop: the slices it takes are the slices the FIFOs hold,
    in order; it takes as many as FIFO 0 holds in full and leaves what
    is behind them. *)
Lemma Run_audio_drain_slices (fuel : nat) :
  forall (m m' : MediaSourceMuxer) (tOut tOut' : Z) (tEvents : list Event)
         (slices : list AudioSlice),
  Run_audio_drain fuel env m tOut = Some (m', tOut', tEvents, slices) ->
  audio_ready m ->
  tReadFifoSizePerChannel m * mOutputAudioChannels m <= INT_MAX ->
  let planar := av_sample_fmt_is_planar (mOutputAudioFormat m) in
  let per := Z.to_nat (tReadFifoSizePerChannel m) in
  let channels := Z.to_nat (mOutputAudioChannels m) in
  let n := List.length slices in
  map slice_planes slices
  = map (fifo_slice planar per channels (mResampleFifo m)) (seq 0 n)
  /\ (forall j : nat,
        nth j (mResampleFifo m') []
        = fifo_rest planar per channels (mResampleFifo m) n j)
  /\ Z.of_nat n * slice_size m <= Z.of_nat (fifo0_size (mResampleFifo m))
     < (Z.of_nat n + 1) * slice_size m.
Proof.
  induction fuel as [|fuel IH];
    intros m m' tOut tOut' tEvents slices H Hready Hwhole; cbv zeta.
  - cbn [Run_audio_drain] in H. unfold bind in H.
    destruct (Run_audio_available m) as [[|]|] eqn:Ea; try discriminate.
    inversion H; subst; clear H. cbn [List.length map seq].
    split; [reflexivity|]. split; [intros j; symmetry; apply fifo_rest_0|].
    apply Run_audio_available_slice in Ea. symmetry in Ea.
    apply Z.leb_gt in Ea. lia.
  - cbn [Run_audio_drain] in H. unfold bind in H.
    destruct (Run_audio_available m) as [[|]|] eqn:Ea; try discriminate.
    + destruct (Run_audio_slice env m tOut) as [[[[m1 o1] ev1] sl]|] eqn:Hslice;
        [|discriminate].
      destruct (Run_audio_drain fuel env m1 o1) as [[[[m2 o2] ev2] sls]|] eqn:Hrec;
        [|discriminate].
      inversion H; subst; clear H.
      destruct (Run_audio_slice_step _ _ _ _ _ _ Hslice Hready Hwhole Ea)
        as (Hready1 & Hper & Hch & Hfmt & Hsz & Hlen).
      assert (Hwhole1 : tReadFifoSizePerChannel m1 * mOutputAudioChannels m1
                        <= INT_MAX) by (rewrite Hper, Hch; exact Hwhole).
      destruct (IH _ _ _ _ _ _ Hrec Hready1 Hwhole1) as (I1 & I2 & I3).
      rewrite Hper, Hch, Hfmt in I1, I2. rewrite Hsz in I3.
      destruct (Run_audio_slice_planes _ _ _ _ _ _ Hslice) as [S1 S2].
      cbn [List.length map seq]. split; [|split].
      * rewrite S1. f_equal. rewrite I1, <- seq_shift, map_map.
        apply map_ext. intros k. apply fifo_slice_next. exact S2.
      * intros j. rewrite I2. apply fifo_rest_next. exact S2.
      * lia.
    + inversion H; subst; clear H. cbn [List.length map seq].
      split; [reflexivity|]. split; [intros j; symmetry; apply fifo_rest_0|].
      apply Run_audio_available_slice in Ea. symmetry in Ea.
      apply Z.leb_gt in Ea. lia.
Qed.

(** The drain loop comes to its end after as many passes as FIFO 0
    holds slices. *)
Lemma Run_audio_drain_ends (fuel : nat) :
  forall (m : MediaSourceMuxer) (tOut : Z),
  audio_ready m ->
  tReadFifoSizePerChannel m * mOutputAudioChannels m <= INT_MAX ->
  (available_slices m <= fuel)%nat ->
  exists r, Run_audio_drain fuel env m tOut = Some r.
Proof.
  induction fuel as [|fuel IH]; intros m tOut Hready Hwhole Hfuel;
    destruct (Run_audio_available_defined m Hready) as (b & Hb & _);
    pose proof (Run_audio_available_slice m b Hb) as Hav;
    destruct (slice_size_nat m Hready Hwhole) as [Hpos _];
    cbn [Run_audio_drain]; unfold bind; rewrite Hb; destruct b;
    try (eexists; reflexivity);
    symmetry in Hav; apply Z.leb_le in Hav;
    assert (Hone : 0 < Z.of_nat (fifo0_size (mResampleFifo m)) / slice_size m)
      by (apply Z.div_str_pos; lia);
    unfold available_slices in Hfuel.
  - lia.
  - destruct (Run_audio_slice_total m tOut Hready ltac:(lia))
      as (m1 & o1 & ev1 & sl & Hslice & _).
    rewrite Hslice.
    destruct (Run_audio_slice_step _ _ _ _ _ _ Hslice Hready Hwhole Hb)
      as (Hready1 & Hper & Hch & Hfmt & Hsz & Hlen).
    assert (Hwhole1 : tReadFifoSizePerChannel m1 * mOutputAudioChannels m1
                      <= INT_MAX) by (rewrite Hper, Hch; exact Hwhole).
    assert (Hfuel1 : (available_slices m1 <= fuel)%nat).
    { unfold available_slices. rewrite Hsz, Hlen.
      replace (Z.of_nat (fifo0_size (mResampleFifo m)) - slice_size m)
        with (Z.of_nat (fifo0_size (mResampleFifo m)) + (-1) * slice_size m)
        by lia.
      rewrite Z.div_add by lia. lia. }
    destruct (IH m1 o1 Hready1 Hwhole1 Hfuel1) as [[[[m2 o2] ev2] sls] Hrec].
    rewrite Hrec. eexists. reflexivity.
Qed.

(** More passes allowed change nothing. *)
Lemma Run_audio_drain_fuel (fuel : nat) :
  forall (m : MediaSourceMuxer) (tOut : Z)
         (r : MediaSourceMuxer * Z * list Event * list AudioSlice) (k : nat),
  Run_audio_drain fuel env m tOut = Some r ->
  Run_audio_drain (fuel + k) env m tOut = Some r.
Proof.
  induction fuel as [|fuel IH]; intros m tOut r k H.
  - cbn [Run_audio_drain] in H. unfold bind in H.
    destruct (Run_audio_available m) as [[|]|] eqn:Ea; try discriminate.
    destruct k; cbn [Nat.add Run_audio_drain]; unfold bind; rewrite Ea;
      exact H.
  - cbn [Nat.add Run_audio_drain] in *. unfold bind in *.
    destruct (Run_audio_available m) as [[|]|]; try discriminate;
      [|exact H].
    destruct (Run_audio_slice env m tOut) as [[[[m1 o1] ev1] sl]|];
      [|discriminate].
    destruct (Run_audio_drain fuel env m1 o1) as [r1|] eqn:Hrec;
      [|discriminate].
    rewrite (IH _ _ _ k Hrec). exact H.
Qed.

Lemma classified_slices (f : list (list Z) -> bool) (slices : list AudioSlice) :
  Forall (fun s => slice_encoded s = f (slice_planes s)) slices ->
  map slice_encoded slices = map f (map slice_planes slices).
Proof.
  induction 1 as [|s l Hs _ IH]; [reflexivity|].
  cbn [map]. rewrite Hs, IH. reflexivity.
Qed.

(** C9: the drain loop comes to its end, after as many passes as
    resample FIFO 0 holds slices in full, and takes every such slice and
    no other: the planes of the slices taken are the slices of the FIFOs
    in their order, as many as the bytes of FIFO 0 divided by the size
    of a slice, and the FIFOs are left with what is behind them.  With
    silence suppression on, a
    slice all of whose planes are classified as silence is skipped: the
    skip counter advances by one per skipped slice (by N when the FIFOs
    hold N slices, all of silence), no encode call is made for it and
    the frame counter stays; a slice with a plane that is not silence is
    encoded and leaves the skip counter alone.  With silence suppression
    off every slice is encoded. *)
Theorem silence_suppression (m : MediaSourceMuxer) (tOut : Z)
    (Hready : audio_ready m)
    (Hwhole : tReadFifoSizePerChannel m * mOutputAudioChannels m <= INT_MAX)
    (Hf0 : 0 <= mFrameNumber m)
    (Hf1 : mFrameNumber m + Z.of_nat (available_slices m) <= INT_MAX)
    (Hs0 : 0 <= mRelayingSkipAudioSilenceSkippedChunks m)
    (Hs1 : mRelayingSkipAudioSilenceSkippedChunks m
           + Z.of_nat (available_slices m) <= INT64_MAX) :
  exists (m' : MediaSourceMuxer) (tOut' : Z) (tEvents : list Event)
         (slices : list AudioSlice),
    (forall fuel : nat,
       (available_slices m <= fuel)%nat ->
       Run_audio_drain fuel env m tOut = Some (m', tOut', tEvents, slices))
    /\ map slice_planes slices = fifo_slices m
    /\ List.length slices = available_slices m
    /\ (forall j : nat, nth j (mResampleFifo m') [] = fifo_left m j)
    /\ Forall (fun s =>
                 slice_encoded s
                 = negb (mRelayingSkipAudioSilence m
                         && slice_is_silence (engine env)
                              (mAudioSilenceThreshold m) s)) slices
    /\ map slice_encoded slices
       = map (fun planes =>
                negb (mRelayingSkipAudioSilence m
                      && forallb (ContainsOnlySilence (engine env)
                                    (mAudioSilenceThreshold m)) planes))
             (fifo_slices m)
    /\ mRelayingSkipAudioSilenceSkippedChunks m'
       = mRelayingSkipAudioSilenceSkippedChunks m + skipped_slices slices
    /\ mFrameNumber m' = mFrameNumber m + encoded_slices slices
    /\ encode_calls tEvents = encoded_slices slices
    /\ (mRelayingSkipAudioSilence m = false ->
        encoded_slices slices = Z.of_nat (available_slices m)
        /\ skipped_slices slices = 0)
    /\ (mRelayingSkipAudioSilence m = true ->
        Forall (fun planes =>
                  forallb (ContainsOnlySilence (engine env)
                             (mAudioSilenceThreshold m)) planes = true)
               (fifo_slices m) ->
        mRelayingSkipAudioSilenceSkippedChunks m'
        = mRelayingSkipAudioSilenceSkippedChunks m
          + Z.of_nat (available_slices m)
        /\ mFrameNumber m' = mFrameNumber m
        /\ encode_calls tEvents = 0).
Proof.
  destruct (Run_audio_drain_ends (available_slices m) m tOut Hready Hwhole
              (le_n _)) as [[[[m' o'] ev] slices] Hrun].
  exists m', o', ev, slices. split.
  { intros fuel Hfuel.
    replace fuel with (available_slices m + (fuel - available_slices m))%nat
      by lia.
    apply Run_audio_drain_fuel. exact Hrun. }
  pose proof (Run_audio_drain_spec _ _ _ _ _ _ _ Hrun Hf0 Hf1 Hs0 Hs1)
    as (_ & Hframe & Hskip & Hcalls & Hclass).
  pose proof (Run_audio_drain_slices _ _ _ _ _ _ _ Hrun Hready Hwhole)
    as (Hplanes & Hleft & Hcount).
  cbv zeta in Hplanes, Hleft, Hcount.
  destruct (slice_size_nat m Hready Hwhole) as [Hpos _].
  assert (Hn : List.length slices = available_slices m).
  { unfold available_slices.
    rewrite <- (Z.div_unique_pos (Z.of_nat (fifo0_size (mResampleFifo m)))
                  (slice_size m) (Z.of_nat (List.length slices))
                  (Z.of_nat (fifo0_size (mResampleFifo m))
                   - Z.of_nat (List.length slices) * slice_size m));
      [symmetry; apply Nat2Z.id | lia | lia]. }
  assert (Hfifo : map slice_planes slices = fifo_slices m)
    by (unfold fifo_slices; rewrite <- Hn; exact Hplanes).
  destruct Hready as (_ & Hch & _).
  specialize (Hclass Hch).
  split; [exact Hfifo|]. split; [exact Hn|].
  split; [intros j; unfold fifo_left; rewrite <- Hn; apply Hleft|].
  split; [exact Hclass|].
  split; [rewrite <- Hfifo; apply classified_slices; exact Hclass|].
  split; [exact Hskip|]. split; [exact Hframe|].
  split; [exact Hcalls|]. split.
  - intros Hoff. rewrite <- Hn. apply slices_all_encoded.
    eapply Forall_impl; [|exact Hclass].
    intros s Hs. cbv beta in Hs. rewrite Hoff in Hs. exact Hs.
  - intros Hon Hsilent.
    assert (Hall : Forall (fun s => slice_encoded s = false) slices).
    { rewrite <- Hfifo in Hsilent. rewrite Forall_map in Hsilent.
      rewrite Forall_forall in *. intros s Hin.
      rewrite (Hclass s Hin), Hon. unfold slice_is_silence.
      rewrite (Hsilent s Hin). reflexivity. }
    destruct (slices_all_skipped slices Hall) as [E1 E2].
    rewrite Hskip, Hframe, Hcalls, E1, E2, <- Hn. lia.
Qed.

End SilenceSuppression.

Lemma silence_suppression_witness :
  exists (m' : MediaSourceMuxer) (slices : list AudioSlice),
    option_map (fun r => (fst (fst (fst r)), snd r))
      (Run_audio_drain (fifo0_size (mResampleFifo example_audio_muxer))
         example_env example_audio_muxer 0)
    = Some (m', slices)
    /\ map slice_planes slices
       = [[repeat 0 64]; [repeat 200 64]; [repeat 1 64]]
    /\ (forall j : nat, nth j (mResampleFifo m') [] = [])
    /\ map slice_encoded slices = [false; true; false]
    /\ mRelayingSkipAudioSilenceSkippedChunks m'
       = mRelayingSkipAudioSilenceSkippedChunks example_audio_muxer
         + skipped_slices slices.
Proof.
  assert (Hready : audio_ready example_audio_muxer).
  { unfold audio_ready. cbv zeta.
    split; [vm_compute; reflexivity|].
    split; [vm_compute; reflexivity|].
    split; [vm_compute; reflexivity|].
    split; [vm_compute; apply le_n|].
    split; [vm_compute; discriminate|].
    intros n. rewrite encoder_pts_audio.
    - discriminate.
    - reflexivity.
    - vm_compute. discriminate. }
  destruct (silence_suppression example_env example_audio_muxer 0 Hready
              ltac:(vm_compute; discriminate)
              ltac:(vm_compute; discriminate) ltac:(vm_compute; discriminate)
              ltac:(vm_compute; discriminate) ltac:(vm_compute; discriminate))
    as (m' & o' & ev & slices & Hrun & Hplanes & _ & Hleft & _ & Henc & Hskip & _).
  exists m', slices.
  rewrite (Hrun (fifo0_size (mResampleFifo example_audio_muxer))
             ltac:(vm_compute; repeat constructor)).
  split; [reflexivity|].
  split; [rewrite Hplanes; vm_compute; reflexivity|].
  split; [intros j; rewrite Hleft; destruct j as [|[|j]]; vm_compute; reflexivity|].
  split; [rewrite Henc; vm_compute; reflexivity | exact Hskip].
Defined.

(** The FIFO of the example holds a slice of silence, a slice of sound
    and a slice of silence: two slices are skipped, one is encoded. *)
Example drain_skips_two_of_three :
  option_map (fun r => (mRelayingSkipAudioSilenceSkippedChunks (fst (fst (fst r))),
                        mFrameNumber (fst (fst (fst r))),
                        encode_calls (snd (fst r)),
                        map slice_encoded (snd r)))
    (Run_audio_drain (fifo0_size (mResampleFifo example_audio_muxer))
       example_env example_audio_muxer 0)
  = Some (2, 1, 1, [false; true; false]).
Proof. vm_compute. reflexivity. Qed.
Lemma round_up_4 (x : Z) :
  0 <= x <= 2048 ->
  let x' := int (Z.quot (int (x + 3)) 4 * 4) in
  x' mod 4 = 0 /\ x <= x' <= x + 3 /\ x' <= 2048 /\ (x mod 4 = 0 -> x' = x).
Proof.
  intros Hx. cbv zeta.
  rewrite (int_small (x + 3)) by (int_range; lia).
  rewrite Z.quot_div_nonneg by lia.
  pose proof (Z.div_mod (x + 3) 4 ltac:(lia)) as Hd.
  pose proof (Z.mod_pos_bound (x + 3) 4 ltac:(lia)) as Hm.
  rewrite int_small by (int_range; lia).
  split; [apply Z.mod_mul; lia|].
  split; [lia|].
  split.
  - assert ((x + 3) / 4 < 513); [|lia].
    apply Z.div_lt_upper_bound; lia.
  - intros Hx4.
    pose proof (Z.div_mod x 4 ltac:(lia)) as Hdx.
    rewrite Hx4 in Hdx.
    replace (x + 3) with (3 + (x / 4) * 4) by lia.
    rewrite Z.div_add by lia. change (3 / 4) with 0. lia.
Qed.

Lemma round_up_even_fix (x : Z) :
  0 <= x < INT_MAX -> Z.even x = true ->
  int (Z.quot (int (x + 1)) 2 * 2) = x.
Proof.
  intros Hx He.
  rewrite (int_small (x + 1)) by (int_range; lia).
  rewrite Z.quot_div_nonneg by lia.
  apply Zeven_bool_iff in He. apply Zeven_div2 in He.
  rewrite Z.div2_div in He.
  replace (x + 1) with (1 + (x / 2) * 2) by lia.
  rewrite Z.div_add by lia. change (1 / 2) with 0.
  rewrite int_small by (int_range; lia). lia.
Qed.

Lemma validated_resolution_supported (x y : Z) (c : AVCodecID) :
  0 <= x < INT_MAX -> 0 <= y < INT_MAX ->
  let '(x', y') := ValidateVideoResolutionForEncoderCodec x y c in
  resolution_supported c x' y' = true
  /\ (has_resolution_policy c = false -> (x', y') = (x, y)).
Proof.
  intros Hx Hy.
  destruct c; cbn [ValidateVideoResolutionForEncoderCodec resolution_supported
                   has_resolution_policy];
    try (split; [reflexivity | reflexivity || discriminate]).
  - destruct (176 <? x); split; (reflexivity || discriminate).
  - destruct (704 <? x); [split; (reflexivity || discriminate)|].
    destruct (352 <? x); [split; (reflexivity || discriminate)|].
    destruct (176 <? x); [split; (reflexivity || discriminate)|].
    destruct (128 <? x); split; (reflexivity || discriminate).
  - assert (Hc : forall a b, 0 <= a <= 2048 -> 0 <= b <= 1152 ->
       (int (Z.quot (int (a + 3)) 4 * 4) <=? 2048)
       && (int (Z.quot (int (b + 3)) 4 * 4) <=? 1152)
       && (int (Z.quot (int (a + 3)) 4 * 4) mod 4 =? 0)
       && (int (Z.quot (int (b + 3)) 4 * 4) mod 4 =? 0) = true).
    { intros a b Ha Hb.
      destruct (round_up_4 a Ha) as (A1 & A2 & A3 & _).
      assert (Hb' : 0 <= b <= 2048) by lia.
      destruct (round_up_4 b Hb') as (B1 & B2 & _ & _).
      assert (B3 : int (Z.quot (int (b + 3)) 4 * 4) <= 1152).
      { rewrite (int_small (b + 3)) in * by (int_range; lia).
        rewrite Z.quot_div_nonneg in * by lia.
        assert ((b + 3) / 4 < 289) by (apply Z.div_lt_upper_bound; lia).
        pose proof (Z.div_pos (b + 3) 4 ltac:(lia) ltac:(lia)).
        rewrite int_small by (int_range; lia). lia. }
      rewrite A1, B1.
      apply Z.leb_le in A3. apply Z.leb_le in B3. rewrite A3, B3. reflexivity. }
    destruct ((2048 <? x) || (1152 <? y)) eqn:E.
    + split; [apply Hc; lia | discriminate].
    + apply orb_false_iff in E. destruct E as [E1 E2].
      apply Z.ltb_ge in E1. apply Z.ltb_ge in E2.
      split; [apply Hc; lia | discriminate].
  - destruct (round_up_even x Hx) as [E1 _]. destruct (round_up_even y Hy) as [E2 _].
    cbv zeta in E1, E2. rewrite E1, E2. split; [reflexivity | discriminate].
  - destruct (round_up_even x Hx) as [E1 _]. destruct (round_up_even y Hy) as [E2 _].
    cbv zeta in E1, E2. rewrite E1, E2. split; [reflexivity | discriminate].
Qed.

(** X1: whatever resolution is asked for, the resolution the validator
    answers for a codec is one the codec supports: QCIF or CIF for
    H.261, one of the five sizes from SQCIF to 16CIF for H.263, multiples
    of 4 up to 2048 x 1152 for H.263+, even sizes for H.264 and HEVC, CIF
    for Theora; for a codec without a rule it is the resolution asked
    for. *)
Theorem validated_resolution_is_supported (x y : Z) (c : AVCodecID)
    (Hx : 0 <= x < INT_MAX) (Hy : 0 <= y < INT_MAX) :
  let '(x', y') := ValidateVideoResolutionForEncoderCodec x y c in
  resolution_supported c x' y' = true
  /\ (has_resolution_policy c = false -> (x', y') = (x, y)).
Proof. exact (validated_resolution_supported x y c Hx Hy). Qed.

Lemma validated_resolution_is_supported_witness :
  ValidateVideoResolutionForEncoderCodec 641 478 AV_CODEC_ID_H263P = (644, 480)
  /\ resolution_supported AV_CODEC_ID_H263P 644 480 = true.
Proof.
  split; [reflexivity|].
  pose proof (validated_resolution_is_supported 641 478 AV_CODEC_ID_H263P
                ltac:(int_range; lia) ltac:(int_range; lia)) as H.
  exact (proj1 H).
Defined.

(** X2: the validator leaves a resolution as it is exactly if the codec
    supports it: the supported resolutions are its fixed points, every
    other resolution is changed. *)
Theorem supported_resolution_is_kept (x y : Z) (c : AVCodecID)
    (Hx : 0 <= x < INT_MAX) (Hy : 0 <= y < INT_MAX) :
  ValidateVideoResolutionForEncoderCodec x y c = (x, y)
  <-> resolution_supported c x y = true.
Proof.
  split.
  - intros H.
    pose proof (validated_resolution_supported x y c Hx Hy) as V.
    rewrite H in V. apply V.
  - destruct c; cbn [ValidateVideoResolutionForEncoderCodec resolution_supported];
      try reflexivity; intros H.
    + apply orb_true_iff in H.
      destruct H as [H|H]; apply andb_true_iff in H; destruct H as [H1 H2];
        apply Z.eqb_eq in H1; apply Z.eqb_eq in H2; subst; reflexivity.
    + repeat (apply orb_true_iff in H; destruct H as [H|H]);
        apply andb_true_iff in H; destruct H as [H1 H2];
        apply Z.eqb_eq in H1; apply Z.eqb_eq in H2; subst; reflexivity.
    + repeat (apply andb_true_iff in H; let H' := fresh in destruct H as [H H']).
      apply Z.leb_le in H. apply Z.leb_le in H2.
      apply Z.eqb_eq in H1. apply Z.eqb_eq in H0.
      assert (E : (2048 <? x) || (1152 <? y) = false).
      { apply orb_false_iff. split; apply Z.ltb_ge; lia. }
      rewrite E.
      destruct (round_up_4 x ltac:(lia)) as (_ & _ & _ & A).
      destruct (round_up_4 y ltac:(lia)) as (_ & _ & _ & B).
      cbv zeta in A, B. rewrite A, B by assumption. reflexivity.
    + apply andb_true_iff in H. destruct H as [H1 H2].
      rewrite !round_up_even_fix by assumption. reflexivity.
    + apply andb_true_iff in H. destruct H as [H1 H2].
      rewrite !round_up_even_fix by assumption. reflexivity.
    + apply andb_true_iff in H; destruct H as [H1 H2];
        apply Z.eqb_eq in H1; apply Z.eqb_eq in H2; subst; reflexivity.
Qed.

Lemma supported_resolution_is_kept_witness :
  ValidateVideoResolutionForEncoderCodec 704 576 AV_CODEC_ID_H263 = (704, 576)
  /\ ValidateVideoResolutionForEncoderCodec 640 480 AV_CODEC_ID_H263
     <> (640, 480).
Proof.
  split.
  - apply (proj2 (supported_resolution_is_kept 704 576 AV_CODEC_ID_H263
                    ltac:(int_range; lia) ltac:(int_range; lia))).
    reflexivity.
  - intros H.
    apply (proj1 (supported_resolution_is_kept 640 480 AV_CODEC_ID_H263
                    ltac:(int_range; lia) ltac:(int_range; lia))) in H.
    discriminate H.
Defined.

(** Validating twice is validating once, and the result is again a
    resolution in range. *)
Lemma validate_twice (x y : Z) (c : AVCodecID) :
  0 <= x < INT_MAX -> 0 <= y < INT_MAX ->
  let v := ValidateVideoResolutionForEncoderCodec x y c in
  ValidateVideoResolutionForEncoderCodec (fst v) (snd v) c = v
  /\ 0 <= fst v < INT_MAX /\ 0 <= snd v < INT_MAX.
Proof.
  intros Hx Hy. cbv zeta.
  assert (Heven : forall a, 0 <= a < INT_MAX ->
            int (Z.quot (int (int (Z.quot (int (a + 1)) 2 * 2) + 1)) 2 * 2)
            = int (Z.quot (int (a + 1)) 2 * 2)
            /\ 0 <= int (Z.quot (int (a + 1)) 2 * 2) < INT_MAX).
  { intros a Ha. destruct (round_up_even a Ha) as [E B]. cbv zeta in E, B.
    assert (R : 0 <= int (Z.quot (int (a + 1)) 2 * 2) < INT_MAX).
    { split; [lia|].
      destruct (Z.eq_dec (int (Z.quot (int (a + 1)) 2 * 2)) INT_MAX) as [E'|N].
      - rewrite E' in E. discriminate E.
      - int_range. lia. }
    split; [apply round_up_even_fix; assumption | exact R]. }
  assert (Hfour : forall a, 0 <= a <= 2048 ->
            int (Z.quot (int (int (Z.quot (int (a + 3)) 4 * 4) + 3)) 4 * 4)
            = int (Z.quot (int (a + 3)) 4 * 4)
            /\ 0 <= int (Z.quot (int (a + 3)) 4 * 4) <= 2048).
  { intros a Ha. destruct (round_up_4 a Ha) as (M & B & U & _). cbv zeta in M, B, U.
    assert (R : 0 <= int (Z.quot (int (a + 3)) 4 * 4) <= 2048) by lia.
    split; [|exact R].
    destruct (round_up_4 _ R) as (_ & _ & _ & F). apply F, M. }
  assert (Hfoury : forall b, 0 <= b <= 1152 ->
            int (Z.quot (int (b + 3)) 4 * 4) <= 1152).
  { intros b Hb.
    rewrite (int_small (b + 3)) by (int_range; lia).
    rewrite Z.quot_div_nonneg by lia.
    assert ((b + 3) / 4 < 289) by (apply Z.div_lt_upper_bound; lia).
    pose proof (Z.div_pos (b + 3) 4 ltac:(lia) ltac:(lia)).
    rewrite int_small by (int_range; lia). lia. }
  destruct c; cbn [ValidateVideoResolutionForEncoderCodec fst snd];
    try (split; [reflexivity | split; assumption]).
  - destruct (176 <? x); cbn; (split; [reflexivity | int_range; lia]).
  - destruct (704 <? x); [cbn; split; [reflexivity | int_range; lia]|].
    destruct (352 <? x); [cbn; split; [reflexivity | int_range; lia]|].
    destruct (176 <? x); [cbn; split; [reflexivity | int_range; lia]|].
    destruct (128 <? x); cbn; (split; [reflexivity | int_range; lia]).
  - assert (G : forall a b, 0 <= a <= 2048 -> 0 <= b <= 1152 ->
       (let '(x0, y0) :=
          if (2048 <? int (Z.quot (int (a + 3)) 4 * 4))
             || (1152 <? int (Z.quot (int (b + 3)) 4 * 4))
          then (2048, 1152)
          else (int (Z.quot (int (a + 3)) 4 * 4), int (Z.quot (int (b + 3)) 4 * 4)) in
        (int (Z.quot (int (x0 + 3)) 4 * 4), int (Z.quot (int (y0 + 3)) 4 * 4)))
       = (int (Z.quot (int (a + 3)) 4 * 4), int (Z.quot (int (b + 3)) 4 * 4))
       /\ 0 <= int (Z.quot (int (a + 3)) 4 * 4) < INT_MAX
       /\ 0 <= int (Z.quot (int (b + 3)) 4 * 4) < INT_MAX).
    { intros a b Ha Hb.
      destruct (Hfour a Ha) as [Fa Ra].
      destruct (Hfour b ltac:(lia)) as [Fb Rb].
      pose proof (Hfoury b Hb) as Ub.
      assert (E : (2048 <? int (Z.quot (int (a + 3)) 4 * 4))
                  || (1152 <? int (Z.quot (int (b + 3)) 4 * 4)) = false).
      { apply orb_false_iff. split; apply Z.ltb_ge; lia. }
      rewrite E, Fa, Fb. split; [reflexivity | int_range; lia]. }
    destruct ((2048 <? x) || (1152 <? y)) eqn:E.
    + apply (G 2048 1152); lia.
    + apply orb_false_iff in E. destruct E as [E1 E2].
      apply Z.ltb_ge in E1. apply Z.ltb_ge in E2. apply (G x y); lia.
  - destruct (Heven x Hx) as [F1 R1]. destruct (Heven y Hy) as [F2 R2].
    rewrite F1, F2. split; [reflexivity | split; assumption].
  - destruct (Heven x Hx) as [F1 R1]. destruct (Heven y Hy) as [F2 R2].
    rewrite F1, F2. split; [reflexivity | split; assumption].
  - cbn. split; [reflexivity | int_range; lia].
Qed.

(** ** The life cycle of the muxer *)

(** Case analysis on the answers of the codec engine in the goal. *)
Ltac engine_cases :=
  repeat match goal with
         | |- context [avcodec_find_encoder ?e ?c] =>
             destruct (avcodec_find_encoder e c)
         | |- context [avcodec_get_context_defaults3 ?e ?c] =>
             destruct (avcodec_get_context_defaults3 e c)
         | |- context [HM_avcodec_open ?e ?c ?b] =>
             destruct (HM_avcodec_open e c b)
         end.

Lemma OpenVideoMuxer_fst (env : Env) (m : MediaSourceMuxer)
    (x y : Z) (f : float) (t : Z) :
  fst (OpenVideoMuxer env m x y f t)
  = negb (mMediaSourceOpened m)
    && video_encoder_usable (engine env) (mStreamCodecId m).
Proof.
  destruct (mMediaSourceOpened m) eqn:Ho; destruct m; simpl in Ho; subst;
    cbv [OpenVideoMuxer StartEncoder MarkOpenGrabDeviceSuccessful
         video_encoder_usable];
    members_cbv; engine_cases; cbv [negb andb orb];
    try reflexivity; repeat (break_match; try reflexivity).
Qed.

Lemma CloseMuxer_fields (m : MediaSourceMuxer) :
  fst (CloseMuxer m) = mMediaSourceOpened m
  /\ mMediaSourceOpened (snd (CloseMuxer m)) = false
  /\ mFrameNumber (snd (CloseMuxer m)) = 0
  /\ mRelayingSkipAudioSilenceSkippedChunks (snd (CloseMuxer m)) = 0
  /\ mMediaType (snd (CloseMuxer m)) = mMediaType m
  /\ mStreamCodecId (snd (CloseMuxer m)) = mStreamCodecId m
  /\ mStreamBitRate (snd (CloseMuxer m)) = mStreamBitRate m
  /\ mMediaSource (snd (CloseMuxer m)) = mMediaSource m
  /\ mMediaSources (snd (CloseMuxer m)) = mMediaSources m.
Proof. destruct m. repeat split. Qed.

(** X3: [CloseMuxer] tells whether the muxer was open and leaves it
    closed with the frame counter and the skip counter at zero; a second
    call finds nothing to do: it returns [false] and leaves the muxer as
    the first call left it. *)
Theorem CloseMuxer_closes_once (m : MediaSourceMuxer) :
  let r := CloseMuxer m in
  fst r = mMediaSourceOpened m
  /\ mMediaSourceOpened (snd r) = false
  /\ mFrameNumber (snd r) = 0
  /\ mRelayingSkipAudioSilenceSkippedChunks (snd r) = 0
  /\ CloseMuxer (snd r) = (false, snd r).
Proof.
  destruct m. cbv [CloseMuxer]. members_cbv.
  repeat split; try reflexivity.
Qed.

(** X4: after [Reset] the muxer is open exactly if [Reset] returned
    [true], which it does exactly if the encoder of the stored codec is
    usable for the media type; the counters are at zero either way. *)
Theorem Reset_result_is_open_state (env : Env) (m : MediaSourceMuxer)
    (pMediaType : MediaType) (tNow : Z) :
  let r := Reset env m pMediaType tNow in
  let tMediaType :=
    match pMediaType with MEDIA_UNKNOWN => mMediaType m | _ => pMediaType end in
  mMediaSourceOpened (snd r) = fst r
  /\ fst r = match tMediaType with
             | MEDIA_VIDEO => video_encoder_usable (engine env) (mStreamCodecId m)
             | MEDIA_AUDIO => audio_encoder_usable (engine env) (mStreamCodecId m)
             | MEDIA_UNKNOWN => false
             end
  /\ mFrameNumber (snd r) = 0
  /\ mRelayingSkipAudioSilenceSkippedChunks (snd r) = 0.
Proof.
  destruct m.
  cbv [Reset CloseMuxer OpenVideoMuxer OpenAudioMuxer StartEncoder
       MarkOpenGrabDeviceSuccessful video_encoder_usable audio_encoder_usable].
  members_cbv.
  engine_cases; cbv [negb andb orb];
  repeat (break_match; try discriminate);
  repeat split; try reflexivity; try discriminate.
Qed.

(** X5: with a base source, [OpenVideoGrabDevice] and
    [OpenAudioGrabDevice] return what the source returns (on a muxer that
    is not open yet): the result of opening the muxer is dropped, so the
    call succeeds with the muxer closed when the encoder is not usable. *)
Theorem OpenGrabDevice_reports_the_source (env : Env) (m : MediaSourceMuxer)
    (s : nat) (x y : Z) (f : float) (t r c : Z)
    (Hs : mMediaSource m = Some s) (Hc : mMediaSourceOpened m = false) :
  let v := OpenVideoGrabDevice env m x y f t in
  let a := OpenAudioGrabDevice env m r c in
  fst v = src_OpenVideoGrabDevice (source_at env s)
  /\ fst a = src_OpenAudioGrabDevice (source_at env s)
  /\ (fst v = true ->
      mMediaSourceOpened (snd v)
      = video_encoder_usable (engine env) (mStreamCodecId m))
  /\ (fst a = true ->
      mMediaSourceOpened (snd a)
      = audio_encoder_usable (engine env) (mStreamCodecId m)).
Proof.
  destruct m. simpl in Hs, Hc. subst.
  cbv [OpenVideoGrabDevice OpenAudioGrabDevice OpenVideoMuxer OpenAudioMuxer
       StartEncoder MarkOpenGrabDeviceSuccessful video_encoder_usable
       audio_encoder_usable].
  members_cbv.
  engine_cases;
  destruct (src_OpenVideoGrabDevice (source_at env s)),
    (src_OpenAudioGrabDevice (source_at env s));
  cbv [negb andb orb];
  repeat split; try reflexivity; try discriminate;
  intros _; try reflexivity; repeat (break_match; try reflexivity).
Qed.

Lemma OpenGrabDevice_reports_the_source_witness :
  let m := set_mStreamCodecId AV_CODEC_ID_H264 (MediaSourceMuxer_new (Some 3%nat)) in
  fst (OpenVideoGrabDevice example_env m 352 288 float_29_97 0) = true
  /\ mMediaSourceOpened (snd (OpenVideoGrabDevice example_env m 352 288 float_29_97 0))
     = false.
Proof.
  cbv zeta.
  pose proof (OpenGrabDevice_reports_the_source example_env
                (set_mStreamCodecId AV_CODEC_ID_H264 (MediaSourceMuxer_new (Some 3%nat)))
                3%nat 352 288 float_29_97 0 8000 1 eq_refl eq_refl) as H.
  cbv zeta in H. destruct H as (H1 & _ & H3 & _).
  split; [exact H1|]. rewrite (H3 H1). reflexivity.
Defined.

(** ** The preference manager and the reset *)

Lemma Open_muxer_bit_rate (env : Env) (m : MediaSourceMuxer)
    (x y : Z) (f : float) (t r c : Z) :
  mStreamBitRate (snd (OpenVideoMuxer env m x y f t))
  = (if mStreamBitRate m =? -1 then MEDIA_SOURCE_MUX_DEFAULT_VIDEO_BIT_RATE
     else mStreamBitRate m)
  /\ mStreamBitRate (snd (OpenAudioMuxer env m r c))
     = (if mStreamBitRate m =? -1 then MEDIA_SOURCE_MUX_DEFAULT_AUDIO_BIT_RATE
        else mStreamBitRate m).
Proof.
  destruct m.
  cbv [OpenVideoMuxer OpenAudioMuxer StartEncoder MarkOpenGrabDeviceSuccessful].
  members_cbv.
  split; try reflexivity; repeat (break_match; try reflexivity).
Qed.

Lemma OpenVideoMuxer_resolution (env : Env) (m : MediaSourceMuxer)
    (x y : Z) (f : float) (t : Z) :
  fst (OpenVideoMuxer env m x y f t) = true ->
  (mRequestedStreamingResX m =? -1) = false ->
  (mRequestedStreamingResY m =? -1) = false ->
  (mCurrentStreamingResX (snd (OpenVideoMuxer env m x y f t)),
   mCurrentStreamingResY (snd (OpenVideoMuxer env m x y f t)))
  = ValidateVideoResolutionForEncoderCodec (mRequestedStreamingResX m)
      (mRequestedStreamingResY m) (mStreamCodecId m).
Proof.
  destruct m. simpl. intros H Hx Hy. revert H.
  cbv [OpenVideoMuxer StartEncoder MarkOpenGrabDeviceSuccessful].
  members_cbv. rewrite Hx, Hy. cbv [orb].
  repeat (break_match; try discriminate); intros _; reflexivity.
Qed.

Lemma Reset_bit_rate (env : Env) (m : MediaSourceMuxer) (tNow : Z) :
  mMediaType m <> MEDIA_UNKNOWN ->
  mStreamBitRate (snd (Reset env m MEDIA_UNKNOWN tNow))
  = if mStreamBitRate m =? -1
    then match mMediaType m with
         | MEDIA_AUDIO => MEDIA_SOURCE_MUX_DEFAULT_AUDIO_BIT_RATE
         | _ => MEDIA_SOURCE_MUX_DEFAULT_VIDEO_BIT_RATE
         end
    else mStreamBitRate m.
Proof.
  intros Ht. unfold Reset.
  destruct (CloseMuxer_fields m) as (_ & _ & _ & _ & _ & _ & Hb & _).
  destruct (CloseMuxer m) as [r0 m1]. cbn [snd] in Hb.
  destruct (mMediaType m); [contradiction| |].
  - destruct (Open_muxer_bit_rate env m1 (mSourceResX m1) (mSourceResY m1)
                (mInputFrameRate m1) tNow 0 0) as [H _].
    rewrite H, Hb. reflexivity.
  - destruct (Open_muxer_bit_rate env m1 0 0 float_5 0
                (mInputAudioSampleRate m1) (mInputAudioChannels m1)) as [_ H].
    rewrite H, Hb. reflexivity.
Qed.

Lemma Reset_video_resolution (env : Env) (m : MediaSourceMuxer) (tNow : Z) :
  mMediaType m = MEDIA_VIDEO ->
  video_encoder_usable (engine env) (mStreamCodecId m) = true ->
  mRequestedStreamingResX m <> -1 -> mRequestedStreamingResY m <> -1 ->
  (mCurrentStreamingResX (snd (Reset env m MEDIA_UNKNOWN tNow)),
   mCurrentStreamingResY (snd (Reset env m MEDIA_UNKNOWN tNow)))
  = ValidateVideoResolutionForEncoderCodec (mRequestedStreamingResX m)
      (mRequestedStreamingResY m) (mStreamCodecId m).
Proof.
  intros HT HU HX HY. unfold Reset. rewrite HT.
  pose proof (CloseMuxer_prefs m) as CP.
  destruct (CloseMuxer_fields m) as (_ & Co & _ & _ & _ & Cc & _).
  destruct (CloseMuxer m) as [r0 mc]. cbn [snd] in CP, Co, Cc.
  unfold stored_prefs in CP. injection CP as C1 C2 C3 C4 C5 C6.
  rewrite OpenVideoMuxer_resolution.
  - rewrite C5, C6, C1. reflexivity.
  - rewrite OpenVideoMuxer_fst, Co, C1. exact HU.
  - rewrite C5. apply Z.eqb_neq. exact HX.
  - rewrite C6. apply Z.eqb_neq. exact HY.
Qed.

Lemma preferences_settled_by_reset (env : Env) (mp : MediaSourceMuxer)
    (c : AVCodecID) (fps q b p' x' y' tNow : Z) :
  stored_prefs mp = (c, p', q, fps, x', y') ->
  mStreamBitRate mp = b -> b <> -1 ->
  mMediaType mp = MEDIA_VIDEO ->
  video_encoder_usable (engine env) c = true ->
  x' <> -1 -> y' <> -1 ->
  ValidateVideoResolutionForEncoderCodec x' y' c = (x', y') ->
  preferences_differ (snd (Reset env mp MEDIA_UNKNOWN tNow)) c fps q b p' x' y'
  = false.
Proof.
  intros Hmp Hbp Hb HT HU HX HY HV.
  pose proof (Reset_prefs env mp MEDIA_UNKNOWN tNow) as HP.
  pose proof (Reset_bit_rate env mp tNow) as HB.
  rewrite HT in HB. specialize (HB ltac:(discriminate)).
  rewrite Hbp in HB.
  destruct (Z.eqb_spec b (-1)) as [E|_]; [contradiction|].
  unfold stored_prefs in Hmp. injection Hmp as M1 M2 M3 M4 M5 M6.
  pose proof (Reset_video_resolution env mp tNow HT) as HC.
  rewrite M1, M5, M6, HV in HC.
  specialize (HC HU HX HY). injection HC as HCx HCy.
  unfold stored_prefs in HP. rewrite M1, M2, M3, M4, M5, M6 in HP.
  injection HP as P1 P2 P3 P4 P5 P6.
  unfold preferences_differ.
  rewrite P1, P2, P3, P4, HB, HCx, HCy, codec_eqb_refl, !Z.eqb_refl.
  reflexivity.
Qed.


(** The way out with a reset, and the way out without a change. *)
Lemma SetOutputStreamPreferences_resets (env : Env) (m : MediaSourceMuxer)
    (codec : string) (q b p rx ry fps tNow : Z) :
  let c := GetCodecIDFromGuiName (engine env) codec in
  let p' := packet_budget (wire env) c p in
  let x' := fst (requested_resolution c rx ry) in
  let y' := snd (requested_resolution c rx ry) in
  let r := SetOutputStreamPreferences env m codec q b p true rx ry fps tNow in
  preferences_differ m c fps q b p' x' y' = true ->
  mMediaSourceOpened m = true ->
  fst (fst r) = true
  /\ snd (fst r)
     = snd (Reset env (with_preferences m c fps p' q b x' y') MEDIA_UNKNOWN tNow).
Proof.
  cbv zeta. intros Hd Ho.
  rewrite (SetOutputStreamPreferences_unfold env m codec q b p true rx ry
             fps tNow).
  rewrite Hd, Ho.
  generalize (snd (Reset env
                     (with_preferences m (GetCodecIDFromGuiName (engine env) codec)
                        fps
                        (packet_budget (wire env)
                           (GetCodecIDFromGuiName (engine env) codec) p)
                        q b
                        (fst (requested_resolution
                                (GetCodecIDFromGuiName (engine env) codec) rx ry))
                        (snd (requested_resolution
                                (GetCodecIDFromGuiName (engine env) codec) rx ry)))
                     MEDIA_UNKNOWN tNow)).
  intros X. split; reflexivity.
Qed.

Lemma SetOutputStreamPreferences_keeps (env : Env) (m : MediaSourceMuxer)
    (codec : string) (q b p : Z) (doReset : bool) (rx ry fps tNow : Z) :
  let c := GetCodecIDFromGuiName (engine env) codec in
  let p' := packet_budget (wire env) c p in
  let x' := fst (requested_resolution c rx ry) in
  let y' := snd (requested_resolution c rx ry) in
  let r := SetOutputStreamPreferences env m codec q b p doReset rx ry fps tNow in
  preferences_differ m c fps q b p' x' y' = false ->
  fst (fst r) = false /\ snd (fst r) = m.
Proof.
  cbv zeta. intros Hd.
  rewrite (SetOutputStreamPreferences_unfold env m codec q b p doReset rx ry
             fps tNow).
  rewrite Hd. split; reflexivity.
Qed.

(** X6: on an open video muxer whose encoder is usable, a call with
    [pDoReset], a bit rate other than [-1] and a resolution brings
    the streamed resolution to the validated one, so the same call again
    finds nothing to change, returns [false] and leaves the muxer as it
    is. *)
Theorem SetOutputStreamPreferences_settles (env : Env) (m : MediaSourceMuxer)
    (codec : string) (q b p rx ry fps tNow tNow' : Z)
    (Hopen : mMediaSourceOpened m = true)
    (Hvideo : mMediaType m = MEDIA_VIDEO)
    (Hb : b <> -1)
    (Hx : 0 <= rx < INT_MAX) (Hy : 0 <= ry < INT_MAX)
    (Husable : video_encoder_usable (engine env)
                 (GetCodecIDFromGuiName (engine env) codec) = true) :
  let r1 := SetOutputStreamPreferences env m codec q b p true rx ry fps tNow in
  let r2 := SetOutputStreamPreferences env (snd (fst r1)) codec q b p true
              rx ry fps tNow' in
  fst (fst r2) = false /\ snd (fst r2) = snd (fst r1).
Proof.
  cbv zeta.
  assert (Hreq : requested_resolution (GetCodecIDFromGuiName (engine env) codec) rx ry
                 = ValidateVideoResolutionForEncoderCodec rx ry
                     (GetCodecIDFromGuiName (engine env) codec)).
  { unfold requested_resolution.
    destruct (Z.eqb_spec rx (-1)); [lia|].
    destruct (Z.eqb_spec ry (-1)); [lia|]. reflexivity. }
  destruct (validate_twice rx ry (GetCodecIDFromGuiName (engine env) codec) Hx Hy)
    as (Htw & Rx & Ry).
  cbv zeta in Htw, Rx, Ry. rewrite <- Hreq in Htw, Rx, Ry. clear Hreq.
  pose proof (SetOutputStreamPreferences_resets env m codec q b p rx ry fps tNow)
    as A.
  pose proof (fun m1 =>
                SetOutputStreamPreferences_keeps env m1 codec q b p true rx ry
                  fps tNow') as K'.
  pose proof (SetOutputStreamPreferences_keeps env m codec q b p true rx ry
                fps tNow) as K.
  cbv zeta in A, K, K'.
  revert A K K' Htw Rx Ry.
  generalize (requested_resolution (GetCodecIDFromGuiName (engine env) codec) rx ry).
  generalize (packet_budget (wire env) (GetCodecIDFromGuiName (engine env) codec) p).
  generalize dependent (GetCodecIDFromGuiName (engine env) codec).
  intros c Husable p' [x' y'] A K K' Htw Rx Ry.
  cbn [fst snd] in A, K, K', Htw, Rx, Ry.
  destruct (preferences_differ m c fps q b p' x' y') eqn:Hd.
  - destruct (A eq_refl Hopen) as [_ A2]. rewrite A2.
    apply K'.
    apply preferences_settled_by_reset; try reflexivity; try assumption; lia.
  - destruct (K eq_refl) as [_ K2]. rewrite K2. apply K', Hd.
Qed.

Lemma SetOutputStreamPreferences_settles_witness :
  let r1 := SetOutputStreamPreferences example_env example_video_muxer "H.263"
              20 100000 1400 true 640 480 0 5 in
  let r2 := SetOutputStreamPreferences example_env (snd (fst r1)) "H.263"
              20 100000 1400 true 640 480 0 9 in
  fst (fst r1) = true /\ fst (fst r2) = false /\ snd (fst r2) = snd (fst r1).
Proof.
  split; [vm_compute; reflexivity|].
  apply (SetOutputStreamPreferences_settles example_env example_video_muxer
           "H.263" 20 100000 1400 640 480 0 5 9).
  - vm_compute. reflexivity.
  - vm_compute. reflexivity.
  - lia.
  - int_range. lia.
  - int_range. lia.
  - vm_compute. reflexivity.
Defined.



(** ** The frame-rate gate over many calls *)

Lemma BelowMaxFps_calls_grid (ts : list Z) :
  forall m : MediaSourceMuxer,
  0 < mStreamMaxFps m -> in_int (mStreamMaxFps m) ->
  time_ok (mStreamMaxFps_LastFrame_Timestamp m) ->
  (forall t, In t ts -> time_ok t) ->
  mStreamMaxFps_LastFrame_Timestamp (snd (BelowMaxFps_calls m ts))
  = mStreamMaxFps_LastFrame_Timestamp m
    + admitted (fst (BelowMaxFps_calls m ts))
      * Z.quot (1000 * 1000) (mStreamMaxFps m)
  /\ mStreamMaxFps (snd (BelowMaxFps_calls m ts)) = mStreamMaxFps m.
Proof.
  induction ts as [|t ts IH]; intros m Hfps Hint Hl Hts.
  - cbn. unfold admitted. cbn. split; [lia | reflexivity].
  - cbn [BelowMaxFps_calls].
    assert (Ht : time_ok t) by (apply Hts; left; reflexivity).
    pose proof (BelowMaxFps_step m t ltac:(lia) Hint Ht Hl) as Hstep.
    cbv zeta in Hstep. rewrite Hstep. clear Hstep.
    assert (Hq : 0 <= Z.quot (1000 * 1000) (mStreamMaxFps m)).
    { apply Z.quot_pos; lia. }
    destruct (Z.ltb_spec 0 (t - mStreamMaxFps_LastFrame_Timestamp m
                            - Z.quot (1000 * 1000) (mStreamMaxFps m))) as [Hadm|Hno].
    + set (m1 := set_mStreamMaxFps_LastFrame_Timestamp _ m).
      assert (H1 : mStreamMaxFps m1 = mStreamMaxFps m) by reflexivity.
      assert (H2 : mStreamMaxFps_LastFrame_Timestamp m1
                   = mStreamMaxFps_LastFrame_Timestamp m
                     + Z.quot (1000 * 1000) (mStreamMaxFps m)).
      { unfold m1. members. lia. }
      destruct (IH m1) as [I1 I2].
      * rewrite H1. exact Hfps.
      * rewrite H1. exact Hint.
      * rewrite H2. unfold time_ok in *. lia.
      * intros t' Ht'. apply Hts. right. exact Ht'.
      * destruct (BelowMaxFps_calls m1 ts) as [bs m2]. cbn [fst snd] in *.
        rewrite admitted_cons, I1, I2, H1, H2. split; [lia | reflexivity].
    + destruct (IH m Hfps Hint Hl) as [I1 I2].
      * intros t' Ht'. apply Hts. right. exact Ht'.
      * destruct (BelowMaxFps_calls m ts) as [bs m2]. cbn [fst snd] in *.
        rewrite admitted_cons, I1, I2. split; [lia | reflexivity].
Qed.

(** X8: the gate keeps a grid.  With a maximum frame rate, however the
    calls are spaced, the reference timestamp after any number of calls
    is the first reference plus the interval times the number of frames
    admitted: an admission moves it by the interval, not to the time of
    the call, and a refusal leaves it alone. *)
Theorem BelowMaxFps_keeps_the_grid (m : MediaSourceMuxer) (ts : list Z)
    (Hfps : 0 < mStreamMaxFps m) (Hint : in_int (mStreamMaxFps m))
    (Href : time_ok (mStreamMaxFps_LastFrame_Timestamp m))
    (Hts : forall t, In t ts -> time_ok t) :
  let r := BelowMaxFps_calls m ts in
  mStreamMaxFps_LastFrame_Timestamp (snd r)
  = mStreamMaxFps_LastFrame_Timestamp m
    + admitted (fst r) * Z.quot (1000 * 1000) (mStreamMaxFps m)
  /\ mStreamMaxFps (snd r) = mStreamMaxFps m.
Proof. exact (BelowMaxFps_calls_grid ts m Hfps Hint Href Hts). Qed.

Lemma BelowMaxFps_keeps_the_grid_witness :
  let r := BelowMaxFps_calls example_limited_muxer
             [50000; 130000; 250000; 260000; 470000] in
  fst r = [false; true; true; false; true]
  /\ mStreamMaxFps_LastFrame_Timestamp (snd r) = 0 + 3 * 100000.
Proof.
  split; [vm_compute; reflexivity|].
  refine (proj1 (BelowMaxFps_keeps_the_grid example_limited_muxer
                   [50000; 130000; 250000; 260000; 470000] _ _ _ _)).
  - vm_compute. reflexivity.
  - vm_compute. intuition discriminate.
  - vm_compute. intuition discriminate.
  - intros t Ht. cbn in Ht.
    repeat (destruct Ht as [<-|Ht]; [vm_compute; intuition discriminate|]).
    contradiction.
Defined.

(** ** The transcode thread: what is encoded and what is not *)

(** The warning about an input timestamp that is too low, as a name. *)
Ltac name_log tLog :=
  match goal with
  | |- context [if ?c then [Log ?x] else []] =>
      set (tLog := if c then [Log x] else [])
  | H : context [if ?c then [Log ?x] else []] |- _ =>
      set (tLog := if c then [Log x] else []) in *
  end.

(** X9: the thread encodes and relays nothing, and leaves the muxer as it
    is, for an entry without payload (the entry that wakes the thread
    up), after the encoder thread was told to stop, while the relay is
    deactivated and while no media sink is registered. *)
Theorem Run_entry_idle (env : Env) (m : MediaSourceMuxer) (l : RunLocals)
    (e : FifoEntry) (fuel : nat)
    (H : fe_size e <= 0 \/ mEncoderThreadNeeded m = false
         \/ mStreamActivated m = false \/ mMediaSinks m = []) :
  exists tEvents,
    Run_entry env m l e fuel = Some (m, entry_seen l e, tEvents)
    /\ relayed_pts tEvents = [] /\ encoded_frames tEvents = [].
Proof.
  unfold Run_entry, entry_seen.
  name_log tLog.
  assert (HL : relayed_pts tLog = [] /\ encoded_frames tLog = []).
  { unfold tLog. destruct (_ && _); split; reflexivity. }
  assert (HL' : relayed_pts (tLog ++ [Log (LOG LOG_VERBOSE "Skipped transcoder task")]) = []
                /\ encoded_frames (tLog ++ [Log (LOG LOG_VERBOSE "Skipped transcoder task")]) = []).
  { unfold tLog. destruct (_ && _); split; reflexivity. }
  destruct ((0 <? fe_size e) && mEncoderThreadNeeded m) eqn:E1.
  - apply andb_true_iff in E1. destruct E1 as [E1 E2]. apply Z.ltb_lt in E1.
    destruct (mStreamActivated m && negb (Nat.eqb (List.length (mMediaSinks m)) 0)) eqn:E3.
    + exfalso. apply andb_true_iff in E3. destruct E3 as [E3 E4].
      destruct H as [H|[H|[H|H]]]; try lia; try congruence.
      rewrite H in E4. discriminate.
    + eexists. split; [reflexivity | exact HL'].
  - eexists. split; [reflexivity | exact HL].
Qed.

Lemma Run_entry_idle_witness :
  exists tEvents,
    Run_entry example_env (SetRelayActivation example_video_muxer false)
      Run_locals_init (example_entry 1000000) 0
    = Some (SetRelayActivation example_video_muxer false,
            entry_seen Run_locals_init (example_entry 1000000), tEvents)
    /\ relayed_pts tEvents = [] /\ encoded_frames tEvents = [].
Proof.
  apply (Run_entry_idle example_env (SetRelayActivation example_video_muxer false)
           Run_locals_init (example_entry 1000000) 0).
  right. right. left. reflexivity.
Defined.

















(** *** The video time base *)





(** ** The transcode thread: the bytes of the resample FIFOs *)

Lemma Run_audio_write_total (planar : bool) (planes : list (list Z))
    (size : Z) (n : nat) :
  forall (i : nat) (fifos : list (list Z)),
  (if planar then (i + n <= List.length fifos)%nat
   else n = O \/ (0 < List.length fifos)%nat) ->
  exists fifos', Run_audio_write planar planes size n i fifos = Some fifos'.
Proof.
  induction n as [|n IH]; intros i fifos H.
  - eexists. reflexivity.
  - cbn [Run_audio_write]. unfold bind.
    destruct (nth_error fifos (if planar then i else O)) as [f|] eqn:Ef.
    + apply IH. rewrite set_nth_length.
      destruct planar; [lia|]. right.
      destruct H as [H|H]; [discriminate H | exact H].
    + apply nth_error_None in Ef. destruct planar; [lia|].
      destruct H as [H|H]; [discriminate H | lia].
Qed.

Lemma Run_audio_write_bytes (planar : bool) (planes : list (list Z))
    (size : Z) (n : nat) :
  0 <= size ->
  forall (i : nat) (fifos fifos' : list (list Z)),
  Run_audio_write planar planes size n i fifos = Some fifos' ->
  List.length fifos' = List.length fifos
  /\ forall j : nat,
     nth j fifos' []
     = nth j fifos []
       ++ (if planar
           then if ((i <=? j) && (j <? i + n))%nat
                then firstn (Z.to_nat size) (nth j planes []) else []
           else match j with
                | O => firstn (n * Z.to_nat size)
                         (skipn (i * Z.to_nat size) (nth O planes []))
                | S _ => []
                end).
Proof.
  intros Hsize. induction n as [|n IH]; intros i fifos fifos' H.
  - cbn in H. inversion H; subst. split; [reflexivity|]. intros j.
    destruct planar.
    + replace ((i <=? j) && (j <? i + 0))%nat with false;
        [rewrite app_nil_r; reflexivity|].
      symmetry. apply andb_false_iff.
      destruct (Nat.leb_spec i j); [right; apply Nat.ltb_ge; lia | left; reflexivity].
    + destruct j; cbn; rewrite app_nil_r; reflexivity.
  - cbn [Run_audio_write] in H. unfold bind in H.
    destruct (nth_error fifos _) as [f|] eqn:Ef; [|discriminate].
    apply IH in H. destruct H as [L B]. rewrite set_nth_length in L.
    split; [exact L|]. intros j. rewrite B. clear B IH.
    unfold av_fifo_generic_write.
    apply (nth_error_nth_length _ _ _ []) in Ef. destruct Ef as [Ef Hlen].
    destruct planar.
    + destruct (Nat.eq_dec j i) as [->|Hne].
      * rewrite nth_set_nth_same by exact Hlen. rewrite Ef.
        replace ((S i <=? i) && (i <? S i + n))%nat with false
          by (symmetry; apply andb_false_iff; left; apply Nat.leb_gt; lia).
        replace ((i <=? i) && (i <? i + S n))%nat with true
          by (symmetry; apply andb_true_iff; split;
              [apply Nat.leb_le | apply Nat.ltb_lt]; lia).
        rewrite app_nil_r. reflexivity.
      * rewrite nth_set_nth_other by exact Hne.
        replace ((S i <=? j) && (j <? S i + n))%nat
          with ((i <=? j) && (j <? i + S n))%nat; [reflexivity|].
        destruct (Nat.leb_spec i j), (Nat.leb_spec (S i) j),
          (Nat.ltb_spec j (i + S n)), (Nat.ltb_spec j (S i + n));
          try reflexivity; lia.
    + destruct j as [|j].
      * rewrite nth_set_nth_same by exact Hlen. rewrite Ef, <- app_assoc.
        f_equal.
        replace (Z.to_nat (Z.of_nat i * size)) with (i * Z.to_nat size)%nat
          by (rewrite Z2Nat.inj_mul, Nat2Z.id by lia; reflexivity).
        replace (S n * Z.to_nat size)%nat with (Z.to_nat size + n * Z.to_nat size)%nat
          by lia.
        rewrite firstn_add_skipn. f_equal.
        replace (S i * Z.to_nat size)%nat with (i * Z.to_nat size + Z.to_nat size)%nat
          by lia.
        rewrite skipn_add. reflexivity.
      * rewrite nth_set_nth_other by discriminate. reflexivity.
Qed.

(** X12: the buffering loop appends and nothing else.  Where the
    resample FIFOs it writes to exist (one per channel for a planar
    format, FIFO 0 for a packed one), the loop has a result: every FIFO
    keeps the bytes it holds; plane [j] goes to the end of FIFO [j], or,
    for a packed format, the channels' parts of plane 0 go to the end of
    FIFO 0 one after the other, which is the head of plane 0 in one
    piece.  With nothing to write (no resample context) the FIFOs are as
    before. *)
Theorem buffering_appends (planar : bool) (planes : list (list Z))
    (size : Z) (channels : nat) (fifos : list (list Z))
    (Hsize : 0 <= size)
    (Hfifos : if planar then (channels <= List.length fifos)%nat
              else channels = O \/ (0 < List.length fifos)%nat) :
  exists fifos' : list (list Z),
    Run_audio_write planar planes size channels O fifos = Some fifos'
    /\ List.length fifos' = List.length fifos
    /\ (forall j : nat,
          nth j fifos' []
          = nth j fifos []
            ++ written_bytes planar planes (Z.to_nat size) channels j)
    /\ (size = 0 -> fifos' = fifos).
Proof.
  destruct (Run_audio_write_total planar planes size channels O fifos Hfifos)
    as [fifos' H].
  exists fifos'. split; [exact H|].
  destruct (Run_audio_write_bytes planar planes size channels Hsize O fifos
              fifos' H) as [L B].
  assert (W : forall j,
            nth j fifos' []
            = nth j fifos []
              ++ written_bytes planar planes (Z.to_nat size) channels j).
  { intros j. rewrite B. unfold written_bytes. destruct planar.
    - cbn [Nat.leb andb Nat.add]. reflexivity.
    - destruct j; [|reflexivity]. cbn [Nat.mul skipn]. reflexivity. }
  split; [exact L|]. split; [exact W|].
  intros ->. apply (nth_ext _ _ [] []); [exact L|].
  intros j _. rewrite W. unfold written_bytes. cbn [Z.to_nat].
  destruct planar.
  - destruct (j <? channels)%nat; cbn [firstn]; apply app_nil_r.
  - destruct j; [rewrite Nat.mul_0_r; cbn [firstn]|]; apply app_nil_r.
Qed.

Lemma buffering_appends_witness :
  exists fifos' : list (list Z),
    Run_audio_write false [[1; 2; 3; 4; 5; 6; 7; 8; 9]] 4 2 O [[0]; [7]]
    = Some fifos'
    /\ nth 0 fifos' [] = [0; 1; 2; 3; 4; 5; 6; 7; 8]
    /\ nth 1 fifos' [] = [7].
Proof.
  destruct (buffering_appends false [[1; 2; 3; 4; 5; 6; 7; 8; 9]] 4 2
              [[0]; [7]] ltac:(lia) ltac:(right; cbn; lia))
    as (fifos' & H & _ & W & _).
  exists fifos'. split; [exact H|].
  split; [rewrite (W 0%nat) | rewrite (W 1%nat)]; reflexivity.
Defined.

(** ** The registry of media sources *)

Lemma existsb_eqb_In (p : nat) (l : list nat) :
  existsb (Nat.eqb p) l = true <-> In p l.
Proof.
  rewrite existsb_exists. split.
  - intros (x & Hx & E). apply Nat.eqb_eq in E. subst. exact Hx.
  - intros H. exists p. split; [exact H | apply Nat.eqb_refl].
Qed.

Lemma erase_first_not_In (p : nat) (l : list nat) :
  ~ In p l -> erase_first p l = l.
Proof.
  induction l as [|s l IH]; intros H; [reflexivity|].
  cbn [erase_first]. destruct (Nat.eqb_spec s p) as [E|N].
  - exfalso. apply H. left. exact E.
  - rewrite IH; [reflexivity|]. intros Hin. apply H. right. exact Hin.
Qed.

Lemma erase_first_In (p q : nat) (l : list nat) :
  In q (erase_first p l) -> In q l.
Proof.
  induction l as [|s l IH]; [intros []|].
  cbn [erase_first]. destruct (Nat.eqb s p).
  - intros H. right. exact H.
  - intros [H|H]; [left; exact H | right; exact (IH H)].
Qed.

Lemma erase_first_other (p q : nat) (l : list nat) :
  q <> p -> In q l -> In q (erase_first p l).
Proof.
  intros Hq. induction l as [|s l IH]; [intros []|].
  cbn [erase_first]. destruct (Nat.eqb_spec s p) as [E|N].
  - intros [H|H]; [congruence | exact H].
  - intros [H|H]; [left; exact H | right; exact (IH H)].
Qed.

Lemma erase_first_NoDup (p : nat) (l : list nat) :
  NoDup l -> NoDup (erase_first p l) /\ ~ In p (erase_first p l).
Proof.
  induction l as [|s l IH]; intros H.
  - split; [constructor | intros []].
  - inversion H as [|? ? Hs Hl]; subst. cbn [erase_first].
    destruct (Nat.eqb_spec s p) as [E|N].
    + subst. split; assumption.
    + destruct (IH Hl) as [I1 I2]. split.
      * constructor; [|exact I1]. intros Hin. apply Hs.
        exact (erase_first_In _ _ _ Hin).
      * intros [E|Hin]; [congruence | exact (I2 Hin)].
Qed.

Lemma erase_first_app (p : nat) (l : list nat) :
  ~ In p l -> erase_first p (l ++ [p]) = l.
Proof.
  induction l as [|s l IH]; intros H.
  - cbn. rewrite Nat.eqb_refl. reflexivity.
  - cbn [app erase_first]. destruct (Nat.eqb_spec s p) as [E|N].
    + exfalso. apply H. left. exact E.
    + rewrite IH; [reflexivity|]. intros Hin. apply H. right. exact Hin.
Qed.

(** X13: the registry stays in order.  No source is registered twice and
    the active source is a registered one: so it is for a new muxer, and
    registering and unregistering keep it so; after a source was
    unregistered it is neither registered nor active, so that no pointer
    to a deleted source is left behind. *)
Theorem registry_stays_in_order (m : MediaSourceMuxer) (p : nat) (d : bool)
    (H : registry_ok m) :
  (forall s, registry_ok (MediaSourceMuxer_new s))
  /\ registry_ok (snd (RegisterMediaSource m p))
  /\ In p (mMediaSources (snd (RegisterMediaSource m p)))
  /\ registry_ok (snd (UnregisterMediaSource m p d))
  /\ ~ In p (mMediaSources (snd (UnregisterMediaSource m p d)))
  /\ mMediaSource (snd (UnregisterMediaSource m p d)) <> Some p.
Proof.
  destruct H as [Hn Ha].
  split.
  { intros [s|]; cbn; split.
    - constructor; [intros [] | constructor].
    - intros s' E. injection E as <-. left. reflexivity.
    - constructor.
    - discriminate. }
  assert (R : registry_ok (snd (RegisterMediaSource m p))
              /\ In p (mMediaSources (snd (RegisterMediaSource m p)))).
  { unfold registry_ok, RegisterMediaSource. members.
    destruct (existsb (Nat.eqb p) (mMediaSources m)) eqn:E.
    - apply existsb_eqb_In in E. split; [split|exact E]; [exact Hn|].
      destruct (mMediaSource m) as [a|] eqn:Ea.
      + intros s Es. apply Ha. exact Es.
      + intros s Es. injection Es as <-. exact E.
    - assert (Hp : ~ In p (mMediaSources m)).
      { intros Hin. apply existsb_eqb_In in Hin. congruence. }
      split; [split|].
      + apply NoDup_app; [exact Hn | constructor; [intros [] | constructor] |].
        intros x Hx [<-|[]]. exact (Hp Hx).
      + destruct (mMediaSource m) as [a|] eqn:Ea.
        * intros s Es. apply in_or_app. left. apply Ha. exact Es.
        * intros s Es. injection Es as <-. apply in_or_app. right. left. reflexivity.
      + apply in_or_app. right. left. reflexivity. }
  destruct R as [R1 R2]. split; [exact R1|]. split; [exact R2|].
  destruct (erase_first_NoDup p _ Hn) as [En Ep].
  unfold registry_ok, UnregisterMediaSource. members.
  assert (Hhd : forall s, hd_error (erase_first p (mMediaSources m)) = Some s ->
                 In s (erase_first p (mMediaSources m))).
  { intros s. destruct (erase_first p (mMediaSources m)); cbn; [discriminate|].
    intros E. injection E as <-. left. reflexivity. }
  destruct (existsb (Nat.eqb p) (mMediaSources m)) eqn:E; cbn [andb].
  - destruct (mMediaSource m) as [a|] eqn:Ea; cbn [pointer_eqb].
    + destruct (Nat.eqb_spec a p) as [Eap|Nap].
      * split; [split; [exact En | exact Hhd]|]. split; [exact Ep|].
        intros Hh. exact (Ep (Hhd _ Hh)).
      * split; [split; [exact En|]|].
        -- intros s Es. injection Es as <-.
           apply erase_first_other; [exact Nap | apply Ha; reflexivity].
        -- split; [exact Ep|]. intros Es. injection Es as Es. contradiction.
    + split; [split; [exact En | discriminate]|]. split; [exact Ep | discriminate].
  - assert (Hp : ~ In p (mMediaSources m)).
    { intros Hin. apply existsb_eqb_In in Hin. congruence. }
    split; [split; [exact En|]|].
    + intros s Es. rewrite erase_first_not_In by exact Hp. apply Ha. exact Es.
    + split; [exact Ep|]. intros Es. apply Hp. apply Ha. exact Es.
Qed.

Lemma registry_stays_in_order_witness :
  registry_ok example_video_muxer
  /\ mMediaSources (snd (UnregisterMediaSource example_video_muxer 1 true))
     = [2%nat; 3%nat]
  /\ mMediaSource (snd (UnregisterMediaSource example_video_muxer 1 true))
     <> Some 1%nat.
Proof.
  assert (H : registry_ok example_video_muxer).
  { split.
    - vm_compute. repeat constructor; cbn; intuition discriminate.
    - intros s E. vm_compute in E. injection E as <-. vm_compute. left. reflexivity. }
  split; [exact H|]. split; [vm_compute; reflexivity|].
  destruct (registry_stays_in_order example_video_muxer 1 true H)
    as (_ & _ & _ & _ & _ & G).
  exact G.
Defined.

(** X14: registering a source that is registered already changes nothing
    and returns [false]; and while another source is active, registering
    a new source and unregistering it again gives the muxer back as it
    was. *)
Theorem register_twice_and_back (m : MediaSourceMuxer) (p s : nat) (d : bool)
    (Hs : mMediaSource m = Some s) (Hin : In s (mMediaSources m))
    (Hp : ~ In p (mMediaSources m)) :
  RegisterMediaSource m p
  = (true, set_mMediaSources (mMediaSources m ++ [p]) m)
  /\ RegisterMediaSource (snd (RegisterMediaSource m p)) p
     = (false, snd (RegisterMediaSource m p))
  /\ UnregisterMediaSource (snd (RegisterMediaSource m p)) p d = (true, m).
Proof.
  assert (Hsp : Nat.eqb s p = false).
  { apply Nat.eqb_neq. intros ->. exact (Hp Hin). }
  assert (E1 : existsb (Nat.eqb p) (mMediaSources m) = false).
  { destruct (existsb (Nat.eqb p) (mMediaSources m)) eqn:E; [|reflexivity].
    apply existsb_eqb_In in E. contradiction. }
  assert (E2 : existsb (Nat.eqb p) (mMediaSources m ++ [p]) = true).
  { apply existsb_eqb_In. apply in_or_app. right. left. reflexivity. }
  pose proof (erase_first_app p _ Hp) as E3.
  destruct m. simpl in Hs, E1, E2, E3. subst.
  unfold RegisterMediaSource, UnregisterMediaSource. members.
  rewrite E1. members. rewrite E2. members. rewrite E3.
  cbn [pointer_eqb negb andb]. rewrite Hsp.
  repeat split.
Qed.

Lemma register_twice_and_back_witness :
  UnregisterMediaSource (snd (RegisterMediaSource example_video_muxer 7)) 7 true
  = (true, example_video_muxer).
Proof.
  refine (proj2 (proj2 (register_twice_and_back example_video_muxer 7 1 true
                          _ _ _))).
  - vm_compute. reflexivity.
  - vm_compute. left. reflexivity.
  - vm_compute. intuition discriminate.
Defined.

(** ** The device selector: the outcome of a selection *)













Lemma SelectDevice_probe_first (env : Env) (dev : string) (ty : MediaType)
    (s : nat) (rest : list nat) (pre : list nat) :
  accepts env dev ty s = true ->
  forallb (fun x => negb (accepts env dev ty x)) pre = true ->
  forall r0 n0,
  exists n, SelectDevice_probe env (pre ++ s :: rest) dev ty r0 n0
            = (true, n, s :: rest).
Proof.
  intros Hs. induction pre as [|x pre IH]; intros Hpre r0 n0.
  - cbn [app SelectDevice_probe]. unfold accepts in Hs.
    destruct (src_SelectDevice (source_at env s) dev ty false) as [a n1].
    cbn [fst] in Hs. subst. exists n1. reflexivity.
  - cbn [forallb] in Hpre. apply andb_true_iff in Hpre. destruct Hpre as [Hx Hpre].
    cbn [app SelectDevice_probe]. unfold accepts in Hx.
    destruct (src_SelectDevice (source_at env x) dev ty false) as [a n1].
    cbn [fst] in Hx. apply negb_true_iff in Hx. subst.
    apply IH. exact Hpre.
Qed.

(** X16: selecting again the device that is current.  If the first
    registered source that accepts the device is the active source and
    the device is the current device, the selector succeeds, reports no
    new device and closes and opens nothing: the muxer is as before but
    for the media type and the desired device. *)
Theorem SelectDevice_reselect (env : Env) (m : MediaSourceMuxer)
    (dev : string) (pty : MediaType) (tNow : Z) (s : nat)
    (Hactive : mMediaSource m = Some s)
    (Hcurrent : mCurrentDevice m = dev)
    (Hfirst : first_acceptor env dev
                (match pty with MEDIA_UNKNOWN => mMediaType m | _ => pty end)
                (mMediaSources m) s) :
  SelectDevice env m dev pty tNow
  = Some (true, false,
          set_mCurrentDevice dev
            (set_mDesiredDevice dev
               (set_mMediaType
                  (match pty with MEDIA_UNKNOWN => mMediaType m | _ => pty end)
                  m))).
Proof.
  destruct Hfirst as (pre & rest & Hl & Hs & Hpre).
  unfold SelectDevice. members. rewrite Hl.
  destruct (SelectDevice_probe_first env dev _ s rest pre Hs Hpre true false)
    as [n1 P].
  rewrite P.
  assert (Hlen : Nat.ltb 0 (List.length (pre ++ s :: rest)) = true).
  { apply Nat.ltb_lt. rewrite length_app. cbn [List.length]. lia. }
  rewrite Hlen. cbn [negb andb hd_error]. unfold bind. members.
  rewrite Hactive, Hcurrent. cbn [pointer_eqb].
  rewrite Nat.eqb_refl, String.eqb_refl. cbn [negb orb]. members.
  rewrite Hactive. cbn [pointer_eqb]. rewrite Nat.eqb_refl. reflexivity.
Qed.

Lemma SelectDevice_reselect_witness :
  let m := set_mMediaSource (Some 2%nat) example_video_muxer in
  SelectDevice example_env m EmptyString MEDIA_VIDEO 0
  = Some (true, false,
          set_mCurrentDevice EmptyString
            (set_mDesiredDevice EmptyString (set_mMediaType MEDIA_VIDEO m))).
Proof.
  apply (SelectDevice_reselect example_env
           (set_mMediaSource (Some 2%nat) example_video_muxer) EmptyString
           MEDIA_VIDEO 0 2).
  - reflexivity.
  - vm_compute. reflexivity.
  - exists [1%nat], [3%nat]. vm_compute. repeat split.
Defined.

(** ** The grab resolution *)

Lemma OpenVideoMuxer_source_resolution (env : Env) (m : MediaSourceMuxer)
    (x y : Z) (f : float) (t : Z) :
  mMediaSourceOpened m = false ->
  mSourceResX (snd (OpenVideoMuxer env m x y f t)) = x
  /\ mSourceResY (snd (OpenVideoMuxer env m x y f t)) = y.
Proof.
  intros Ho. destruct m. simpl in Ho. subst.
  cbv [OpenVideoMuxer StartEncoder MarkOpenGrabDeviceSuccessful].
  members_cbv.
  split; try reflexivity; repeat (break_match; try reflexivity).
Qed.

(** X17: the grab resolution is stored as it is asked for.  Whatever the
    stream codec, after [SetVideoGrabResolution] on a muxer that is not
    an audio muxer the source resolution is the requested one, also when
    the warning says the resolution was changed: what the [switch] works
    out is not stored.  For H.261 that is the request if it is QCIF or
    CIF and CIF if not; for H.263 it is the request if it is QCIF, CIF or
    4CIF, QCIF for SQCIF and 4CIF for 16CIF, which the list accepts and
    the range check then replaces, and CIF for everything else.  An
    audio muxer is left as it is. *)
Theorem SetVideoGrabResolution_stores_the_request (env : Env)
    (m : MediaSourceMuxer) (x y tNow : Z) :
  let r := SetVideoGrabResolution env m x y tNow in
  (mMediaType m = MEDIA_AUDIO -> fst r = m)
  /\ (mMediaType m <> MEDIA_AUDIO ->
      mSourceResX (fst r) = x /\ mSourceResY (fst r) = y)
  /\ SetVideoGrabResolution_codec AV_CODEC_ID_H261 x y
     = (if resolution_supported AV_CODEC_ID_H261 x y then (x, y) else (352, 288))
  /\ SetVideoGrabResolution_codec AV_CODEC_ID_H263 x y
     = (if (x =? 128) && (y =? 96) then (176, 144)
        else if (x =? 1408) && (y =? 1152) then (704, 576)
        else if resolution_supported AV_CODEC_ID_H263 x y then (x, y)
        else (352, 288)).
Proof.
  cbv zeta. split; [|split; [|split]].
  - intros Ht. unfold SetVideoGrabResolution. rewrite Ht. reflexivity.
  - intros Ht. unfold SetVideoGrabResolution.
    assert (G : (if negb (x =? mSourceResX m) || negb (y =? mSourceResY m)
                 then
                   let m0 := set_mSourceResX x m in
                   let m1 := set_mSourceResY y m0 in
                   let '(tResX, tResY) :=
                     SetVideoGrabResolution_codec (mStreamCodecId m1) x y in
                   let tLog :=
                     SetVideoGrabResolution_codec_log (mStreamCodecId m1) x y
                     ++ (if negb (tResX =? x) || negb (tResY =? y)
                         then [LOG LOG_WARN "Codec doesn't support video resolution"]
                         else []) in
                   if mMediaSourceOpened m1
                   then let '(_, m2) := CloseMuxer m1 in
                        (snd (OpenVideoMuxer env m2 (mSourceResX m2)
                                (mSourceResY m2) (mInputFrameRate m2) tNow), tLog)
                   else (m1, tLog)
                 else (m, [])) = SetVideoGrabResolution env m x y tNow).
    { unfold SetVideoGrabResolution. destruct (mMediaType m); try reflexivity.
      contradiction. }
    assert (K : mSourceResX (fst (SetVideoGrabResolution env m x y tNow)) = x
                /\ mSourceResY (fst (SetVideoGrabResolution env m x y tNow)) = y).
    { rewrite <- G. clear G.
      destruct (negb (x =? mSourceResX m) || negb (y =? mSourceResY m)) eqn:E.
      - cbv zeta.
        destruct (SetVideoGrabResolution_codec _ x y) as [tx ty].
        destruct (mMediaSourceOpened (set_mSourceResY y (set_mSourceResX x m)))
          eqn:Eo.
        + destruct (CloseMuxer_fields (set_mSourceResY y (set_mSourceResX x m)))
            as (_ & Co & _).
          assert (Cx : mSourceResX
                         (snd (CloseMuxer (set_mSourceResY y (set_mSourceResX x m))))
                       = x) by (destruct m; reflexivity).
          assert (Cy : mSourceResY
                         (snd (CloseMuxer (set_mSourceResY y (set_mSourceResX x m))))
                       = y) by (destruct m; reflexivity).
          revert Co Cx Cy.
          destruct (CloseMuxer (set_mSourceResY y (set_mSourceResX x m)))
            as [r0 m2].
          cbn [fst snd]. intros Co Cx Cy.
          rewrite Cx, Cy.
          apply OpenVideoMuxer_source_resolution. exact Co.
        + cbn [fst]. split; reflexivity.
      - apply orb_false_iff in E. destruct E as [E1 E2].
        apply negb_false_iff, Z.eqb_eq in E1.
        apply negb_false_iff, Z.eqb_eq in E2.
        cbn [fst]. split; congruence. }
    fold (SetVideoGrabResolution env m x y tNow). exact K.
  - cbn [SetVideoGrabResolution_codec resolution_supported].
    destruct (((x =? 176) && (y =? 144)) || ((x =? 352) && (y =? 288))) eqn:E;
      [|reflexivity].
    apply orb_true_iff in E.
    destruct E as [E|E]; apply andb_true_iff in E; destruct E as [E1 E2];
      apply Z.eqb_eq in E1; apply Z.eqb_eq in E2; subst; reflexivity.
  - cbn [SetVideoGrabResolution_codec resolution_supported].
    destruct (((x =? 128) && (y =? 96)) || ((x =? 176) && (y =? 144))
              || ((x =? 352) && (y =? 288)) || ((x =? 704) && (y =? 576))
              || ((x =? 1408) && (y =? 1152))) eqn:E.
    + repeat (apply orb_true_iff in E; destruct E as [E|E]);
        apply andb_true_iff in E; destruct E as [E1 E2];
        apply Z.eqb_eq in E1; apply Z.eqb_eq in E2; subst; reflexivity.
    + repeat (apply orb_false_iff in E; destruct E as [E ?]).
      rewrite E.
      match goal with H : (x =? 1408) && (y =? 1152) = false |- _ => rewrite H end.
      reflexivity.
Qed.

(** ** Flipping the picture *)

Lemma nth_error_middle (A : Type) (l1 l2 : list A) (x : A) :
  nth_error (l1 ++ x :: l2) (List.length l1) = Some x.
Proof. induction l1 as [|y l1 IH]; [reflexivity | exact IH]. Qed.

Lemma set_nth_middle (A : Type) (l1 l2 : list A) (x v : A) :
  set_nth (List.length l1) v (l1 ++ x :: l2) = l1 ++ v :: l2.
Proof.
  induction l1 as [|y l1 IH]; [reflexivity|]. cbn. rewrite IH. reflexivity.
Qed.






(** *** The horizontal flip *)

Lemma HFlip_columns_spec (A : Type) (n : nat) :
  forall (l0 p mid q l1 : list A) (w : nat),
  List.length p = List.length q ->
  w = (List.length p + List.length mid + List.length q)%nat ->
  (List.length mid = 2 * n \/ List.length mid = 2 * n + 1)%nat ->
  HFlip_columns n (List.length l0) w (List.length p)
    (l0 ++ p ++ mid ++ q ++ l1)
  = Some (l0 ++ p ++ rev mid ++ q ++ l1).
Proof.
  induction n as [|n IH]; intros l0 p mid q l1 w Hpq Hw Hn.
  - cbn [HFlip_columns].
    destruct mid as [|x [|y mid]]; cbn in Hn; try lia; reflexivity.
  - destruct mid as [|x mid]; [cbn in Hn; lia|].
    destruct (exists_last (l := mid)) as (mid' & y & ->).
    { intros ->. cbn in Hn. lia. }
    cbn [List.length] in Hn, Hw. rewrite length_app in Hn, Hw. cbn in Hn, Hw.
    cbn [HFlip_columns]. unfold bind.
    replace (List.length l0 + List.length p)%nat
      with (List.length (l0 ++ p)) by apply length_app.
    replace (l0 ++ p ++ (x :: mid' ++ [y]) ++ q ++ l1)
      with ((l0 ++ p) ++ x :: (mid' ++ y :: q ++ l1))
      by (rewrite <- !app_assoc; cbn; rewrite <- !app_assoc; reflexivity).
    rewrite nth_error_middle.
    replace (List.length l0 + (w - List.length p - 1))%nat
      with (List.length ((l0 ++ p) ++ x :: mid'))
      by (rewrite !length_app; cbn; lia).
    replace ((l0 ++ p) ++ x :: mid' ++ y :: q ++ l1)
      with (((l0 ++ p) ++ x :: mid') ++ y :: (q ++ l1))
      by (rewrite <- !app_assoc; reflexivity).
    rewrite nth_error_middle.
    replace (((l0 ++ p) ++ x :: mid') ++ y :: q ++ l1)
      with ((l0 ++ p) ++ x :: (mid' ++ y :: q ++ l1))
      by (rewrite <- !app_assoc; reflexivity).
    rewrite set_nth_middle.
    replace ((l0 ++ p) ++ y :: mid' ++ y :: q ++ l1)
      with (((l0 ++ p) ++ y :: mid') ++ y :: (q ++ l1))
      by (rewrite <- !app_assoc; reflexivity).
    replace (List.length ((l0 ++ p) ++ x :: mid'))
      with (List.length ((l0 ++ p) ++ y :: mid'))
      by (rewrite !length_app; reflexivity).
    rewrite set_nth_middle.
    replace (((l0 ++ p) ++ y :: mid') ++ x :: q ++ l1)
      with (l0 ++ (p ++ [y]) ++ mid' ++ (x :: q) ++ l1)
      by (rewrite <- !app_assoc; reflexivity).
    replace (S (List.length p)) with (List.length (p ++ [y]))
      by (rewrite length_app; cbn; lia).
    rewrite (IH l0 (p ++ [y]) mid' (x :: q) l1 w).
    + cbn [rev]. rewrite rev_app_distr. cbn [rev app].
      rewrite <- !app_assoc. reflexivity.
    + rewrite length_app. cbn. lia.
    + rewrite length_app. cbn. lia.
    + lia.
Qed.

Lemma HFlip_rows_spec (A : Type) (w : nat) (rows : list (list A)) :
  Forall (fun r => List.length r = w) rows ->
  forall (l0 l1 : list A),
  HFlip_rows (List.length rows) (List.length l0) w (w / 2)
    (l0 ++ List.concat rows ++ l1)
  = Some (l0 ++ List.concat (map (@rev A) rows) ++ l1).
Proof.
  induction 1 as [|r rows Hr _ IH]; intros l0 l1; [reflexivity|].
  cbn [List.length HFlip_rows List.concat map]. unfold bind.
  pose proof (HFlip_columns_spec A (w / 2) l0 [] r [] (List.concat rows ++ l1) w)
    as C.
  cbn [List.length app] in C. rewrite <- app_assoc. rewrite C.
  - replace (List.length l0 + w)%nat with (List.length (l0 ++ rev r))
      by (rewrite length_app, length_rev; lia).
    rewrite (app_assoc l0 (rev r)), IH, <- !app_assoc. reflexivity.
  - reflexivity.
  - lia.
  - rewrite Hr. pose proof (Nat.div_mod_eq w 2) as D.
    pose proof (Nat.mod_upper_bound w 2 ltac:(lia)) as M.
    destruct (Nat.eq_dec (w mod 2) 0); [left | right]; lia.
Qed.

(** *** The vertical flip *)



Lemma half_of_nat (h : nat) :
  Z.to_nat (Z.quot (Z.of_nat h) 2) = (h / 2)%nat
  /\ (h = 2 * (h / 2) \/ h = 2 * (h / 2) + 1)%nat.
Proof.
  split.
  - rewrite Z.quot_div_nonneg by lia.
    change 2 with (Z.of_nat 2). rewrite <- Nat2Z.inj_div. apply Nat2Z.id.
  - pose proof (Nat.div_mod_eq h 2) as D.
    pose proof (Nat.mod_upper_bound h 2 ltac:(lia)) as M.
    destruct (Nat.eq_dec (h mod 2) 0); [left | right]; lia.
Qed.


Lemma GrabChunk_HFlip_mirrors_the_rows_lemma (A : Type) (w h : nat)
    (rows : list (list A)) (rest : list A) :
  picture_rows w h rows ->
  GrabChunk_HFlip (Z.of_nat w) (Z.of_nat h) (List.concat rows ++ rest)
  = Some (List.concat (map (@rev A) rows) ++ rest).
Proof.
  intros H.
  destruct H as [Hh Hw]. unfold GrabChunk_HFlip.
  destruct (half_of_nat w) as [E _]. rewrite E, !Nat2Z.id, <- Hh.
  exact (HFlip_rows_spec A w rows Hw [] rest).
Qed.



(** X19: the horizontal flip mirrors every row of the picture.  For a
    buffer that holds a picture of [h] rows of [w] pixels, and possibly
    more behind it, the loops have a result, each row of the result is
    the row of the picture from its last pixel to its first, the rows
    are in their order, and what is behind the picture is untouched. *)
Theorem GrabChunk_HFlip_mirrors_the_rows (A : Type) (w h : nat)
    (rows : list (list A)) (rest : list A)
    (H : picture_rows w h rows) :
  GrabChunk_HFlip (Z.of_nat w) (Z.of_nat h) (List.concat rows ++ rest)
  = Some (List.concat (map (@rev A) rows) ++ rest).
Proof. exact (GrabChunk_HFlip_mirrors_the_rows_lemma A w h rows rest H). Qed.

Lemma GrabChunk_HFlip_mirrors_the_rows_witness :
  GrabChunk_HFlip 3 2 [1; 2; 3; 4; 5; 6; 7]
  = Some [3; 2; 1; 6; 5; 4; 7].
Proof.
  apply (GrabChunk_HFlip_mirrors_the_rows Z 3 2 [[1; 2; 3]; [4; 5; 6]] [7]).
  split; [reflexivity | repeat constructor].
Defined.




